(** * Starship production simulator: engine, ledger and KPIs

    A shallow embedding of [generate_data.py] (the batch engine
    [run_configurable_simulation]) and of [dashboard.py] (the embedded engine
    [run_simulation] and [calculate_kpis]).

    Modelling conventions.
    - A [datetime] is the integer number of microseconds since
      0001-01-01T00:00:00, the smallest [datetime] ([Z]); a [timedelta] is an
      integer number of microseconds.  Both have the ranges Python gives
      them: leaving one raises [OverflowError].
    - A Python [float] is the rational it denotes ([Q]); infinities and
      NaN are not modelled.  [timedelta(hours=h)] rounds as CPython does,
      the float product of the fractional part included.  A normal draw [z]
      stands for the standard-normal deviate as the result of
      [np.random.normal] reflects it: [loc + scale * z] is the float
      returned.  [round(x, 2)] and the quotient of the throughput are taken
      exactly.
    - The two global generators ([numpy.random] for durations, [random] for
      QC) are modelled as the lists of draws they will hand out, threaded
      through the run.  A run that needs a draw from an exhausted list stops
      with [OutOfDraws]: the [while True] loop has not finished on the draws
      given.
    - The entries of a configuration are records: a stage or a parameter
      section that lacks one of its keys (a [KeyError] when the key is
      read), or holds a value of another type, is outside the model.
    - Python dictionaries are [gmap]s, except [production_stages], whose
      iteration order is the processing order: an association list.
    - Exceptions are the non-[Ok] constructors of [result]. *)

From Stdlib Require Import ZArith QArith Qround Qabs Qpower.
From stdpp Require Import gmap strings list pretty.

Local Open Scope Z_scope.

(** ** Python and library primitives *)

Inductive result (A : Type) : Type :=
| Ok (a : A)
| KeyError (key : string)
| IndexError
| ValueError
| OutOfDraws
| OverflowError.
Arguments Ok {A} a.
Arguments KeyError {A} key.
Arguments IndexError {A}.
Arguments ValueError {A}.
Arguments OutOfDraws {A}.
Arguments OverflowError {A}.

Definition result_map {A B : Type} (f : A → B) (r : result A) : result B :=
  match r with
  | Ok a => Ok (f a)
  | KeyError k => KeyError k
  | IndexError => IndexError
  | ValueError => ValueError
  | OutOfDraws => OutOfDraws
  | OverflowError => OverflowError
  end.

Definition Qlt_bool (x y : Q) : bool :=
  match (x ?= y)%Q with Lt => true | _ => false end.

(** [max(a, b)] of Python: the first argument unless the second is larger. *)
Definition py_max_Q (a b : Q) : Q := if Qlt_bool a b then b else a.
Definition py_max_dt (a b : Z) : Z := if a <? b then b else a.

(** Round to the nearest integer, ties to the even one. *)
Definition round_half_even (q : Q) : Z :=
  let f := Qfloor q in
  match ((q - inject_Z f) ?= (1 # 2))%Q with
  | Lt => f
  | Gt => f + 1
  | Eq => if Z.even f then f else f + 1
  end.

Definition us_per_hour : Z := 3600000000.
Definition us_per_day : Z := 86400000000.

(** The binary64 number nearest to [q], ties to even, subnormals included
    (the products taken here stay far below the largest float). *)
Definition float_round (q : Q) : Q :=
  match Qnum q with
  | 0 => 0%Q
  | _ =>
      let a := Qabs q in
      let l := Z.log2 (Qnum a) - Z.log2 (Zpos (Qden a)) in
      let e := if Qle_bool (2 ^ l) a then l else l - 1 in
      let shift := Z.max (e - 52) (-1074) in
      let m := round_half_even (a / 2 ^ shift) in
      let r := (inject_Z m * 2 ^ shift)%Q in
      if Qlt_bool q 0 then (- r)%Q else r
  end.

(** [modf]: the integral part, towards zero. *)
Definition Qtrunc (q : Q) : Z := Z.quot (Qnum q) (Zpos (Qden q)).

(** The microseconds of [timedelta(hours=h)], as CPython's [accum] and
    [delta_new] compute them: the integral part of [h] times 3 600 000 000
    exactly, plus the float product of the fractional part with
    3 600 000 000, the sum rounded to the nearest integer, ties to even. *)
Definition timedelta_hours (h : Q) : Z :=
  let whole := Qtrunc h in
  let frac := (h - inject_Z whole)%Q in
  round_half_even
    (inject_Z (whole * us_per_hour) + float_round (frac * inject_Z us_per_hour)).

(** [datetime.max - datetime.min], in microseconds. *)
Definition datetime_max : Z := 315537897599999999.

(** [timedelta.min] and [timedelta.max]: 999 999 999 days either way (and the
    last microsecond of the last day), in microseconds. *)
Definition timedelta_min : Z := - (999999999 * us_per_day).
Definition timedelta_max : Z := 999999999 * us_per_day + (us_per_day - 1).

(** [timedelta(hours=h)]: more than 999 999 999 days either way raises. *)
Definition timedelta_of_hours (h : Q) : result Z :=
  let us := timedelta_hours h in
  if (timedelta_min <=? us) && (us <=? timedelta_max)
  then Ok us else OverflowError.

(** [datetime + timedelta]: a result outside the years 1 to 9999 raises. *)
Definition datetime_add (t delta : Z) : result Z :=
  let r := t + delta in
  if (0 <=? r) && (r <=? datetime_max) then Ok r else OverflowError.

Arguments timedelta_of_hours : simpl never.
Arguments datetime_add : simpl never.

(** [round(x, 2)]. *)
Definition round2 (x : Q) : Q :=
  (inject_Z (round_half_even (x * 100)) / 100)%Q.

(** [np.argmin]: index of the first smallest entry; an empty array raises. *)
Fixpoint argmin_from (best_i : nat) (best : Z) (i : nat) (l : list Z) : nat :=
  match l with
  | [] => best_i
  | x :: l' =>
      if x <? best then argmin_from i x (S i) l'
      else argmin_from best_i best (S i) l'
  end.

Definition np_argmin (l : list Z) : result nat :=
  match l with
  | [] => ValueError
  | x :: l' => Ok (argmin_from 0%nat x 1%nat l')
  end.

(** [np.random.normal(loc, scale)]: a negative scale raises before any draw
    is taken; otherwise the next standard-normal draw [z] is consumed and
    [loc + scale * z] returned. *)
Definition np_random_normal (loc scale : Q) (zs : list Q) : result (Q * list Q) :=
  if Qlt_bool scale 0 then ValueError
  else match zs with
       | [] => OutOfDraws
       | z :: zs' => Ok ((loc + scale * z)%Q, zs')
       end.

(** ** Configuration *)

Record StageParams : Type := {
  mean_time_hours : Q;
  std_dev_hours : Q;
  pass_rate : Q;
  station_count : Z
}.

(** [start_date] is held as the [datetime] that [strptime] parses it to. *)
Record SimParams : Type := {
  start_date : Z;
  num_starships : Z
}.

(** The dictionary read from [config.json]; [extra_keys] are the keys the
    engines never read. *)
Record ConfigDict : Type := {
  simulation_parameters : option SimParams;
  production_stages : option (list (string * StageParams));
  extra_keys : list string
}.

(** [load_config] returns the dictionary, or [None] when the file is missing. *)
Inductive Config : Type :=
| ConfigNone
| ConfigDictOf (d : ConfigDict).

(** [not config] *)
Definition config_falsy (c : Config) : bool :=
  match c with
  | ConfigNone => true
  | ConfigDictOf d =>
      match simulation_parameters d, production_stages d, extra_keys d with
      | None, None, [] => true
      | _, _, _ => false
      end
  end.

Definition dict_get {A : Type} (key : string) (o : option A) : result A :=
  match o with
  | Some a => Ok a
  | None => KeyError key
  end.

(** [f"SN{100 + i}"] *)
Definition ship_id_of (i : nat) : string := "SN" +:+ pretty (100 + i)%nat.

(** [[start_date] * station_count]: a non-positive count gives []. *)
Definition init_stations (start : Z) (count : Z) : list Z :=
  replicate (Z.to_nat count) start.

(** The dict comprehension building [station_availability]; a later
    assignment to the same key replaces the earlier one. *)
Definition init_availability (start : Z) (stages : list (string * StageParams))
  : gmap string (list Z) :=
  fold_left (fun m kv => <[kv.1 := init_stations start (station_count kv.2)]> m)
            stages ∅.

(** [range(1, n + 1)] *)
Definition ship_range (n : Z) : list nat := seq 1 (Z.to_nat n).

(** ** Simulation state *)

(** The three mutable objects of a run: the per-stage station availability
    lists, the per-ship completion times and the production log. *)
Record SimState (E : Type) : Type := {
  station_availability : gmap string (list Z);
  ship_completion_times : gmap string Z;
  production_log : list E
}.
Arguments station_availability {E} _.
Arguments ship_completion_times {E} _.
Arguments production_log {E} _.

(** What a loop hands to the code after it: the state and both generators. *)
Definition Run (E : Type) : Type := (SimState E * list Q * list Q)%type.

#[global] Instance result_ret : MRet result := fun _ a => Ok a.
#[global] Instance result_bind : MBind result := fun _ _ f r =>
  match r with
  | Ok a => f a
  | KeyError k => KeyError k
  | IndexError => IndexError
  | ValueError => ValueError
  | OutOfDraws => OutOfDraws
  | OverflowError => OverflowError
  end.

Definition list_get {A : Type} (l : list A) (i : nat) : result A :=
  match l !! i with
  | Some a => Ok a
  | None => IndexError
  end.

Definition initial_state {E : Type} (start : Z)
    (stages : list (string * StageParams)) : SimState E :=
  {| station_availability := init_availability start stages;
     ship_completion_times := ∅;
     production_log := [] |}.

(** [ship_completion_times[ship_id] = start_date] *)
Definition enter_ship {E : Type} (ship : string) (start : Z)
    (st : SimState E) : SimState E :=
  {| station_availability := station_availability st;
     ship_completion_times := <[ship := start]> (ship_completion_times st);
     production_log := production_log st |}.

(** ** The batch engine of [generate_data.py] *)

Module GenerateData.

Record Event : Type := {
  ship_id : string;
  stage : string;
  station_id : string;
  start_time : Z;
  end_time : Z;
  duration_hours : Q;
  qc_passed : bool
}.

(** The [while True] loop of one ship at one stage.  Each turn takes one QC
    draw, so the loop is structural in [us]. *)
Fixpoint stage_loop (ship stage_name : string) (sp : StageParams)
    (zs us : list Q) (st : SimState Event) {struct us} : result (Run Event) :=
  avail ← dict_get stage_name (station_availability st !! stage_name);
  station_idx ← np_argmin avail;
  available_time ← list_get avail station_idx;
  ready ← dict_get ship (ship_completion_times st !! ship);
  let start_time := py_max_dt ready available_time in
  '(sample, zs') ← np_random_normal (mean_time_hours sp) (std_dev_hours sp) zs;
  let processing_time_hours := py_max_Q 1 sample in
  duration ← timedelta_of_hours processing_time_hours;
  end_time ← datetime_add start_time duration;
  match us with
  | [] => OutOfDraws
  | u :: us' =>
      let passed := Qlt_bool u (pass_rate sp) in
      let log :=
        production_log st ++
        [ {| ship_id := ship;
             stage := stage_name;
             station_id := stage_name +:+ "_" +:+ pretty (station_idx + 1)%nat;
             start_time := start_time;
             end_time := end_time;
             duration_hours := round2 processing_time_hours;
             qc_passed := passed |} ] in
      if passed then
        Ok ({| station_availability :=
                 <[stage_name := <[station_idx := end_time]> avail]>
                   (station_availability st);
               ship_completion_times :=
                 <[ship := end_time]> (ship_completion_times st);
               production_log := log |}, zs', us')
      else
        let rework_penalty := (mean_time_hours sp * (1 # 4))%Q in
        rework ← timedelta_of_hours rework_penalty;
        rework_end_time ← datetime_add end_time rework;
        stage_loop ship stage_name sp zs' us'
          {| station_availability :=
               <[stage_name := <[station_idx := rework_end_time]> avail]>
                 (station_availability st);
             ship_completion_times :=
               <[ship := rework_end_time]> (ship_completion_times st);
             production_log := log |}
  end.

(** [for stage_name, stage_params in stages.items()] *)
Fixpoint stages_loop (ship : string) (stages : list (string * StageParams))
    (zs us : list Q) (st : SimState Event) : result (Run Event) :=
  match stages with
  | [] => Ok (st, zs, us)
  | (stage_name, sp) :: rest =>
      '(st', zs', us') ← stage_loop ship stage_name sp zs us st;
      stages_loop ship rest zs' us' st'
  end.

(** [for i in range(1, num_starships + 1)] *)
Fixpoint ships_loop (start : Z) (stages : list (string * StageParams))
    (ships : list nat) (zs us : list Q) (st : SimState Event)
    : result (Run Event) :=
  match ships with
  | [] => Ok (st, zs, us)
  | i :: rest =>
      let ship := ship_id_of i in
      '(st', zs', us') ← stages_loop ship stages zs us (enter_ship ship start st);
      ships_loop start stages rest zs' us' st'
  end.

(** Everything after the [if not config] guard, with the final state and
    what is left of the generators. *)
Definition simulate (d : ConfigDict) (zs us : list Q) : result (Run Event) :=
  params ← dict_get "simulation_parameters" (simulation_parameters d);
  stages ← dict_get "production_stages" (production_stages d);
  ships_loop (start_date params) stages (ship_range (num_starships params))
             zs us (initial_state (start_date params) stages).

Definition run_configurable_simulation (config : Config) (zs us : list Q)
    : result (list Event) :=
  if config_falsy config then Ok []
  else match config with
       | ConfigNone => Ok [] (* [None] never passes the guard *)
       | ConfigDictOf d =>
           result_map (fun r : Run Event => production_log r.1.1)
                      (simulate d zs us)
       end.

End GenerateData.

(** ** The embedded engine and the KPI calculator of [dashboard.py] *)

Module Dashboard.

Record Event : Type := {
  ship_id : string;
  stage : string;
  start_time : Z;
  end_time : Z
}.

Fixpoint stage_loop (ship stage_name : string) (sp : StageParams)
    (zs us : list Q) (st : SimState Event) {struct us} : result (Run Event) :=
  avail ← dict_get stage_name (station_availability st !! stage_name);
  station_idx ← np_argmin avail;
  available_time ← list_get avail station_idx;
  ready ← dict_get ship (ship_completion_times st !! ship);
  let start_time := py_max_dt ready available_time in
  '(sample, zs') ← np_random_normal (mean_time_hours sp) (std_dev_hours sp) zs;
  let processing_time_hours := py_max_Q 1 sample in
  duration ← timedelta_of_hours processing_time_hours;
  end_time ← datetime_add start_time duration;
  match us with
  | [] => OutOfDraws
  | u :: us' =>
      let passed := Qlt_bool u (pass_rate sp) in
      let log :=
        production_log st ++
        [ {| ship_id := ship; stage := stage_name;
             start_time := start_time; end_time := end_time |} ] in
      if passed then
        Ok ({| station_availability :=
                 <[stage_name := <[station_idx := end_time]> avail]>
                   (station_availability st);
               ship_completion_times :=
                 <[ship := end_time]> (ship_completion_times st);
               production_log := log |}, zs', us')
      else
        let rework_penalty := (mean_time_hours sp * (1 # 4))%Q in
        rework ← timedelta_of_hours rework_penalty;
        rework_end_time ← datetime_add end_time rework;
        stage_loop ship stage_name sp zs' us'
          {| station_availability :=
               <[stage_name := <[station_idx := rework_end_time]> avail]>
                 (station_availability st);
             ship_completion_times :=
               <[ship := rework_end_time]> (ship_completion_times st);
             production_log := log |}
  end.

Fixpoint stages_loop (ship : string) (stages : list (string * StageParams))
    (zs us : list Q) (st : SimState Event) : result (Run Event) :=
  match stages with
  | [] => Ok (st, zs, us)
  | (stage_name, sp) :: rest =>
      '(st', zs', us') ← stage_loop ship stage_name sp zs us st;
      stages_loop ship rest zs' us' st'
  end.

Fixpoint ships_loop (start : Z) (stages : list (string * StageParams))
    (ships : list nat) (zs us : list Q) (st : SimState Event)
    : result (Run Event) :=
  match ships with
  | [] => Ok (st, zs, us)
  | i :: rest =>
      let ship := ship_id_of i in
      '(st', zs', us') ← stages_loop ship stages zs us (enter_ship ship start st);
      ships_loop start stages rest zs' us' st'
  end.

(** Everything after the [if not config] guard.  [num_starships] is read
    here, before the station lists are built; the batch engine reads it at
    its [for] statement.  On records, which hold every key, the two orders
    give the same outcome. *)
Definition simulate (d : ConfigDict) (zs us : list Q) : result (Run Event) :=
  params ← dict_get "simulation_parameters" (simulation_parameters d);
  stages ← dict_get "production_stages" (production_stages d);
  let num_ships := num_starships params in
  ships_loop (start_date params) stages (ship_range num_ships)
             zs us (initial_state (start_date params) stages).

Definition run_simulation (config : Config) (zs us : list Q)
    : result (list Event) :=
  if config_falsy config then Ok []
  else match config with
       | ConfigNone => Ok [] (* [None] never passes the guard *)
       | ConfigDictOf d =>
           result_map (fun r : Run Event => production_log r.1.1)
                      (simulate d zs us)
       end.

(** *** [calculate_kpis] *)

Definition terminal_stage : string := "Final_Checkout".

(** [Series.max()] and [Series.min()] of a column with first entry [x]. *)
Definition series_max (x : Z) (l : list Z) : Z := foldr Z.max x l.
Definition series_min (x : Z) (l : list Z) : Z := foldr Z.min x l.

(** [Series.nunique()] *)
Definition nunique (l : list string) : Z := Z.of_nat (length (remove_dups l)).

(** [Timedelta.days]: whole days, rounded towards minus infinity. *)
Definition timedelta_days (us : Z) : Z := us / us_per_day.

(** The triple [(total_ships, throughput, total_time)]. *)
Definition calculate_kpis (dataframe : list Event) : Z * Q * Z :=
  match dataframe with
  | [] => (0, 0%Q, 0)
  | row :: rows =>
      let df_completed :=
        filter (fun e => stage e = terminal_stage) dataframe in
      match df_completed with
      | [] => (0, 0%Q, 0)
      | _ :: _ =>
          let total_ships := nunique (ship_id <$> df_completed) in
          let total_time :=
            timedelta_days (series_max (end_time row) (end_time <$> rows)
                            - series_min (start_time row) (start_time <$> rows)) in
          let throughput :=
            if 0 <? total_time
            then (inject_Z total_ships / (inject_Z total_time / 7))%Q
            else 0%Q in
          (total_ships, throughput, total_time)
      end
  end.

End Dashboard.

(** ** One turn of the [while True] loop

    The body of the loop is the same text in both engines up to the row it
    appends; [attempt] is that body with the row constructor left open, and
    the two [_unfold] lemmas below tie each engine's loop to it. *)

Definition attempt {E : Type}
    (mk_event : string → string → nat → Z → Z → Q → bool → E)
    (ship stage_name : string) (sp : StageParams)
    (zs us : list Q) (st : SimState E) : result (bool * Run E) :=
  avail ← dict_get stage_name (station_availability st !! stage_name);
  station_idx ← np_argmin avail;
  available_time ← list_get avail station_idx;
  ready ← dict_get ship (ship_completion_times st !! ship);
  let start_time := py_max_dt ready available_time in
  '(sample, zs') ← np_random_normal (mean_time_hours sp) (std_dev_hours sp) zs;
  let processing_time_hours := py_max_Q 1 sample in
  duration ← timedelta_of_hours processing_time_hours;
  end_time ← datetime_add start_time duration;
  match us with
  | [] => OutOfDraws
  | u :: us' =>
      let passed := Qlt_bool u (pass_rate sp) in
      free_at ←
        (if passed then Ok end_time
         else rework ← timedelta_of_hours (mean_time_hours sp * (1 # 4))%Q;
              datetime_add end_time rework);
      Ok (passed,
          ({| station_availability :=
                <[stage_name := <[station_idx := free_at]> avail]>
                  (station_availability st);
              ship_completion_times :=
                <[ship := free_at]> (ship_completion_times st);
              production_log :=
                production_log st ++
                [mk_event ship stage_name station_idx start_time end_time
                          processing_time_hours passed] |}, zs', us'))
  end.

Definition batch_event (ship stage_name : string) (station_idx : nat)
    (start_time end_time : Z) (hours : Q) (passed : bool)
    : GenerateData.Event :=
  {| GenerateData.ship_id := ship;
     GenerateData.stage := stage_name;
     GenerateData.station_id :=
       stage_name +:+ "_" +:+ pretty (station_idx + 1)%nat;
     GenerateData.start_time := start_time;
     GenerateData.end_time := end_time;
     GenerateData.duration_hours := round2 hours;
     GenerateData.qc_passed := passed |}.

Definition dashboard_event (ship stage_name : string) (station_idx : nat)
    (start_time end_time : Z) (hours : Q) (passed : bool)
    : Dashboard.Event :=
  {| Dashboard.ship_id := ship; Dashboard.stage := stage_name;
     Dashboard.start_time := start_time; Dashboard.end_time := end_time |}.

(** Pass: leave the loop.  Fail: go round again on what the turn left. *)
Definition continue_with {E : Type}
    (loop : list Q → list Q → SimState E → result (Run E))
    (turn : bool * Run E) : result (Run E) :=
  if turn.1 then Ok turn.2 else loop turn.2.1.2 turn.2.2 turn.2.1.1.

(** ** Definitions used by the statements *)

(** The columns both ledgers carry. *)
Definition project (e : GenerateData.Event) : Dashboard.Event :=
  {| Dashboard.ship_id := GenerateData.ship_id e;
     Dashboard.stage := GenerateData.stage e;
     Dashboard.start_time := GenerateData.start_time e;
     Dashboard.end_time := GenerateData.end_time e |}.

Definition project_state (st : SimState GenerateData.Event)
    : SimState Dashboard.Event :=
  {| station_availability := station_availability st;
     ship_completion_times := ship_completion_times st;
     production_log := project <$> production_log st |}.

Definition project_run (r : Run GenerateData.Event) : Run Dashboard.Event :=
  (project_state r.1.1, r.1.2, r.2).

(** The state any completed turn leaves behind: the selected station and the
    ship are both set to [free_at], and the turn's row is appended. *)
Definition after_turn {E : Type} (e : E) (stage_name ship : string)
    (avail : list Z) (idx : nat) (free_at : Z) (st : SimState E)
    : SimState E :=
  {| station_availability :=
       <[stage_name := <[idx := free_at]> avail]> (station_availability st);
     ship_completion_times := <[ship := free_at]> (ship_completion_times st);
     production_log := production_log st ++ [e] |}.

(** Python's ranges: the [timedelta] of a number of hours can be built, and
    a time is a [datetime]. *)
Definition timedelta_in_range (h : Q) : Prop :=
  timedelta_min ≤ timedelta_hours h ≤ timedelta_max.
Definition in_calendar (t : Z) : Prop := 0 ≤ t ≤ datetime_max.

(** The rows of a ledger that belong to one ship at one stage, in order. *)
Definition events_of (ship stage_name : string)
    (ledger : list GenerateData.Event) : list GenerateData.Event :=
  filter (fun e => GenerateData.ship_id e = ship
                   ∧ GenerateData.stage e = stage_name) ledger.

(** The constraints the data model puts on a stage. *)
Definition valid_stage (sp : StageParams) : Prop :=
  (0 < mean_time_hours sp)%Q
  ∧ (0 <= std_dev_hours sp)%Q
  ∧ (0 <= pass_rate sp)%Q ∧ (pass_rate sp <= 1)%Q
  ∧ 1 ≤ station_count sp.

(** A dictionary with both sections, at least one unit, distinct stage names
    (they are dictionary keys) and valid stages. *)
Definition well_formed (d : ConfigDict) (params : SimParams)
    (stages : list (string * StageParams)) : Prop :=
  simulation_parameters d = Some params
  ∧ production_stages d = Some stages
  ∧ 1 ≤ num_starships params
  ∧ NoDup stages.*1
  ∧ Forall (fun kv => valid_stage kv.2) stages.

(** How the retry loops eat the QC draws: a stage takes draws up to and
    including the first one below its pass rate.  [None]: the draws run out
    before that. *)
Fixpoint qc_until_pass (rate : Q) (us : list Q) : option (list Q) :=
  match us with
  | [] => None
  | u :: us' => if Qlt_bool u rate then Some us' else qc_until_pass rate us'
  end.

Fixpoint qc_stages (stages : list (string * StageParams)) (us : list Q)
    : option (list Q) :=
  match stages with
  | [] => Some us
  | (_, sp) :: rest =>
      match qc_until_pass (pass_rate sp) us with
      | Some us' => qc_stages rest us'
      | None => None
      end
  end.

Fixpoint qc_ships (stages : list (string * StageParams)) (ships : list nat)
    (us : list Q) : option (list Q) :=
  match ships with
  | [] => Some us
  | _ :: rest =>
      match qc_stages stages us with
      | Some us' => qc_ships stages rest us'
      | None => None
      end
  end.

(** An outcome that is no fault of the configuration: a ledger, a retry loop
    still running when the draws end, or a time outside Python's ranges. *)
Definition outcome_without_fault {A : Type} (r : result A) : Prop :=
  match r with
  | Ok _ | OutOfDraws | OverflowError => True
  | KeyError _ | IndexError | ValueError => False
  end.

(** No station is booked, and no ship is ready, before the first [datetime]
    or after [hi]. *)
Definition times_within {E : Type} (hi : Z) (st : SimState E) : Prop :=
  (∀ name l, station_availability st !! name = Some l →
     Forall (fun t => 0 ≤ t ≤ hi) l)
  ∧ (∀ ship t, ship_completion_times st !! ship = Some t → 0 ≤ t ≤ hi).

(** How long an attempt with normal draw [z] can keep its station: the
    duration and, should QC fail, the rework. *)
Definition turn_length (sp : StageParams) (z : Q) : Z :=
  timedelta_hours (py_max_Q 1 (mean_time_hours sp + std_dev_hours sp * z)%Q)
  + timedelta_hours (mean_time_hours sp * (1 # 4))%Q.

Definition turns_within (bound : Z) (stages : list (string * StageParams))
    (zs : list Q) : Prop :=
  Forall (fun z =>
            Forall (fun kv : string * StageParams =>
                      turn_length kv.2 z ≤ bound) stages) zs.

(** Every configured stage has a non-empty availability list and the ship
    being driven has a completion time: no lookup of a turn can fail. *)
Definition stations_ready {E : Type} (stages : list (string * StageParams))
    (st : SimState E) : Prop :=
  ∀ name sp, (name, sp) ∈ stages →
    ∃ l, station_availability st !! name = Some l ∧ l ≠ [].

Definition ready_for {E : Type} (stages : list (string * StageParams))
    (ship : string) (st : SimState E) : Prop :=
  stations_ready stages st ∧ is_Some (ship_completion_times st !! ship).

(** The dictionary [{}]. *)
Definition empty_dict : ConfigDict :=
  {| simulation_parameters := None; production_stages := None;
     extra_keys := [] |}.

(** A well-formed configuration whose only stage can never pass QC. *)
Definition never_passing : ConfigDict :=
  {| simulation_parameters := Some {| start_date := 0; num_starships := 1 |};
     production_stages :=
       Some [("Final_Checkout",
              {| mean_time_hours := 10; std_dev_hours := 1;
                 pass_rate := 0; station_count := 1 |})];
     extra_keys := [] |}.

Definition welding : StageParams :=
  {| mean_time_hours := 8; std_dev_hours := 0; pass_rate := 1 # 2;
     station_count := 2 |}.

Definition final_checkout : StageParams :=
  {| mean_time_hours := 10; std_dev_hours := 0; pass_rate := 1;
     station_count := 1 |}.

Definition two_stage_params : SimParams :=
  {| start_date := 0; num_starships := 2 |}.

Definition two_stage_line : list (string * StageParams) :=
  [("Welding", welding); ("Final_Checkout", final_checkout)].

Definition two_stage_dict : ConfigDict :=
  {| simulation_parameters := Some two_stage_params;
     production_stages := Some two_stage_line;
     extra_keys := [] |}.

(** Five turns: the first welding attempt of SN101 fails QC. *)
Definition five_normals : list Q := [0; 0; 0; 0; 0]%Q.
Definition five_uniforms : list Q := [3 # 4; 1 # 4; 0; 1 # 3; 9 # 10]%Q.

Definition two_stage_ledger : list GenerateData.Event :=
  Eval vm_compute in
    match GenerateData.run_configurable_simulation
            (ConfigDictOf two_stage_dict) five_normals five_uniforms with
    | Ok ledger => ledger
    | _ => []
    end.

(** The state in which SN101 enters the line. *)
Definition sn101_enters : SimState GenerateData.Event :=
  enter_ship "SN101" 0 (initial_state 0 two_stage_line).

(** The state after SN101's first, failed, welding attempt. *)
Definition sn101_after_fail : SimState GenerateData.Event :=
  Eval vm_compute in
    match attempt batch_event "SN101" "Welding" welding
            five_normals five_uniforms sn101_enters with
    | Ok turn => turn.2.1.1
    | _ => sn101_enters
    end.

(** A line whose last stage is not called [Final_Checkout], and the ledger
    the dashboard engine returns for it. *)
Definition welding_only_dict : ConfigDict :=
  {| simulation_parameters := Some two_stage_params;
     production_stages := Some [("Welding", welding)];
     extra_keys := [] |}.

Definition welding_only_rows : list Dashboard.Event :=
  Eval vm_compute in
    match Dashboard.run_simulation (ConfigDictOf welding_only_dict)
            five_normals five_uniforms with
    | Ok rows => rows
    | _ => []
    end.

Definition kpi_rows : list Dashboard.Event :=
  [ {| Dashboard.ship_id := "SN101"; Dashboard.stage := "Welding";
       Dashboard.start_time := 0; Dashboard.end_time := 2 * us_per_day |};
    {| Dashboard.ship_id := "SN101"; Dashboard.stage := "Final_Checkout";
       Dashboard.start_time := 2 * us_per_day;
       Dashboard.end_time := 10 * us_per_day |};
    {| Dashboard.ship_id := "SN102"; Dashboard.stage := "Final_Checkout";
       Dashboard.start_time := 10 * us_per_day;
       Dashboard.end_time := 15 * us_per_day |} ].

(** ** Definitions used by the further properties *)

(** The rows start no earlier than [t0], each row ends after it starts and
    starts no earlier than the row before it ends, and the last row ends no
    later than [t1]. *)
Fixpoint in_sequence (t0 : Z) (rows : list GenerateData.Event) (t1 : Z)
    : Prop :=
  match rows with
  | [] => t0 ≤ t1
  | e :: rest =>
      t0 ≤ GenerateData.start_time e
      ∧ GenerateData.start_time e ≤ GenerateData.end_time e
      ∧ in_sequence (GenerateData.end_time e) rest t1
  end.

(** Two rows were worked at the same station. *)
Definition same_station (e1 e2 : GenerateData.Event) : Prop :=
  GenerateData.stage e1 = GenerateData.stage e2
  ∧ GenerateData.station_id e1 = GenerateData.station_id e2.

(** Every station is held at least until the end of each row logged for
    it. *)
Definition stations_cover_log (st : SimState GenerateData.Event) : Prop :=
  ∀ e l idx v,
    e ∈ production_log st →
    station_availability st !! GenerateData.stage e = Some l →
    GenerateData.station_id e
    = GenerateData.stage e +:+ "_" +:+ pretty (idx + 1)%nat →
    l !! idx = Some v →
    GenerateData.end_time e ≤ v.

(** No row starts at a station before an earlier row of that station has
    ended. *)
Definition never_double_booked (ledger : list GenerateData.Event) : Prop :=
  ∀ i j ei ej,
    (i < j)%nat →
    ledger !! i = Some ei → ledger !! j = Some ej →
    same_station ei ej →
    GenerateData.end_time ei ≤ GenerateData.start_time ej.

(** Each configured stage has as many availability entries as stations. *)
Definition stations_counted {E : Type} (stages : list (string * StageParams))
    (st : SimState E) : Prop :=
  ∀ name sp, (name, sp) ∈ stages →
    ∃ l, station_availability st !! name = Some l
         ∧ length l = Z.to_nat (station_count sp).

(** The row was made at a configured stage whose [std_dev_hours] is not
    negative, at one of that stage's stations, numbered from 1. *)
Definition row_at_configured_station (stages : list (string * StageParams))
    (e : GenerateData.Event) : Prop :=
  ∃ sp k,
    (GenerateData.stage e, sp) ∈ stages
    ∧ (0 <= std_dev_hours sp)%Q
    ∧ (1 ≤ k)%nat ∧ Z.of_nat k ≤ station_count sp
    ∧ GenerateData.station_id e
      = GenerateData.stage e +:+ "_" +:+ pretty k.

(** The attempts of one unit at one stage: at least one row, all of that
    unit and stage, every one failed but the last. *)
Definition attempts_block (ship stage_name : string)
    (rows : list GenerateData.Event) : Prop :=
  Forall (fun e => GenerateData.ship_id e = ship
                   ∧ GenerateData.stage e = stage_name) rows
  ∧ ∃ k, GenerateData.qc_passed <$> rows = replicate k false ++ [true].

(** One block per stage, in the order of the configuration. *)
Definition unit_blocks (stages : list (string * StageParams)) (ship : string)
    (blocks : list (list GenerateData.Event)) : Prop :=
  Forall2 (fun kv rows => attempts_block ship kv.1 rows) stages blocks.

(** The row was computed from the normal draw [z] with the parameters of
    its stage. *)
Definition row_timed_by (stages : list (string * StageParams))
    (e : GenerateData.Event) (z : Q) : Prop :=
  ∃ sp,
    (GenerateData.stage e, sp) ∈ stages
    ∧ let hours :=
        py_max_Q 1 (mean_time_hours sp + std_dev_hours sp * z)%Q in
      GenerateData.duration_hours e = round2 hours
      ∧ GenerateData.end_time e
        = GenerateData.start_time e + timedelta_hours hours.

(** The row's QC flag is the uniform draw [u] compared with the pass rate of
    its stage. *)
Definition row_judged_by (stages : list (string * StageParams))
    (e : GenerateData.Event) (u : Q) : Prop :=
  ∃ sp,
    (GenerateData.stage e, sp) ∈ stages
    ∧ GenerateData.qc_passed e = Qlt_bool u (pass_rate sp).

(** The outcome is not a failed dictionary or list lookup. *)
Definition lookup_free {A : Type} (r : result A) : Prop :=
  match r with
  | KeyError _ | IndexError => False
  | _ => True
  end.

(** Every configured stage has an availability list, and the ship being
    driven a completion time. *)
Definition lookups_present {E : Type} (stages : list (string * StageParams))
    (ship : string) (st : SimState E) : Prop :=
  (∀ name sp, (name, sp) ∈ stages →
     is_Some (station_availability st !! name))
  ∧ is_Some (ship_completion_times st !! ship).

(** ** The what-if callback of [dashboard.py]

    [update_simulation_output] reads three module globals: the baseline
    configuration and the baseline KPIs, the latter computed once from the
    baseline ledger; they are parameters here.  The [html.Div] it returns is
    modelled by the values its cells are formatted from. *)

(** [stages[name] = f(stages[name])] on the ordered dictionary of stages:
    the entry keeps its place; a missing key raises. *)
Fixpoint stage_update (name : string) (f : StageParams → StageParams)
    (stages : list (string * StageParams))
    : result (list (string * StageParams)) :=
  match stages with
  | [] => KeyError name
  | (k, sp) :: rest =>
      if decide (k = name) then Ok ((k, f sp) :: rest)
      else rest' ← stage_update name f rest; Ok ((k, sp) :: rest')
  end.

(** [sp['station_count'] += 1] *)
Definition add_station (sp : StageParams) : StageParams :=
  {| mean_time_hours := mean_time_hours sp;
     std_dev_hours := std_dev_hours sp;
     pass_rate := pass_rate sp;
     station_count := station_count sp + 1 |}.

(** [sp['pass_rate'] = 0.98] *)
Definition set_pass_rate_98 (sp : StageParams) : StageParams :=
  {| mean_time_hours := mean_time_hours sp;
     std_dev_hours := std_dev_hours sp;
     pass_rate := 98 # 100;
     station_count := station_count sp |}.

(** [sp['mean_time_hours'] *= 0.80] *)
Definition cut_mean_time (sp : StageParams) : StageParams :=
  {| mean_time_hours := (mean_time_hours sp * (80 # 100))%Q;
     std_dev_hours := std_dev_hours sp;
     pass_rate := pass_rate sp;
     station_count := station_count sp |}.

(** [sim_config['production_stages'][name][...] = ...] *)
Definition improve_stage (name : string) (f : StageParams → StageParams)
    (sim_config : ConfigDict) : result ConfigDict :=
  stages ← dict_get "production_stages" (production_stages sim_config);
  stages' ← stage_update name f stages;
  Ok {| simulation_parameters := simulation_parameters sim_config;
        production_stages := Some stages';
        extra_keys := extra_keys sim_config |}.

(** The [if / elif] chain on the dropdown value: the scenario's
    configuration and its description. *)
Definition apply_improvement (selected_improvement : string)
    (sim_config : ConfigDict) : result (ConfigDict * string) :=
  if decide (selected_improvement = "add_tiling_station") then
    c ← improve_stage "Heat_Shield_Tiling" add_station sim_config;
    Ok (c, "Added a second Heat Shield Tiling station.")
  else if decide (selected_improvement = "improve_welding_qc") then
    c ← improve_stage "Welding" set_pass_rate_98 sim_config;
    Ok (c, "Improved Welding QC pass rate to 98%.")
  else if decide (selected_improvement = "reduce_plumbing_time") then
    c ← improve_stage "Plumbing_Wiring" cut_mean_time sim_config;
    Ok (c, "Reduced Plumbing/Wiring mean time by 20% via automation.")
  else Ok (sim_config, "Ran simulation with baseline parameters.").

(** The numbers shown in the results table. *)
Record WhatIfTable : Type := {
  scenario : string;
  throughput_base : Q;
  throughput_sim : Q;
  throughput_change : Q;
  throughput_percent_change : Q;
  total_time_base : Z;
  total_time_sim : Z;
  total_time_change : Z
}.

(** What the callback returns: the empty string or the results. *)
Inductive CallbackOutput : Type :=
| EmptyString
| SimulationResults (table : WhatIfTable).

Definition update_simulation_output (baseline_config : Config)
    (df_baseline : list Dashboard.Event)
    (n_clicks : Z) (selected_improvement : string) (zs us : list Q)
    : result CallbackOutput :=
  let '(total_ships_base, throughput_base, total_time_base) :=
    Dashboard.calculate_kpis df_baseline in
  if (n_clicks =? 0) || config_falsy baseline_config then Ok EmptyString
  else match baseline_config with
       | ConfigNone => Ok EmptyString (* [None] never passes the guard *)
       | ConfigDictOf d =>
           '(sim_config, description) ←
             apply_improvement selected_improvement d;
           sim_df ← Dashboard.run_simulation (ConfigDictOf sim_config) zs us;
           let '(total_ships_sim, throughput_sim, total_time_sim) :=
             Dashboard.calculate_kpis sim_df in
           let throughput_change := (throughput_sim - throughput_base)%Q in
           let throughput_percent_change :=
             if Qlt_bool 0 throughput_base
             then (throughput_change / throughput_base * 100)%Q
             else 0%Q in
           Ok (SimulationResults
                 {| scenario := description;
                    throughput_base := throughput_base;
                    throughput_sim := throughput_sim;
                    throughput_change := throughput_change;
                    throughput_percent_change := throughput_percent_change;
                    total_time_base := total_time_base;
                    total_time_sim := total_time_sim;
                    total_time_change := total_time_sim - total_time_base |})
       end.

(** ** Loading [dashboard.py]

    The callback reads the module's globals [baseline_config] and
    [df_baseline] and the baseline KPIs computed from the latter; they are
    the parameters of [update_simulation_output] above.  The module sets
    them when it is loaded, and builds the layout before it registers the
    callback.  A missing CSV file leaves [pd.DataFrame()], a frame without
    columns ([None] here), and the box plot of the layout then fails on
    [df_baseline['end_time']]. *)
Definition load_module (df_baseline : option (list Dashboard.Event))
    : result (list Dashboard.Event) :=
  match df_baseline with
  | None => KeyError "end_time"
  | Some rows => Ok rows
  end.

(** A click on the button of a dashboard started on the given baseline. *)
Definition dashboard_click (df_baseline : option (list Dashboard.Event))
    (baseline_config : Config) (n_clicks : Z) (selected_improvement : string)
    (zs us : list Q) : result CallbackOutput :=
  rows ← load_module df_baseline;
  update_simulation_output baseline_config rows n_clicks selected_improvement
    zs us.

(** ** Data of the worked runs for the further properties *)

(** The final state and the left-over draws of the two-stage run. *)
Definition two_stage_final : Run GenerateData.Event :=
  Eval vm_compute in
    match GenerateData.simulate two_stage_dict
            (five_normals ++ [1; 2]%Q) (five_uniforms ++ [1 # 9]%Q) with
    | Ok r => r
    | _ => (initial_state 0 [], [], [])
    end.

(** A line of one stage that always passes. *)
Definition checkout_only_dict : ConfigDict :=
  {| simulation_parameters := Some two_stage_params;
     production_stages := Some [("Final_Checkout", final_checkout)];
     extra_keys := [] |}.

Definition checkout_only_ledger : list GenerateData.Event :=
  Eval vm_compute in
    match GenerateData.run_configurable_simulation
            (ConfigDictOf checkout_only_dict) five_normals five_uniforms with
    | Ok ledger => ledger
    | _ => []
    end.

(** A dictionary without its [simulation_parameters] section. *)
Definition no_parameters_dict : ConfigDict :=
  {| simulation_parameters := None;
     production_stages := Some two_stage_line;
     extra_keys := [] |}.

Definition two_stage_rows : list Dashboard.Event :=
  Eval vm_compute in
    match Dashboard.run_simulation (ConfigDictOf two_stage_dict)
            five_normals five_uniforms with
    | Ok rows => rows
    | _ => []
    end.

(** The welding scenario applied to the two-stage line. *)
Definition welding_scenario : ConfigDict * string :=
  Eval vm_compute in
    match apply_improvement "improve_welding_qc" two_stage_dict with
    | Ok r => r
    | _ => (two_stage_dict, "")
    end.

(** The ledger the dashboard engine returns for the welding scenario. *)
Definition welding_scenario_rows : list Dashboard.Event :=
  Eval vm_compute in
    match Dashboard.run_simulation (ConfigDictOf welding_scenario.1)
            five_normals five_uniforms with
    | Ok rows => rows
    | _ => []
    end.

(** A click on the welding scenario when the baseline ledger comes from a
    line without [Final_Checkout]. *)
Definition stale_baseline_table : WhatIfTable :=
  Eval vm_compute in
    match dashboard_click (Some welding_only_rows)
            (ConfigDictOf two_stage_dict) 1 "improve_welding_qc"
            five_normals five_uniforms with
    | Ok (SimulationResults table) => table
    | _ => {| scenario := ""; throughput_base := 0; throughput_sim := 0;
              throughput_change := 0; throughput_percent_change := 0;
              total_time_base := 0; total_time_sim := 0;
              total_time_change := 0 |}
    end.

(** An order for no units on a line whose only stage is invalid. *)
Definition no_units_params : SimParams :=
  {| start_date := 0; num_starships := 0 |}.

Definition invalid_line : list (string * StageParams) :=
  [("Welding", {| mean_time_hours := 8; std_dev_hours := -1;
                  pass_rate := 0; station_count := 0 |})].

Definition no_units_dict : ConfigDict :=
  {| simulation_parameters := Some no_units_params;
     production_stages := Some invalid_line;
     extra_keys := [] |}.

(** An order placed on 9999-12-31 for a line that never passes QC, and a day
    of draws. *)
Definition last_day : Z := datetime_max - (us_per_day - 1).

Definition last_day_params : SimParams :=
  {| start_date := last_day; num_starships := 1 |}.

Definition never_passing_stage : StageParams :=
  {| mean_time_hours := 10; std_dev_hours := 1;
     pass_rate := 0; station_count := 1 |}.

Definition last_day_dict : ConfigDict :=
  {| simulation_parameters := Some last_day_params;
     production_stages := Some [("Final_Checkout", never_passing_stage)];
     extra_keys := [] |}.

Definition day_of_draws : list Q := replicate 24 0%Q.

(** * Proofs *)

Ltac loop_cases st stage_name ship zs :=
  destruct (station_availability st !! stage_name) as [?avail|];
    simpl; try done;
  destruct (np_argmin _) as [?idx| | | | |]; simpl; try done;
  destruct (list_get _ _) as [?available| | | | |]; simpl; try done;
  destruct (ship_completion_times st !! ship) as [?ready|]; simpl; try done;
  destruct (np_random_normal _ _ zs) as [[?sample ?zs']| | | | |];
    simpl; try done.

Lemma batch_stage_loop_unfold ship stage_name sp zs us st :
  GenerateData.stage_loop ship stage_name sp zs us st
  = attempt batch_event ship stage_name sp zs us st
      ≫= continue_with (GenerateData.stage_loop ship stage_name sp).
Proof.
  unfold attempt.
  destruct us as [|u us]; simpl; loop_cases st stage_name ship zs;
    (destruct (timedelta_of_hours (py_max_Q _ _)) as [?duration| | | | |];
       simpl; try done);
    (destruct (datetime_add _ _) as [?end_time| | | | |]; simpl; try done).
  destruct (Qlt_bool u (pass_rate sp)); simpl; try done.
  destruct (timedelta_of_hours _) as [?rework| | | | |]; simpl; try done.
  destruct (datetime_add _ _) as [?rework_end| | | | |]; simpl; done.
Qed.

Lemma dashboard_stage_loop_unfold ship stage_name sp zs us st :
  Dashboard.stage_loop ship stage_name sp zs us st
  = attempt dashboard_event ship stage_name sp zs us st
      ≫= continue_with (Dashboard.stage_loop ship stage_name sp).
Proof.
  unfold attempt.
  destruct us as [|u us]; simpl; loop_cases st stage_name ship zs;
    (destruct (timedelta_of_hours (py_max_Q _ _)) as [?duration| | | | |];
       simpl; try done);
    (destruct (datetime_add _ _) as [?end_time| | | | |]; simpl; try done).
  destruct (Qlt_bool u (pass_rate sp)); simpl; try done.
  destruct (timedelta_of_hours _) as [?rework| | | | |]; simpl; try done.
  destruct (datetime_add _ _) as [?rework_end| | | | |]; simpl; done.
Qed.

(** The two checked operations on times. *)
Lemma timedelta_of_hours_ok (h : Q) (d : Z) :
  timedelta_of_hours h = Ok d →
  d = timedelta_hours h ∧ timedelta_min ≤ d ≤ timedelta_max.
Proof.
  unfold timedelta_of_hours.
  destruct (timedelta_min <=? timedelta_hours h) eqn:H1; simpl; try done.
  destruct (timedelta_hours h <=? _) eqn:H2; simpl; try done.
  intros [= <-]. lia.
Qed.

Lemma datetime_add_ok (t delta r : Z) :
  datetime_add t delta = Ok r → r = t + delta ∧ 0 ≤ r ≤ datetime_max.
Proof.
  unfold datetime_add.
  destruct (0 <=? t + delta) eqn:H1; simpl; try done.
  destruct (t + delta <=? datetime_max) eqn:H2; simpl; try done.
  intros [= <-]. lia.
Qed.

Lemma timedelta_of_hours_in_range (h : Q) :
  timedelta_min ≤ timedelta_hours h ≤ timedelta_max →
  timedelta_of_hours h = Ok (timedelta_hours h).
Proof.
  intros [H1 H2]. unfold timedelta_of_hours.
  apply Z.leb_le in H1, H2. rewrite H1, H2. done.
Qed.

Lemma datetime_add_in_range (t delta : Z) :
  0 ≤ t + delta ≤ datetime_max → datetime_add t delta = Ok (t + delta).
Proof.
  intros [H1 H2]. unfold datetime_add.
  apply Z.leb_le in H1, H2. rewrite H1, H2. done.
Qed.

Lemma timedelta_of_hours_cases (h : Q) :
  timedelta_of_hours h = Ok (timedelta_hours h)
  ∨ timedelta_of_hours h = OverflowError.
Proof. unfold timedelta_of_hours. destruct (_ && _); auto. Qed.

Lemma datetime_add_cases (t delta : Z) :
  datetime_add t delta = Ok (t + delta)
  ∨ datetime_add t delta = OverflowError.
Proof. unfold datetime_add. destruct (_ && _); auto. Qed.

(** What a completed turn did, read off the state it started from. *)
Lemma attempt_inv {E : Type} (mk : string → string → nat → Z → Z → Q → bool → E)
    ship stage_name sp zs us st passed st' zs' us' :
  attempt mk ship stage_name sp zs us st = Ok (passed, (st', zs', us')) →
  ∃ avail idx available ready z u,
    station_availability st !! stage_name = Some avail
    ∧ np_argmin avail = Ok idx
    ∧ avail !! idx = Some available
    ∧ ship_completion_times st !! ship = Some ready
    ∧ Qlt_bool (std_dev_hours sp) 0 = false
    ∧ zs = z :: zs' ∧ us = u :: us'
    ∧ passed = Qlt_bool u (pass_rate sp)
    ∧ let start_time := py_max_dt ready available in
      let hours :=
        py_max_Q 1 (mean_time_hours sp + std_dev_hours sp * z)%Q in
      let end_time := start_time + timedelta_hours hours in
      let free_at :=
        if passed then end_time
        else end_time + timedelta_hours (mean_time_hours sp * (1 # 4))%Q in
      st' = {| station_availability :=
                 <[stage_name := <[idx := free_at]> avail]>
                   (station_availability st);
               ship_completion_times :=
                 <[ship := free_at]> (ship_completion_times st);
               production_log :=
                 production_log st ++
                 [mk ship stage_name idx start_time end_time hours passed] |}.
Proof.
  unfold attempt, np_random_normal, list_get.
  destruct (station_availability st !! stage_name) as [avail|]; simpl; try done.
  destruct (np_argmin avail) as [idx| | | | |] eqn:Hidx; simpl; try done.
  destruct (avail !! idx) as [available|] eqn:Hav; simpl; try done.
  destruct (ship_completion_times st !! ship) as [ready|]; simpl; try done.
  destruct (Qlt_bool (std_dev_hours sp) 0) eqn:Hstd; simpl; try done.
  destruct zs as [|z zs0]; simpl; try done.
  destruct (timedelta_of_hours (py_max_Q _ _)) as [duration| | | | |] eqn:Hd;
    simpl; try done.
  apply timedelta_of_hours_ok in Hd as [-> _].
  destruct (datetime_add _ _) as [end_time| | | | |] eqn:He; simpl; try done.
  apply datetime_add_ok in He as [-> _].
  destruct us as [|u us0]; simpl; try done.
  destruct (Qlt_bool u (pass_rate sp)) eqn:Hu; simpl.
  - intros [= <- <- <- <-].
    exists avail, idx, available, ready, z, u.
    rewrite Hu. repeat split; done.
  - destruct (timedelta_of_hours _) as [rework| | | | |] eqn:Hr;
      simpl; try done.
    apply timedelta_of_hours_ok in Hr as [-> _].
    destruct (datetime_add _ _) as [rework_end| | | | |] eqn:Hre;
      simpl; try done.
    apply datetime_add_ok in Hre as [-> _].
    intros [= <- <- <- <-].
    exists avail, idx, available, ready, z, u.
    rewrite Hu. repeat split; done.
Qed.

(** ** C2: station selection *)

Lemma argmin_from_spec (l : list Z) : ∀ (pre : list Z) (bi : nat) (b : Z),
  pre !! bi = Some b →
  (∀ j y, pre !! j = Some y → b ≤ y) →
  (∀ j y, (j < bi)%nat → pre !! j = Some y → b < y) →
  let r := argmin_from bi b (length pre) l in
  ∃ v, (pre ++ l) !! r = Some v
       ∧ (∀ j y, (pre ++ l) !! j = Some y → v ≤ y)
       ∧ (∀ j y, (j < r)%nat → (pre ++ l) !! j = Some y → v < y).
Proof.
  induction l as [|x l IH]; intros pre bi b Hb Hmin Hfirst; simpl.
  - rewrite app_nil_r. eauto.
  - assert (Hlen : length (pre ++ [x]) = S (length pre))
      by (rewrite length_app; simpl; lia).
    assert (Hbi : (bi < length pre)%nat) by (eapply lookup_lt_Some; eauto).
    replace (pre ++ x :: l) with ((pre ++ [x]) ++ l)
      by (rewrite <- app_assoc; reflexivity).
    rewrite <- Hlen.
    destruct (x <? b) eqn:Hx; [apply Z.ltb_lt in Hx | apply Z.ltb_ge in Hx];
      apply IH.
    + rewrite lookup_app_r by lia.
      replace (length pre - length pre)%nat with 0%nat by lia. reflexivity.
    + intros j y Hj. apply lookup_app_Some in Hj as [Hj | [_ Hj]].
      * specialize (Hmin _ _ Hj). lia.
      * destruct (j - length pre)%nat; simpl in Hj; [|done].
        inversion Hj; lia.
    + intros j y Hlt Hj. rewrite lookup_app_l in Hj by lia.
      specialize (Hmin _ _ Hj). lia.
    + rewrite lookup_app_l by lia. exact Hb.
    + intros j y Hj. apply lookup_app_Some in Hj as [Hj | [_ Hj]].
      * eauto.
      * destruct (j - length pre)%nat; simpl in Hj; [|done].
        inversion Hj; lia.
    + intros j y Hlt Hj. rewrite lookup_app_l in Hj by lia. eauto.
Qed.

Lemma np_argmin_spec (l : list Z) (i : nat) :
  np_argmin l = Ok i →
  ∃ v, l !! i = Some v
       ∧ (∀ j y, l !! j = Some y → v ≤ y)
       ∧ (∀ j y, (j < i)%nat → l !! j = Some y → v < y).
Proof.
  destruct l as [|x l]; simpl; [discriminate|].
  intros [= <-].
  apply (argmin_from_spec l [x] 0%nat x).
  - reflexivity.
  - intros [|j] y Hj; simpl in Hj; [inversion Hj; lia | done].
  - intros j y Hlt; lia.
Qed.

Lemma np_argmin_nonempty (l : list Z) :
  l ≠ [] → ∃ i, np_argmin l = Ok i.
Proof. destruct l; [done | simpl; eauto]. Qed.

(** C2. On every non-empty availability array, station selection returns an
    index [i] inside the array whose entry is a minimum of the array (no
    other station's availability is below it), and every station with a
    lower index is strictly later: ties go to the lowest index. *)
Theorem C2_select_min_lowest_index (avail : list Z) :
  avail ≠ [] →
  ∃ i v, np_argmin avail = Ok i
         ∧ avail !! i = Some v
         ∧ (∀ j y, avail !! j = Some y → v ≤ y)
         ∧ (∀ j y, (j < i)%nat → avail !! j = Some y → v < y).
Proof.
  intros Hne.
  destruct (np_argmin_nonempty avail Hne) as [i Hi].
  destruct (np_argmin_spec avail i Hi) as (v & Hv & Hmin & Hfirst).
  exists i, v. auto.
Qed.

Lemma C2_select_witness :
  [5; 3; 7; 3] ≠ ([] : list Z)
  ∧ ∃ i v, np_argmin [5; 3; 7; 3] = Ok i
           ∧ [5; 3; 7; 3] !! i = Some v
           ∧ (∀ j y, [5; 3; 7; 3] !! j = Some y → v ≤ y)
           ∧ (∀ j y, (j < i)%nat → [5; 3; 7; 3] !! j = Some y → v < y).
Proof.
  split; [discriminate|].
  apply (C2_select_min_lowest_index [5; 3; 7; 3]). discriminate.
Defined.

(** ** C1: the dashboard ledger is a projection of the batch ledger *)

Lemma stage_loop_project ship stage_name sp us : ∀ zs st,
  Dashboard.stage_loop ship stage_name sp zs us (project_state st)
  = result_map project_run (GenerateData.stage_loop ship stage_name sp zs us st).
Proof.
  induction us as [|u us IH]; intros zs st; simpl;
    destruct (station_availability st !! stage_name) as [avail|]; simpl; try done;
    destruct (np_argmin avail) as [idx| | | | |]; simpl; try done;
    destruct (list_get avail idx) as [available| | | | |]; simpl; try done;
    destruct (ship_completion_times st !! ship) as [ready|]; simpl; try done;
    destruct (np_random_normal _ _ zs) as [[sample zs']| | | | |]; simpl; try done;
    (destruct (timedelta_of_hours (py_max_Q _ _)) as [duration| | | | |];
       simpl; try done);
    (destruct (datetime_add _ _) as [end_time| | | | |]; simpl; try done).
  destruct (Qlt_bool u (pass_rate sp)).
  - unfold project_run, project_state; simpl.
    rewrite fmap_app. reflexivity.
  - destruct (timedelta_of_hours _) as [rework| | | | |]; simpl; try done.
    destruct (datetime_add _ _) as [rework_end| | | | |]; simpl; try done.
    rewrite <- IH. unfold project_state; simpl.
    rewrite fmap_app. reflexivity.
Qed.

Lemma stages_loop_project ship stages : ∀ zs us st,
  Dashboard.stages_loop ship stages zs us (project_state st)
  = result_map project_run (GenerateData.stages_loop ship stages zs us st).
Proof.
  induction stages as [|[stage_name sp] rest IH]; intros zs us st; simpl.
  - reflexivity.
  - rewrite stage_loop_project.
    destruct (GenerateData.stage_loop _ _ _ _ _ _) as [[[st' zs'] us']| | | | |];
      simpl; try done.
Qed.

Lemma ships_loop_project start stages ships : ∀ zs us st,
  Dashboard.ships_loop start stages ships zs us (project_state st)
  = result_map project_run
      (GenerateData.ships_loop start stages ships zs us st).
Proof.
  induction ships as [|i rest IH]; intros zs us st; simpl.
  - reflexivity.
  - change (enter_ship (ship_id_of i) start (project_state st))
      with (project_state (enter_ship (ship_id_of i) start st)).
    rewrite stages_loop_project.
    destruct (GenerateData.stages_loop _ _ _ _ _) as [[[st' zs'] us']| | | | |];
      simpl; try done.
Qed.

Lemma simulate_project d zs us :
  Dashboard.simulate d zs us
  = result_map project_run (GenerateData.simulate d zs us).
Proof.
  unfold Dashboard.simulate, GenerateData.simulate.
  destruct (simulation_parameters d) as [params|]; simpl; try done.
  destruct (production_stages d) as [stages|]; simpl; try done.
  change (initial_state (E := Dashboard.Event) (start_date params) stages)
    with (project_state (initial_state (start_date params) stages)).
  apply ships_loop_project.
Qed.

Lemma run_simulation_project (config : Config) (zs us : list Q) :
  Dashboard.run_simulation config zs us
  = result_map (fmap project)
      (GenerateData.run_configurable_simulation config zs us).
Proof.
  unfold Dashboard.run_simulation, GenerateData.run_configurable_simulation.
  destruct (config_falsy config); [reflexivity|].
  destruct config as [|d]; [reflexivity|].
  rewrite simulate_project.
  destruct (GenerateData.simulate d zs us) as [[[st zs'] us']| | | | |];
    reflexivity.
Qed.

(** C1. On every configuration and the same two sequences of draws, the
    dashboard engine's outcome is the batch engine's outcome with every row
    cut down to [ship_id], [stage], [start_time], [end_time]; when the batch
    engine raises or is still looping, so does the dashboard engine, in the
    same way.  When the batch engine returns a ledger, the dashboard ledger
    has as many rows and its [i]-th row is the projection of the batch
    ledger's [i]-th row: the batch rows only add [station_id],
    [duration_hours] and [qc_passed]. *)
Theorem C1_dashboard_ledger_is_projection (config : Config) (zs us : list Q) :
  Dashboard.run_simulation config zs us
  = result_map (fmap project)
      (GenerateData.run_configurable_simulation config zs us)
  ∧ ∀ ledger,
      GenerateData.run_configurable_simulation config zs us = Ok ledger →
      ∃ rows,
        Dashboard.run_simulation config zs us = Ok rows
        ∧ length rows = length ledger
        ∧ ∀ i, rows !! i = project <$> ledger !! i.
Proof.
  split; [apply run_simulation_project|].
  intros ledger Hrun. exists (project <$> ledger).
  split; [|split].
  - rewrite run_simulation_project, Hrun. reflexivity.
  - apply length_fmap.
  - intros i. apply list_lookup_fmap.
Qed.

(** ** Arithmetic of the primitives *)

Lemma Qlt_bool_true (x y : Q) : Qlt_bool x y = true ↔ (x < y)%Q.
Proof.
  unfold Qlt_bool. rewrite Qlt_alt.
  destruct (x ?= y)%Q; split; congruence.
Qed.

Lemma Qlt_bool_false (x y : Q) : Qlt_bool x y = false ↔ (y <= x)%Q.
Proof.
  rewrite <- not_true_iff_false, Qlt_bool_true. split.
  - apply Qnot_lt_le.
  - apply Qle_not_lt.
Qed.

Lemma py_max_Q_lower (a b : Q) : (a <= py_max_Q a b)%Q.
Proof.
  unfold py_max_Q. destruct (Qlt_bool a b) eqn:H.
  - apply Qlt_le_weak, Qlt_bool_true, H.
  - apply Qle_refl.
Qed.

Lemma round_half_even_floor (q : Q) : Qfloor q ≤ round_half_even q.
Proof.
  unfold round_half_even.
  destruct (_ ?= _)%Q; [destruct (Z.even _)| |]; lia.
Qed.

Lemma round_half_even_lower (n : Z) (q : Q) :
  (inject_Z n <= q)%Q → n ≤ round_half_even q.
Proof.
  intros H. apply Qfloor_resp_le in H. rewrite Qfloor_Z in H.
  pose proof (round_half_even_floor q). lia.
Qed.

Lemma float_round_nonneg (q : Q) : (0 <= q)%Q → (0 <= float_round q)%Q.
Proof.
  intros H. unfold float_round.
  destruct (Qnum q) eqn:Hq; [done| |];
    (apply Qlt_bool_false in H as Hlt; rewrite Hlt;
     apply Qmult_le_0_compat;
       [ change 0%Q with (inject_Z 0); rewrite <- Zle_Qle;
         apply round_half_even_lower; change (inject_Z 0) with 0%Q;
         apply Qle_shift_div_l;
           [ apply Qpower_0_lt; done
           | rewrite Qmult_0_l; apply Qabs_nonneg ]
       | apply Qpower_0_le; done ]).
Qed.

Lemma Qtrunc_floor (q : Q) : (0 <= q)%Q → Qtrunc q = Qfloor q.
Proof.
  intros H. destruct q as [n d]. unfold Qtrunc, Qfloor; simpl.
  apply Z.quot_div_nonneg; [|done].
  unfold Qle in H; simpl in H. lia.
Qed.

Lemma timedelta_hours_lower (n : Z) (h : Q) :
  0 ≤ n → (inject_Z n <= h)%Q → n * us_per_hour ≤ timedelta_hours h.
Proof.
  intros Hn H.
  assert (0 <= h)%Q as H0.
  { apply Qle_trans with (inject_Z n); [|done].
    change 0%Q with (inject_Z 0). rewrite <- Zle_Qle. done. }
  unfold timedelta_hours. rewrite (Qtrunc_floor h H0).
  apply round_half_even_lower.
  apply Qle_trans with (inject_Z (Qfloor h * us_per_hour) + 0)%Q.
  - rewrite Qplus_0_r. rewrite <- Zle_Qle.
    apply Z.mul_le_mono_nonneg_r; [done|].
    apply Qfloor_resp_le in H. rewrite Qfloor_Z in H. done.
  - apply Qplus_le_r. apply float_round_nonneg.
    apply Qmult_le_0_compat; [|done].
    unfold Qminus. rewrite <- Qle_minus_iff. apply Qfloor_le.
Qed.

Lemma timedelta_hours_nonneg (h : Q) : (0 <= h)%Q → 0 ≤ timedelta_hours h.
Proof. intros H. apply (timedelta_hours_lower 0 h); done. Qed.

Lemma round2_ge_1 (x : Q) : (1 <= x)%Q → (1 <= round2 x)%Q.
Proof.
  intros H. unfold round2.
  apply Qle_shift_div_l; [done|].
  change (1 * 100)%Q with (inject_Z 100).
  rewrite <- Zle_Qle. apply round_half_even_lower.
  change (inject_Z 100) with (1 * 100)%Q.
  apply Qmult_le_compat_r; [exact H | done].
Qed.

Lemma py_max_dt_ge_r (a b : Z) : b ≤ py_max_dt a b.
Proof. unfold py_max_dt. destruct (a <? b) eqn:H; lia. Qed.

(** ** C3: a failed QC attempt *)

(** A turn whose times stay inside Python's ranges completes, with the state
    the loop body writes. *)
Lemma attempt_ok {E : Type}
    (mk : string → string → nat → Z → Z → Q → bool → E)
    ship stage_name sp z u zs us avail idx available ready (st : SimState E) :
  station_availability st !! stage_name = Some avail →
  np_argmin avail = Ok idx →
  avail !! idx = Some available →
  ship_completion_times st !! ship = Some ready →
  Qlt_bool (std_dev_hours sp) 0 = false →
  let start_time := py_max_dt ready available in
  let hours := py_max_Q 1 (mean_time_hours sp + std_dev_hours sp * z)%Q in
  let end_time := start_time + timedelta_hours hours in
  let rework_penalty := (mean_time_hours sp * (1 # 4))%Q in
  let passed := Qlt_bool u (pass_rate sp) in
  let free_at :=
    if passed then end_time else end_time + timedelta_hours rework_penalty in
  timedelta_in_range hours →
  in_calendar end_time →
  (passed = false → timedelta_in_range rework_penalty ∧ in_calendar free_at) →
  attempt mk ship stage_name sp (z :: zs) (u :: us) st
  = Ok (passed,
        (after_turn (mk ship stage_name idx start_time end_time hours passed)
                    stage_name ship avail idx free_at st, zs, us)).
Proof.
  intros Hav Hidx Hat Hready Hstd start_time hours end_time rework_penalty
         passed free_at Hd He Hr.
  unfold attempt, np_random_normal, list_get.
  rewrite Hav; simpl. rewrite Hidx; simpl. rewrite Hat; simpl.
  rewrite Hready; simpl. rewrite Hstd; simpl.
  subst free_at passed end_time rework_penalty hours start_time.
  rewrite (timedelta_of_hours_in_range _ Hd); simpl.
  rewrite (datetime_add_in_range _ _ He); simpl.
  destruct (Qlt_bool u (pass_rate sp)); simpl; [done|].
  destruct Hr as [Hr Hre]; [done|].
  rewrite (timedelta_of_hours_in_range _ Hr); simpl.
  rewrite (datetime_add_in_range _ _ Hre); simpl. done.
Qed.

(** C3. When the QC draw of a turn is not below the pass rate, both engines
    append the row of the failed attempt, set the selected station and the
    ship both to [end_time + timedelta(hours = mean_time_hours * 0.25)] (a
    penalty that does not mention the sampled duration) and go round the
    loop again from that state, on the draws that are left.  The retry
    selects its station by [np.argmin] on the updated availability list and
    starts no earlier than the end of the rework: when its QC draw passes,
    the loop returns with the two rows appended, and the station the retry
    selected and the ship set to the end of the retry.  The times are taken
    inside Python's ranges. *)
Theorem C3_failed_qc_rework (ship stage_name : string) (sp : StageParams)
    (z u : Q) (avail : list Z) (idx : nat) (available ready : Z) :
  np_argmin avail = Ok idx →
  avail !! idx = Some available →
  Qlt_bool (std_dev_hours sp) 0 = false →
  Qlt_bool u (pass_rate sp) = false →
  let start_time := py_max_dt ready available in
  let hours := py_max_Q 1 (mean_time_hours sp + std_dev_hours sp * z)%Q in
  let end_time := start_time + timedelta_hours hours in
  let rework_penalty := (mean_time_hours sp * (1 # 4))%Q in
  let rework_end_time := end_time + timedelta_hours rework_penalty in
  let updated := <[idx := rework_end_time]> avail in
  timedelta_in_range hours →
  in_calendar end_time →
  timedelta_in_range rework_penalty →
  in_calendar rework_end_time →
  (∀ st : SimState GenerateData.Event,
     station_availability st !! stage_name = Some avail →
     ship_completion_times st !! ship = Some ready →
     let failed :=
       batch_event ship stage_name idx start_time end_time hours false in
     (∀ zs us,
        GenerateData.stage_loop ship stage_name sp (z :: zs) (u :: us) st
        = GenerateData.stage_loop ship stage_name sp zs us
            (after_turn failed stage_name ship avail idx rework_end_time st))
     ∧ ∀ z2 u2 zs us idx2 available2,
         np_argmin updated = Ok idx2 →
         updated !! idx2 = Some available2 →
         Qlt_bool u2 (pass_rate sp) = true →
         let start_time2 := py_max_dt rework_end_time available2 in
         let hours2 :=
           py_max_Q 1 (mean_time_hours sp + std_dev_hours sp * z2)%Q in
         let end_time2 := start_time2 + timedelta_hours hours2 in
         timedelta_in_range hours2 →
         in_calendar end_time2 →
         GenerateData.stage_loop ship stage_name sp
           (z :: z2 :: zs) (u :: u2 :: us) st
         = Ok ({| station_availability :=
                    <[stage_name := <[idx2 := end_time2]> updated]>
                      (station_availability st);
                  ship_completion_times :=
                    <[ship := end_time2]> (ship_completion_times st);
                  production_log :=
                    production_log st ++
                    [failed;
                     batch_event ship stage_name idx2 start_time2 end_time2
                                 hours2 true] |},
               zs, us))
  ∧ (∀ st : SimState Dashboard.Event,
       station_availability st !! stage_name = Some avail →
       ship_completion_times st !! ship = Some ready →
       let failed :=
         dashboard_event ship stage_name idx start_time end_time hours false in
       (∀ zs us,
          Dashboard.stage_loop ship stage_name sp (z :: zs) (u :: us) st
          = Dashboard.stage_loop ship stage_name sp zs us
              (after_turn failed stage_name ship avail idx rework_end_time
                 st))
       ∧ ∀ z2 u2 zs us idx2 available2,
           np_argmin updated = Ok idx2 →
           updated !! idx2 = Some available2 →
           Qlt_bool u2 (pass_rate sp) = true →
           let start_time2 := py_max_dt rework_end_time available2 in
           let hours2 :=
             py_max_Q 1 (mean_time_hours sp + std_dev_hours sp * z2)%Q in
           let end_time2 := start_time2 + timedelta_hours hours2 in
           timedelta_in_range hours2 →
           in_calendar end_time2 →
           Dashboard.stage_loop ship stage_name sp
             (z :: z2 :: zs) (u :: u2 :: us) st
           = Ok ({| station_availability :=
                      <[stage_name := <[idx2 := end_time2]> updated]>
                        (station_availability st);
                    ship_completion_times :=
                      <[ship := end_time2]> (ship_completion_times st);
                    production_log :=
                      production_log st ++
                      [failed;
                       dashboard_event ship stage_name idx2 start_time2
                                       end_time2 hours2 true] |},
                 zs, us)).
Proof.
  intros Hidx Hat Hstd Hqc start_time hours end_time rework_penalty
         rework_end_time updated Hd He Hr Hre.
  split; intros st Hav Hready failed.
  - assert (Hstep : ∀ zs us,
              GenerateData.stage_loop ship stage_name sp (z :: zs) (u :: us) st
              = GenerateData.stage_loop ship stage_name sp zs us
                  (after_turn failed stage_name ship avail idx
                     rework_end_time st)).
    { intros zs us. rewrite batch_stage_loop_unfold.
      rewrite (attempt_ok batch_event ship stage_name sp z u zs us
                 avail idx available ready st);
        try assumption; rewrite Hqc; [reflexivity|done]. }
    split; [exact Hstep|].
    intros z2 u2 zs us idx2 available2 Hidx2 Hat2 Hqc2 start_time2 hours2
           end_time2 Hd2 He2.
    rewrite Hstep, batch_stage_loop_unfold.
    rewrite (attempt_ok batch_event ship stage_name sp z2 u2 zs us
               updated idx2 available2 rework_end_time);
      try assumption; rewrite ?Hqc2; try done;
      try (simpl; apply lookup_insert_eq).
    simpl. unfold after_turn; simpl.
    rewrite !insert_insert_eq, <- app_assoc. reflexivity.
  - assert (Hstep : ∀ zs us,
              Dashboard.stage_loop ship stage_name sp (z :: zs) (u :: us) st
              = Dashboard.stage_loop ship stage_name sp zs us
                  (after_turn failed stage_name ship avail idx
                     rework_end_time st)).
    { intros zs us. rewrite dashboard_stage_loop_unfold.
      rewrite (attempt_ok dashboard_event ship stage_name sp z u zs us
                 avail idx available ready st);
        try assumption; rewrite Hqc; [reflexivity|done]. }
    split; [exact Hstep|].
    intros z2 u2 zs us idx2 available2 Hidx2 Hat2 Hqc2 start_time2 hours2
           end_time2 Hd2 He2.
    rewrite Hstep, dashboard_stage_loop_unfold.
    rewrite (attempt_ok dashboard_event ship stage_name sp z2 u2 zs us
               updated idx2 available2 rework_end_time);
      try assumption; rewrite ?Hqc2; try done;
      try (simpl; apply lookup_insert_eq).
    simpl. unfold after_turn; simpl.
    rewrite !insert_insert_eq, <- app_assoc. reflexivity.
Qed.

(** ** C6: station availability never moves backwards *)

Lemma attempt_write_monotone {E : Type}
    (mk : string → string → nat → Z → Z → Q → bool → E)
    ship stage_name sp zs us st passed st' zs' us' :
  (0 < mean_time_hours sp)%Q →
  attempt mk ship stage_name sp zs us st = Ok (passed, (st', zs', us')) →
  ∃ avail idx old new,
    station_availability st !! stage_name = Some avail
    ∧ np_argmin avail = Ok idx
    ∧ avail !! idx = Some old
    ∧ station_availability st'
      = <[stage_name := <[idx := new]> avail]> (station_availability st)
    ∧ old ≤ new.
Proof.
  intros Hmean Hturn.
  apply attempt_inv in Hturn
    as (avail & idx & available & ready & z & u & Hav & Hidx & Hat & Hready
        & Hstd & -> & -> & Hp & Hst').
  simpl in Hst'.
  eexists avail, idx, available, _.
  repeat split; try eassumption.
  - rewrite Hst'. simpl. reflexivity.
  - pose proof (py_max_dt_ge_r ready available) as Hstart.
    assert (0 ≤ timedelta_hours
                  (py_max_Q 1 (mean_time_hours sp + std_dev_hours sp * z))) as Hd.
    { apply timedelta_hours_nonneg.
      apply Qle_trans with 1%Q; [done | apply py_max_Q_lower]. }
    assert (0 ≤ timedelta_hours (mean_time_hours sp * (1 # 4))) as Hr.
    { apply timedelta_hours_nonneg.
      apply Qmult_le_0_compat; [apply Qlt_le_weak, Hmean | done]. }
    destruct passed; lia.
Qed.

(** C6. In both engines, whenever a turn of the loop for a stage with
    [mean_time_hours > 0] completes, the only availability entry that
    changes is the selected station's, and the value written ([end_time] on
    a pass, [end_time] plus the rework penalty on a fail) is at least the
    value it replaces; the loop then returns or goes round again from that
    state. *)
Theorem C6_availability_writes_monotone (ship stage_name : string)
    (sp : StageParams) (zs us : list Q) (passed : bool) (zs' us' : list Q) :
  (0 < mean_time_hours sp)%Q →
  (∀ st st' : SimState GenerateData.Event,
     attempt batch_event ship stage_name sp zs us st
     = Ok (passed, (st', zs', us')) →
     GenerateData.stage_loop ship stage_name sp zs us st
     = (if passed then Ok (st', zs', us')
        else GenerateData.stage_loop ship stage_name sp zs' us' st')
     ∧ ∃ avail idx old new,
         station_availability st !! stage_name = Some avail
         ∧ np_argmin avail = Ok idx
         ∧ avail !! idx = Some old
         ∧ station_availability st'
           = <[stage_name := <[idx := new]> avail]> (station_availability st)
         ∧ old ≤ new)
  ∧ (∀ st st' : SimState Dashboard.Event,
       attempt dashboard_event ship stage_name sp zs us st
       = Ok (passed, (st', zs', us')) →
       Dashboard.stage_loop ship stage_name sp zs us st
       = (if passed then Ok (st', zs', us')
          else Dashboard.stage_loop ship stage_name sp zs' us' st')
       ∧ ∃ avail idx old new,
           station_availability st !! stage_name = Some avail
           ∧ np_argmin avail = Ok idx
           ∧ avail !! idx = Some old
           ∧ station_availability st'
             = <[stage_name := <[idx := new]> avail]> (station_availability st)
           ∧ old ≤ new).
Proof.
  intros Hmean. split; intros st st' Hturn; split.
  - rewrite batch_stage_loop_unfold, Hturn. destruct passed; reflexivity.
  - eapply attempt_write_monotone; eauto.
  - rewrite dashboard_stage_loop_unfold, Hturn. destruct passed; reflexivity.
  - eapply attempt_write_monotone; eauto.
Qed.

(** ** C5: recorded durations *)

Lemma attempt_durations ship stage_name sp zs us st passed st' zs' us' :
  attempt batch_event ship stage_name sp zs us st
  = Ok (passed, (st', zs', us')) →
  Forall (fun e => (1 <= GenerateData.duration_hours e)%Q) (production_log st) →
  Forall (fun e => (1 <= GenerateData.duration_hours e)%Q) (production_log st').
Proof.
  intros Hturn Hlog.
  apply attempt_inv in Hturn
    as (avail & idx & available & ready & z & u & _ & _ & _ & _ & _ & _ & _
        & _ & ->).
  simpl. apply Forall_app. split; [exact Hlog|].
  constructor; [|constructor]. simpl.
  apply round2_ge_1, py_max_Q_lower.
Qed.

(** A property of the state that every turn and every ship's entry keep is
    kept by the three loops of the batch engine. *)
Section BatchInvariant.
Variable P : SimState GenerateData.Event → Prop.
Hypothesis P_attempt :
  ∀ ship stage_name sp zs us st passed st' zs' us',
    attempt batch_event ship stage_name sp zs us st
    = Ok (passed, (st', zs', us')) →
    P st → P st'.
Hypothesis P_enter : ∀ ship start st, P st → P (enter_ship ship start st).

Lemma batch_stage_loop_invariant ship stage_name sp us : ∀ zs st st' zs' us',
  GenerateData.stage_loop ship stage_name sp zs us st = Ok (st', zs', us') →
  P st → P st'.
Proof.
  induction us as [|u us IH]; intros zs st st' zs' us';
    rewrite batch_stage_loop_unfold;
    destruct (attempt _ _ _ _ _ _ _) as [[passed [[st1 zs1] us1]]| | | | |]
      eqn:Hturn; simpl; try done.
  - apply attempt_inv in Hturn
      as (? & ? & ? & ? & ? & ? & _ & _ & _ & _ & _ & _ & Hus & _).
    discriminate Hus.
  - pose proof Hturn as Hinv.
    apply attempt_inv in Hinv
      as (? & ? & ? & ? & ? & ? & _ & _ & _ & _ & _ & _ & [= _ <-] & _).
    unfold continue_with; simpl. destruct passed.
    + intros [= <- <- <-]. eauto.
    + intros Hloop Hst. eapply IH; eauto.
Qed.

Lemma batch_stages_loop_invariant ship stages : ∀ zs us st st' zs' us',
  GenerateData.stages_loop ship stages zs us st = Ok (st', zs', us') →
  P st → P st'.
Proof.
  induction stages as [|[stage_name sp] rest IH]; intros zs us st st' zs' us';
    simpl.
  - intros [= <- <- <-]. done.
  - destruct (GenerateData.stage_loop _ _ _ _ _ _)
      as [[[st1 zs1] us1]| | | | |] eqn:Hloop; simpl; try done.
    intros Hrest Hst. eapply IH; [exact Hrest|].
    eapply batch_stage_loop_invariant; eauto.
Qed.

Lemma batch_ships_loop_invariant start stages ships : ∀ zs us st st' zs' us',
  GenerateData.ships_loop start stages ships zs us st = Ok (st', zs', us') →
  P st → P st'.
Proof.
  induction ships as [|i rest IH]; intros zs us st st' zs' us'; simpl.
  - intros [= <- <- <-]. done.
  - destruct (GenerateData.stages_loop _ _ _ _ _)
      as [[[st1 zs1] us1]| | | | |] eqn:Hloop; simpl; try done.
    intros Hrest Hst. eapply IH; [exact Hrest|].
    eapply batch_stages_loop_invariant; eauto.
Qed.
End BatchInvariant.

(** C5. Every completed turn of the batch engine's loop appends exactly one
    row, whose [duration_hours] is [round(max(1, sample), 2)] and is at
    least 1; hence every row of a ledger the batch engine returns records a
    duration of at least 1.  The bound needs no assumption on the stage
    parameters (a negative [std_dev_hours] raises before any row is
    written). *)
Theorem C5_duration_at_least_one :
  (∀ ship stage_name sp zs us st passed st' zs' us',
     attempt batch_event ship stage_name sp zs us st
     = Ok (passed, (st', zs', us')) →
     ∃ z e,
       zs = z :: zs'
       ∧ production_log st' = production_log st ++ [e]
       ∧ GenerateData.duration_hours e
         = round2 (py_max_Q 1 (mean_time_hours sp + std_dev_hours sp * z)%Q)
       ∧ (1 <= GenerateData.duration_hours e)%Q)
  ∧ ∀ config zs us ledger,
      GenerateData.run_configurable_simulation config zs us = Ok ledger →
      Forall (fun e => (1 <= GenerateData.duration_hours e)%Q) ledger.
Proof.
  split.
  - intros ship stage_name sp zs us st passed st' zs' us' Hturn.
    apply attempt_inv in Hturn
      as (avail & idx & available & ready & z & u & _ & _ & _ & _ & _ & Hzs
          & _ & _ & ->).
    eexists z, _. split; [exact Hzs|]. split; [reflexivity|].
    split; [reflexivity|]. simpl. apply round2_ge_1, py_max_Q_lower.
  - intros config zs us ledger.
    unfold GenerateData.run_configurable_simulation.
    destruct (config_falsy config); [intros [= <-]; constructor|].
    destruct config as [|d]; [intros [= <-]; constructor|].
    unfold GenerateData.simulate.
    destruct (simulation_parameters d) as [params|]; simpl; try done.
    destruct (production_stages d) as [stages|]; simpl; try done.
    destruct (GenerateData.ships_loop _ _ _ _ _ _)
      as [[[st zs'] us']| | | | |] eqn:Hrun; simpl; try done.
    intros [= <-].
    eapply (batch_ships_loop_invariant
              (fun st =>
                 Forall (fun e => (1 <= GenerateData.duration_hours e)%Q)
                        (production_log st))); [| |exact Hrun|].
    + intros; eapply attempt_durations; eauto.
    + intros; assumption.
    + constructor.
Qed.

(** ** C4: QC flags within a (ship, stage) pair *)

Lemma filter_keeps_all {A : Type} (P : A → Prop) `{∀ x, Decision (P x)}
    (l : list A) :
  Forall P l → filter P l = l.
Proof.
  induction 1 as [|x l Hx _ IH]; [done|].
  rewrite filter_cons_True by done. by rewrite IH.
Qed.

Lemma filter_keeps_none {A : Type} (P : A → Prop) `{∀ x, Decision (P x)}
    (l : list A) :
  Forall (fun x => ¬ P x) l → filter P l = [].
Proof.
  induction 1 as [|x l Hx _ IH]; [done|].
  by rewrite filter_cons_False.
Qed.

Lemma app_SN_inj (s t : string) : "SN" +:+ s = "SN" +:+ t → s = t.
Proof. intros H. injection H as H. exact H. Qed.

Lemma ship_id_of_inj (i j : nat) : ship_id_of i = ship_id_of j → i = j.
Proof.
  unfold ship_id_of. intros H. apply app_SN_inj in H.
  apply (inj (pretty : nat → string)) in H. lia.
Qed.

Lemma batch_stage_loop_log ship stage_name sp us : ∀ zs st st' zs' us',
  GenerateData.stage_loop ship stage_name sp zs us st = Ok (st', zs', us') →
  ∃ evs k,
    production_log st' = production_log st ++ evs
    ∧ Forall (fun e => GenerateData.ship_id e = ship
                       ∧ GenerateData.stage e = stage_name) evs
    ∧ GenerateData.qc_passed <$> evs = replicate k false ++ [true].
Proof.
  induction us as [|u us IH]; intros zs st st' zs' us';
    rewrite batch_stage_loop_unfold;
    destruct (attempt _ _ _ _ _ _ _) as [[passed [[st1 zs1] us1]]| | | | |]
      eqn:Hturn; simpl; try done;
    apply attempt_inv in Hturn
      as (avail & idx & available & ready & z & u0 & _ & _ & _ & _ & _ & _
          & Hus & Hp & Hst1); [discriminate Hus|].
  injection Hus as <- <-. simpl in Hst1.
  unfold continue_with; simpl. destruct passed.
  - intros [= <- <- <-]. rewrite Hst1; simpl.
    eexists [_], 0%nat. split; [reflexivity | split].
    + by repeat constructor.
    + reflexivity.
  - intros Hloop. apply IH in Hloop as (evs & k & Hlog & Hall & Hflags).
    rewrite Hst1 in Hlog; simpl in Hlog. rewrite <- app_assoc in Hlog.
    eexists (_ :: evs), (S k). split; [exact Hlog | split].
    + constructor; [done | exact Hall].
    + rewrite fmap_cons, Hflags. reflexivity.
Qed.

Lemma batch_stages_loop_log ship stages : ∀ zs us st st' zs' us',
  NoDup stages.*1 →
  GenerateData.stages_loop ship stages zs us st = Ok (st', zs', us') →
  ∃ evs,
    production_log st' = production_log st ++ evs
    ∧ Forall (fun e => GenerateData.ship_id e = ship
                       ∧ GenerateData.stage e ∈ stages.*1) evs
    ∧ ∀ stage_name, stage_name ∈ stages.*1 →
        ∃ k, GenerateData.qc_passed <$> events_of ship stage_name evs
             = replicate k false ++ [true].
Proof.
  induction stages as [|[name sp] rest IH]; intros zs us st st' zs' us' Hnd;
    simpl.
  - intros [= <- <- <-]. exists []. rewrite app_nil_r.
    split; [reflexivity | split; [constructor|]].
    intros s Hs. by apply elem_of_nil in Hs.
  - simpl in Hnd. apply NoDup_cons in Hnd as [Hfresh Hnd].
    destruct (GenerateData.stage_loop _ _ _ _ _ _)
      as [[[st1 zs1] us1]| | | | |] eqn:Hloop; simpl; try done.
    intros Hrest.
    apply batch_stage_loop_log in Hloop as (evs1 & k1 & Hlog1 & Hall1 & Hfl1).
    apply IH in Hrest as (evs2 & Hlog2 & Hall2 & Hfl2); [|exact Hnd].
    exists (evs1 ++ evs2). split; [|split].
    + rewrite Hlog2, Hlog1. by rewrite app_assoc.
    + apply Forall_app. split.
      * eapply Forall_impl; [exact Hall1|]. simpl.
        intros e [-> ->]. split; [done | apply elem_of_cons; by left].
      * eapply Forall_impl; [exact Hall2|]. simpl.
        intros e [-> He]. split; [done | apply elem_of_cons; by right].
    + intros s Hs. unfold events_of. rewrite filter_app.
      apply elem_of_cons in Hs as [-> | Hs].
      * exists k1.
        rewrite (filter_keeps_all _ evs1) by exact Hall1.
        rewrite (filter_keeps_none _ evs2), app_nil_r; [exact Hfl1|].
        eapply Forall_impl; [exact Hall2|]. simpl.
        intros e [_ He] [_ Heq]. rewrite Heq in He. done.
      * destruct (Hfl2 s Hs) as [k Hk]. exists k.
        rewrite (filter_keeps_none _ evs1); [exact Hk|].
        eapply Forall_impl; [exact Hall1|]. simpl.
        intros e [_ He] [_ Heq]. rewrite He in Heq. subst s. done.
Qed.

Lemma batch_ships_loop_log start stages ships : ∀ zs us st st' zs' us',
  NoDup stages.*1 →
  NoDup ships →
  GenerateData.ships_loop start stages ships zs us st = Ok (st', zs', us') →
  ∃ evs,
    production_log st' = production_log st ++ evs
    ∧ Forall (fun e => ∃ i, i ∈ ships ∧ GenerateData.ship_id e = ship_id_of i)
             evs
    ∧ ∀ i stage_name, i ∈ ships → stage_name ∈ stages.*1 →
        ∃ k, GenerateData.qc_passed <$> events_of (ship_id_of i) stage_name evs
             = replicate k false ++ [true].
Proof.
  induction ships as [|i rest IH]; intros zs us st st' zs' us' Hst Hnd; simpl.
  - intros [= <- <- <-]. exists []. rewrite app_nil_r.
    split; [reflexivity | split; [constructor|]].
    intros i s Hi. by apply elem_of_nil in Hi.
  - apply NoDup_cons in Hnd as [Hfresh Hnd].
    destruct (GenerateData.stages_loop _ _ _ _ _)
      as [[[st1 zs1] us1]| | | | |] eqn:Hloop; simpl; try done.
    intros Hrest.
    apply batch_stages_loop_log in Hloop as (evs1 & Hlog1 & Hall1 & Hfl1);
      [|exact Hst].
    apply IH in Hrest as (evs2 & Hlog2 & Hall2 & Hfl2); [|exact Hst|exact Hnd].
    simpl in Hlog1.
    exists (evs1 ++ evs2). split; [|split].
    + rewrite Hlog2, Hlog1. by rewrite app_assoc.
    + apply Forall_app. split.
      * eapply Forall_impl; [exact Hall1|]. simpl.
        intros e [He _]. exists i. split; [apply elem_of_cons; by left | done].
      * eapply Forall_impl; [exact Hall2|]. simpl.
        intros e (j & Hj & He). exists j.
        split; [apply elem_of_cons; by right | done].
    + intros j s Hj Hs. unfold events_of. rewrite filter_app.
      apply elem_of_cons in Hj as [-> | Hj].
      * rewrite (filter_keeps_none _ evs2), app_nil_r; [by apply Hfl1|].
        eapply Forall_impl; [exact Hall2|]. simpl.
        intros e (j & Hj & He) [Heq _]. rewrite He in Heq.
        apply ship_id_of_inj in Heq. subst j. done.
      * rewrite (filter_keeps_none _ evs1); [by apply Hfl2|].
        eapply Forall_impl; [exact Hall1|]. simpl.
        intros e [He _] [Heq _]. rewrite He in Heq.
        apply ship_id_of_inj in Heq. subst j. done.
Qed.

(** C4. In every ledger the batch engine returns, the rows of any unit
    [1 ≤ i ≤ num_starships] at any configured stage carry the QC flags
    [false, ..., false, true]: every row but the last failed and exactly one
    row, the last, passed.  (Stage names are the keys of a dictionary, hence
    distinct.)  The property does not need [pass_rate > 0]: with
    [pass_rate = 0] no ledger is ever returned. *)
Theorem C4_qc_flags_per_unit_stage (d : ConfigDict) (params : SimParams)
    (stages : list (string * StageParams)) (zs us : list Q)
    (ledger : list GenerateData.Event) :
  simulation_parameters d = Some params →
  production_stages d = Some stages →
  NoDup stages.*1 →
  GenerateData.run_configurable_simulation (ConfigDictOf d) zs us = Ok ledger →
  ∀ (i : nat) (stage_name : string) (sp : StageParams),
    (1 ≤ i ≤ Z.to_nat (num_starships params))%nat →
    (stage_name, sp) ∈ stages →
    (0 < pass_rate sp)%Q →
    ∃ k, GenerateData.qc_passed <$> events_of (ship_id_of i) stage_name ledger
         = replicate k false ++ [true].
Proof.
  intros Hparams Hstages Hnd.
  unfold GenerateData.run_configurable_simulation, config_falsy,
    GenerateData.simulate.
  rewrite Hparams, Hstages; simpl.
  destruct (GenerateData.ships_loop _ _ _ _ _ _)
    as [[[st zs'] us']| | | | |] eqn:Hrun; simpl; try done.
  intros [= <-] i stage_name sp Hi Hin _.
  apply batch_ships_loop_log in Hrun as (evs & Hlog & _ & Hflags);
    [|exact Hnd|apply NoDup_seq].
  simpl in Hlog. rewrite Hlog. apply Hflags.
  - unfold ship_range. apply elem_of_seq. lia.
  - apply list_elem_of_fmap. exists (stage_name, sp). done.
Qed.

(** ** C7 and C10: the KPI calculator *)

Lemma series_max_spec (x : Z) (l : list Z) :
  Dashboard.series_max x l ∈ x :: l
  ∧ ∀ y, y ∈ x :: l → y ≤ Dashboard.series_max x l.
Proof.
  unfold Dashboard.series_max. induction l as [|a l [IHin IHub]]; simpl.
  - split; [by left|]. intros y Hy. apply list_elem_of_singleton in Hy. lia.
  - split.
    + destruct (Z.max_spec a (foldr Z.max x l)) as [[_ ->] | [_ ->]].
      * apply elem_of_cons in IHin as [-> | Hin]; [by left|].
        by do 2 right.
      * right; by left.
    + intros y Hy. apply elem_of_cons in Hy as [-> | Hy].
      * specialize (IHub x ltac:(by left)). lia.
      * apply elem_of_cons in Hy as [-> | Hy]; [lia|].
        specialize (IHub y ltac:(by right)). lia.
Qed.

Lemma series_min_spec (x : Z) (l : list Z) :
  Dashboard.series_min x l ∈ x :: l
  ∧ ∀ y, y ∈ x :: l → Dashboard.series_min x l ≤ y.
Proof.
  unfold Dashboard.series_min. induction l as [|a l [IHin IHlb]]; simpl.
  - split; [by left|]. intros y Hy. apply list_elem_of_singleton in Hy. lia.
  - split.
    + destruct (Z.min_spec a (foldr Z.min x l)) as [[_ ->] | [_ ->]].
      * right; by left.
      * apply elem_of_cons in IHin as [-> | Hin]; [by left|].
        by do 2 right.
    + intros y Hy. apply elem_of_cons in Hy as [-> | Hy].
      * specialize (IHlb x ltac:(by left)). lia.
      * apply elem_of_cons in Hy as [-> | Hy]; [lia|].
        specialize (IHlb y ltac:(by right)). lia.
Qed.

(** C7. On the empty ledger the calculator returns zeros.  On a ledger with
    at least one row, [total_units] is the number of distinct [ship_id]s
    among the rows whose stage is the terminal stage; [makespan_days] is the
    whole-day part of the largest [end_time] minus the smallest [start_time]
    of the whole ledger (it is the third component whenever the terminal
    stage has a row); and the throughput is
    [total_units / (makespan_days / 7)] when [makespan_days > 0] and 0
    otherwise. *)
Theorem C7_kpi_calculator :
  Dashboard.calculate_kpis [] = (0, 0%Q, 0)
  ∧ ∀ (row : Dashboard.Event) (rows : list Dashboard.Event),
      let ledger := row :: rows in
      let completed :=
        filter (fun e => Dashboard.stage e = Dashboard.terminal_stage) ledger in
      let total_units :=
        Z.of_nat (length (remove_dups (Dashboard.ship_id <$> completed))) in
      ∃ max_end min_start : Z,
        (max_end ∈ Dashboard.end_time <$> ledger
         ∧ ∀ e, e ∈ ledger → Dashboard.end_time e ≤ max_end)
        ∧ (min_start ∈ Dashboard.start_time <$> ledger
           ∧ ∀ e, e ∈ ledger → min_start ≤ Dashboard.start_time e)
        ∧ let makespan_days := (max_end - min_start) / us_per_day in
          (Dashboard.calculate_kpis ledger).1.1 = total_units
          ∧ ((Dashboard.calculate_kpis ledger).1.2
             == if 0 <? makespan_days
                then inject_Z total_units / (inject_Z makespan_days / 7)
                else 0)%Q
          ∧ (makespan_days ≤ 0 →
             ((Dashboard.calculate_kpis ledger).1.2 == 0)%Q)
          ∧ (completed ≠ [] →
             (Dashboard.calculate_kpis ledger).2 = makespan_days).
Proof.
  split; [reflexivity|].
  intros row rows ledger completed total_units.
  destruct (series_max_spec (Dashboard.end_time row)
              (Dashboard.end_time <$> rows)) as [Hmax_in Hmax_ub].
  destruct (series_min_spec (Dashboard.start_time row)
              (Dashboard.start_time <$> rows)) as [Hmin_in Hmin_lb].
  exists (Dashboard.series_max (Dashboard.end_time row)
            (Dashboard.end_time <$> rows)),
         (Dashboard.series_min (Dashboard.start_time row)
            (Dashboard.start_time <$> rows)).
  split; [|split].
  - split; [exact Hmax_in|].
    intros e He. apply Hmax_ub.
    change (Dashboard.end_time e ∈ Dashboard.end_time <$> ledger).
    apply list_elem_of_fmap. eauto.
  - split; [exact Hmin_in|].
    intros e He. apply Hmin_lb.
    change (Dashboard.start_time e ∈ Dashboard.start_time <$> ledger).
    apply list_elem_of_fmap. eauto.
  - intros makespan_days.
    assert (Hthr0 : ∀ m : Z,
              (0 == if 0 <? m then inject_Z 0 / (inject_Z m / 7) else 0)%Q).
    { intros m. destruct (0 <? m); [|reflexivity].
      unfold Qdiv. by rewrite Qmult_0_l. }
    unfold Dashboard.calculate_kpis.
    fold ledger. fold completed.
    unfold total_units.
    destruct completed as [|c cs] eqn:Hc; simpl.
    + split; [reflexivity | split; [apply Hthr0 | split]].
      * intros _. reflexivity.
      * intros Hne. by destruct Hne.
    + fold (Dashboard.timedelta_days
              (Dashboard.series_max (Dashboard.end_time row)
                 (Dashboard.end_time <$> rows)
               - Dashboard.series_min (Dashboard.start_time row)
                   (Dashboard.start_time <$> rows))).
      unfold Dashboard.timedelta_days, Dashboard.nunique.
      fold makespan_days.
      split; [reflexivity | split; [reflexivity | split]].
      * intros Hle. apply Z.ltb_ge in Hle. rewrite Hle. reflexivity.
      * intros _. reflexivity.
Qed.

(** C10. A ledger that has rows but none whose stage is the literal
    ["Final_Checkout"] yields [(0, 0, 0)], whatever else it contains: the
    terminal stage is a constant of the calculator, which never sees the
    configuration. *)
Theorem C10_no_final_checkout_rows (ledger : list Dashboard.Event) :
  ledger ≠ [] →
  Forall (fun e => Dashboard.stage e ≠ "Final_Checkout") ledger →
  Dashboard.calculate_kpis ledger = (0, 0%Q, 0).
Proof.
  intros Hne Hnone. unfold Dashboard.calculate_kpis.
  destruct ledger as [|row rows]; [done|].
  rewrite (filter_keeps_none _ (row :: rows)) by exact Hnone.
  reflexivity.
Qed.

(** ** C8: the configuration guard, and when a run returns *)

Lemma init_availability_ready start stages :
  Forall (fun kv : string * StageParams => 1 ≤ station_count kv.2) stages →
  ∀ name, name ∈ stages.*1 →
    ∃ l, init_availability start stages !! name = Some l ∧ l ≠ [].
Proof.
  unfold init_availability. intros Hvalid name Hname.
  assert (Hgen : ∀ m : gmap string (list Z),
            name ∈ stages.*1 ∨ (∃ l, m !! name = Some l ∧ l ≠ []) →
            ∃ l, fold_left
                   (fun m kv =>
                      <[kv.1 := init_stations start (station_count kv.2)]> m)
                   stages m !! name = Some l ∧ l ≠ []).
  { clear Hname. induction Hvalid as [|[k sp] rest Hk _ IH]; intros m Hm.
    - destruct Hm as [Hm | Hm]; [by apply elem_of_nil in Hm | exact Hm].
    - simpl. apply IH. simpl in Hk.
      assert (Hnew : init_stations start (station_count sp) ≠ []).
      { unfold init_stations.
        destruct (Z.to_nat (station_count sp)) eqn:Hn; [lia | done]. }
      destruct (decide (k = name)) as [-> | Hne].
      + right. eexists. split; [apply lookup_insert_eq | exact Hnew].
      + destruct Hm as [Hm | Hm].
        * simpl in Hm. apply elem_of_cons in Hm as [-> | Hm]; [done | by left].
        * right. by rewrite lookup_insert_ne. }
  apply Hgen. by left.
Qed.

Lemma attempt_keeps_ready {E : Type}
    (mk : string → string → nat → Z → Z → Q → bool → E)
    stages ship stage_name sp zs us (st : SimState E) passed st' zs' us' :
  ready_for stages ship st →
  attempt mk ship stage_name sp zs us st = Ok (passed, (st', zs', us')) →
  ready_for stages ship st'.
Proof.
  intros [Hstations Hship] Hturn.
  apply attempt_inv in Hturn
    as (avail & idx & available & ready' & z & u & Hav & _ & _ & _ & _ & _ & _
        & _ & ->).
  split.
  - intros name sp' Hin'. simpl.
    destruct (decide (stage_name = name)) as [-> | Hneq].
    + eexists. split; [apply lookup_insert_eq|].
      destruct (Hstations _ _ Hin') as (l & Hl & Hne).
      rewrite Hav in Hl. injection Hl as ->.
      intros Hnil. apply (f_equal length) in Hnil.
      rewrite length_insert in Hnil. by destruct l.
    + rewrite lookup_insert_ne by done. eauto.
  - simpl. rewrite lookup_insert_eq. eauto.
Qed.

(** With its station list and its ship in place, a turn at a stage whose
    spread is not negative can only complete, run out of draws or leave
    Python's ranges of times. *)
Lemma attempt_no_fault {E : Type}
    (mk : string → string → nat → Z → Z → Q → bool → E)
    stages ship stage_name sp zs us (st : SimState E) :
  ready_for stages ship st →
  (stage_name, sp) ∈ stages →
  (0 <= std_dev_hours sp)%Q →
  outcome_without_fault (attempt mk ship stage_name sp zs us st).
Proof.
  intros [Hstations [ready Hready]] Hin Hstd.
  destruct (Hstations _ _ Hin) as (l & Hl & Hne).
  destruct (np_argmin_nonempty l Hne) as [idx Hidx].
  destruct (np_argmin_spec l idx Hidx) as (v & Hv & _).
  apply Qlt_bool_false in Hstd.
  unfold attempt, np_random_normal, list_get.
  rewrite Hl; simpl. rewrite Hidx; simpl. rewrite Hv; simpl.
  rewrite Hready; simpl. rewrite Hstd.
  destruct zs as [|z zs]; simpl; [done|].
  destruct (timedelta_of_hours_cases (py_max_Q 1
              (mean_time_hours sp + std_dev_hours sp * z))) as [-> | ->];
    simpl; [|done].
  destruct (datetime_add_cases (py_max_dt ready v)
              (timedelta_hours (py_max_Q 1
                 (mean_time_hours sp + std_dev_hours sp * z))))
    as [-> | ->]; simpl; [|done].
  destruct us as [|u us]; simpl; [done|].
  destruct (Qlt_bool u (pass_rate sp)); simpl; [done|].
  destruct (timedelta_of_hours_cases (mean_time_hours sp * (1 # 4)))
    as [-> | ->]; simpl; [|done].
  match goal with
  | |- context [datetime_add ?t ?d] =>
      destruct (datetime_add_cases t d) as [-> | ->]
  end; simpl; done.
Qed.

Lemma turn_length_parts (sp : StageParams) (z : Q) :
  valid_stage sp →
  us_per_hour
  ≤ timedelta_hours (py_max_Q 1 (mean_time_hours sp + std_dev_hours sp * z))
  ∧ 0 ≤ timedelta_hours (mean_time_hours sp * (1 # 4)).
Proof.
  intros (Hmean & _). split.
  - pose proof (timedelta_hours_lower 1 _ ltac:(done)
                  (py_max_Q_lower 1 (mean_time_hours sp + std_dev_hours sp * z)))
      as Hhour.
    lia.
  - apply timedelta_hours_nonneg, Qmult_le_0_compat; [|done].
    by apply Qlt_le_weak.
Qed.

(** A turn whose station time fits under the calendar's end completes. *)
Lemma attempt_in_time {E : Type}
    (mk : string → string → nat → Z → Z → Q → bool → E)
    stages ship stage_name sp z zs u us (st : SimState E) (bound hi : Z) :
  ready_for stages ship st →
  (stage_name, sp) ∈ stages →
  valid_stage sp →
  times_within hi st →
  turn_length sp z ≤ bound →
  hi + bound ≤ datetime_max →
  ∃ st', attempt mk ship stage_name sp (z :: zs) (u :: us) st
         = Ok (Qlt_bool u (pass_rate sp), (st', zs, us))
         ∧ times_within (hi + bound) st'.
Proof.
  intros [Hstations [ready Hready]] Hin Hvalid [Hst Hsh] Hturn Hhi.
  destruct (Hstations _ _ Hin) as (l & Hl & Hne).
  destruct (np_argmin_nonempty l Hne) as [idx Hidx].
  destruct (np_argmin_spec l idx Hidx) as (v & Hv & _).
  destruct (turn_length_parts sp z Hvalid) as [Hd Hr].
  pose proof (Hsh _ _ Hready) as Hready_in.
  pose proof (Hst _ _ Hl) as Hl_in.
  pose proof (proj1 (Forall_lookup _ _) Hl_in _ _ Hv) as Hv_in.
  simpl in Hv_in.
  assert (Hstart : 0 ≤ py_max_dt ready v ≤ hi)
    by (unfold py_max_dt; destruct (ready <? v); lia).
  destruct Hvalid as (_ & Hstd & _). apply Qlt_bool_false in Hstd.
  unfold turn_length in Hturn.
  unfold us_per_hour in Hd.
  assert (Hmax : datetime_max ≤ timedelta_max)
    by (unfold datetime_max, timedelta_max, us_per_day; lia).
  assert (Hmin : timedelta_min ≤ 0)
    by (unfold timedelta_min, us_per_day; lia).
  rewrite (attempt_ok mk ship stage_name sp z u zs us l idx v ready st
             Hl Hidx Hv Hready Hstd).
  - eexists. split; [reflexivity|].
    set (free_at := if Qlt_bool u (pass_rate sp) then _ else _).
    assert (Hfree : 0 ≤ free_at ≤ hi + bound)
      by (subst free_at; destruct (Qlt_bool u (pass_rate sp)); lia).
    split; simpl.
    + intros name l' Hl'.
      destruct (decide (stage_name = name)) as [-> | Hneq].
      * rewrite lookup_insert_eq in Hl'. injection Hl' as <-.
        apply Forall_insert; [|exact Hfree].
        eapply Forall_impl; [exact Hl_in|]. simpl. lia.
      * rewrite lookup_insert_ne in Hl' by done.
        eapply Forall_impl; [by eapply Hst|]. simpl. lia.
    + intros ship' t Ht.
      destruct (decide (ship = ship')) as [-> | Hneq].
      * rewrite lookup_insert_eq in Ht. injection Ht as <-. exact Hfree.
      * rewrite lookup_insert_ne in Ht by done.
        specialize (Hsh _ _ Ht). lia.
  - unfold timedelta_in_range. lia.
  - unfold in_calendar. lia.
  - intros ->. unfold timedelta_in_range, in_calendar. lia.
Qed.

Section BatchRuns.
Variable stages : list (string * StageParams).
Hypothesis stages_valid : Forall (fun kv => valid_stage kv.2) stages.

Lemma batch_stage_loop_no_fault ship stage_name sp us :
  (stage_name, sp) ∈ stages →
  ∀ zs (st : SimState GenerateData.Event),
    ready_for stages ship st →
    outcome_without_fault
      (GenerateData.stage_loop ship stage_name sp zs us st)
    ∧ ∀ st' zs' us',
        GenerateData.stage_loop ship stage_name sp zs us st
        = Ok (st', zs', us') →
        ready_for stages ship st'.
Proof.
  intros Hin.
  assert (Hstd : (0 <= std_dev_hours sp)%Q).
  { rewrite Forall_forall in stages_valid.
    by destruct (stages_valid _ Hin) as (_ & ? & _). }
  induction us as [|u us IH]; intros zs st Hready;
    rewrite batch_stage_loop_unfold;
    match goal with
    | |- context [attempt batch_event ship stage_name sp zs ?draws st] =>
        pose proof (attempt_no_fault batch_event stages ship stage_name sp zs
                      draws st Hready Hin Hstd) as Hfree
    end;
    destruct (attempt _ _ _ _ _ _ _) as [[passed [[st1 zs1] us1]]| | | | |]
      eqn:Hturn; simpl; try done;
    pose proof (attempt_keeps_ready _ _ _ _ _ _ _ _ _ _ _ _ Hready Hturn)
      as Hready1;
    apply attempt_inv in Hturn
      as (? & ? & ? & ? & ? & ? & _ & _ & _ & _ & _ & _ & Hus & _);
    [discriminate Hus|].
  injection Hus as <- <-.
  unfold continue_with; simpl. destruct passed.
  - split; [done|]. by intros st' zs' us' [= <- <- <-].
  - by apply IH.
Qed.

Lemma batch_stages_loop_no_fault ship sub :
  sub ⊆ stages →
  ∀ zs us (st : SimState GenerateData.Event),
    ready_for stages ship st →
    outcome_without_fault (GenerateData.stages_loop ship sub zs us st)
    ∧ ∀ st' zs' us',
        GenerateData.stages_loop ship sub zs us st = Ok (st', zs', us') →
        ready_for stages ship st'.
Proof.
  induction sub as [|[stage_name sp] rest IH]; intros Hsub zs us st Hready;
    simpl.
  - split; [done|]. by intros st' zs' us' [= <- <- <-].
  - destruct (batch_stage_loop_no_fault ship stage_name sp us
                ltac:(apply Hsub; by left) zs st Hready) as [Hfree Hnext].
    destruct (GenerateData.stage_loop _ _ _ _ _ _)
      as [[[st1 zs1] us1]| | | | |] eqn:Hloop; simpl; try done.
    apply IH; [|by eapply Hnext].
    intros x Hx. apply Hsub. by right.
Qed.

Lemma enter_ship_ready ship start (st : SimState GenerateData.Event) :
  stations_ready stages st →
  ready_for stages ship (enter_ship ship start st).
Proof.
  intros Hstations. split; [exact Hstations|].
  simpl. rewrite lookup_insert_eq. eauto.
Qed.

Lemma batch_ships_loop_no_fault start ships :
  ∀ zs us (st : SimState GenerateData.Event),
    stations_ready stages st →
    outcome_without_fault
      (GenerateData.ships_loop start stages ships zs us st).
Proof.
  induction ships as [|i rest IH]; intros zs us st Hready; simpl; [done|].
  destruct (batch_stages_loop_no_fault (ship_id_of i) stages
              (fun x Hx => Hx) zs us _
              (enter_ship_ready (ship_id_of i) start st Hready))
    as [Hfree Hnext].
  destruct (GenerateData.stages_loop _ _ _ _ _)
    as [[[st1 zs1] us1]| | | | |] eqn:Hloop; simpl; try done.
  apply IH. by destruct (Hnext _ _ _ eq_refl).
Qed.

Variables bound limit : Z.
Hypothesis bound_nonneg : 0 ≤ bound.
Hypothesis limit_in_calendar : limit ≤ datetime_max.

Lemma batch_stage_loop_in_time ship stage_name sp us :
  (stage_name, sp) ∈ stages →
  ∀ zs (st : SimState GenerateData.Event) rest,
    (length us ≤ length zs)%nat →
    turns_within bound stages zs →
    ready_for stages ship st →
    times_within (limit - bound * Z.of_nat (length us)) st →
    qc_until_pass (pass_rate sp) us = Some rest →
    ∃ st' zs',
      GenerateData.stage_loop ship stage_name sp zs us st
      = Ok (st', zs', rest)
      ∧ ready_for stages ship st'
      ∧ (length rest ≤ length zs')%nat
      ∧ (length rest ≤ length us)%nat
      ∧ turns_within bound stages zs'
      ∧ times_within (limit - bound * Z.of_nat (length rest)) st'.
Proof.
  intros Hin.
  assert (Hvalid : valid_stage sp).
  { rewrite Forall_forall in stages_valid. exact (stages_valid _ Hin). }
  induction us as [|u us IH]; intros zs st rest Hlen Hturns Hready Htimes Hqc;
    [discriminate Hqc|].
  destruct zs as [|z zs]; [simpl in Hlen; lia|]. simpl in Hlen.
  apply Forall_cons in Hturns as [Hz Hturns].
  rewrite Forall_forall in Hz. specialize (Hz _ Hin). simpl in Hz.
  destruct (attempt_in_time batch_event stages ship stage_name sp z zs u us
              st bound (limit - bound * Z.of_nat (length (u :: us)))
              Hready Hin Hvalid Htimes Hz) as (st1 & Hturn & Htimes1).
  { simpl length. lia. }
  pose proof (attempt_keeps_ready _ _ _ _ _ _ _ _ _ _ _ _ Hready Hturn)
    as Hready1.
  replace (limit - bound * Z.of_nat (length (u :: us)) + bound)
    with (limit - bound * Z.of_nat (length us)) in Htimes1 by (simpl length; lia).
  rewrite batch_stage_loop_unfold, Hturn.
  unfold continue_with; simpl. simpl in Hqc.
  destruct (Qlt_bool u (pass_rate sp)).
  - injection Hqc as <-. exists st1, zs.
    split; [done|]. split; [done|]. split; [lia|]. split; [lia|]. done.
  - destruct (IH zs st1 rest ltac:(lia) Hturns Hready1 Htimes1 Hqc)
      as (st' & zs' & Hloop & ? & ? & ? & ? & ?).
    exists st', zs'. split; [done|]. split; [done|]. split; [done|].
    split; [lia|]. done.
Qed.

Lemma batch_stages_loop_in_time ship sub :
  sub ⊆ stages →
  ∀ zs us (st : SimState GenerateData.Event) rest,
    (length us ≤ length zs)%nat →
    turns_within bound stages zs →
    ready_for stages ship st →
    times_within (limit - bound * Z.of_nat (length us)) st →
    qc_stages sub us = Some rest →
    ∃ st' zs',
      GenerateData.stages_loop ship sub zs us st = Ok (st', zs', rest)
      ∧ ready_for stages ship st'
      ∧ (length rest ≤ length zs')%nat
      ∧ (length rest ≤ length us)%nat
      ∧ turns_within bound stages zs'
      ∧ times_within (limit - bound * Z.of_nat (length rest)) st'.
Proof.
  induction sub as [|[stage_name sp] tail IH];
    intros Hsub zs us st rest Hlen Hturns Hready Htimes Hqc; simpl in *.
  - injection Hqc as <-. exists st, zs. done.
  - assert (Hin : (stage_name, sp) ∈ stages) by (apply Hsub; by left).
    assert (Htail : tail ⊆ stages) by (intros x Hx; apply Hsub; by right).
    destruct (qc_until_pass (pass_rate sp) us) as [us1|] eqn:Hqc1; [|done].
    destruct (batch_stage_loop_in_time ship stage_name sp us Hin zs st us1
                Hlen Hturns Hready Htimes Hqc1)
      as (st1 & zs1 & -> & Hready1 & Hlen1 & Hle1 & Hturns1 & Htimes1).
    simpl.
    destruct (IH Htail zs1 us1 st1 rest Hlen1 Hturns1 Hready1 Htimes1 Hqc)
      as (st' & zs' & Hloop & ? & ? & ? & ? & ?).
    exists st', zs'. split; [done|]. split; [done|]. split; [done|].
    split; [lia|]. done.
Qed.

Lemma batch_ships_loop_in_time start ships :
  0 ≤ start →
  ∀ zs us (st : SimState GenerateData.Event) rest,
    (length us ≤ length zs)%nat →
    turns_within bound stages zs →
    stations_ready stages st →
    times_within (limit - bound * Z.of_nat (length us)) st →
    start ≤ limit - bound * Z.of_nat (length us) →
    qc_ships stages ships us = Some rest →
    ∃ st' zs',
      GenerateData.ships_loop start stages ships zs us st
      = Ok (st', zs', rest).
Proof.
  intros Hstart.
  induction ships as [|i tail IH];
    intros zs us st rest Hlen Hturns Hready Htimes Hroom Hqc; simpl in *.
  - injection Hqc as <-. eauto.
  - destruct (qc_stages stages us) as [us1|] eqn:Hqc1; [|done].
    assert (Hentered : times_within (limit - bound * Z.of_nat (length us))
                         (enter_ship (ship_id_of i) start st)).
    { generalize (ship_id_of i). intros entering.
      destruct Htimes as [Hst Hsh]. split; [exact Hst|]. simpl.
      intros ship t Ht.
      destruct (decide (entering = ship)) as [-> | Hneq].
      - rewrite lookup_insert_eq in Ht. injection Ht as <-. lia.
      - rewrite lookup_insert_ne in Ht by done. by eapply Hsh. }
    destruct (batch_stages_loop_in_time (ship_id_of i) stages
                (fun x Hx => Hx) zs us _ us1 Hlen Hturns
                (enter_ship_ready _ start st Hready) Hentered Hqc1)
      as (st1 & zs1 & -> & [Hready1 _] & Hlen1 & Hle1 & Hturns1 & Htimes1).
    simpl. apply IH; try done. nia.
Qed.
End BatchRuns.

Lemma init_availability_times start stages name l :
  init_availability start stages !! name = Some l →
  Forall (fun t => t = start) l.
Proof.
  unfold init_availability.
  assert (Hgen : ∀ m : gmap string (list Z),
            (∀ l', m !! name = Some l' → Forall (fun t => t = start) l') →
            ∀ l', fold_left
                    (fun m kv =>
                       <[kv.1 := init_stations start (station_count kv.2)]> m)
                    stages m !! name = Some l' →
                  Forall (fun t => t = start) l').
  { induction stages as [|[k sp] rest IH]; intros m Hm l'; simpl.
    - apply Hm.
    - apply IH. intros l''.
      destruct (decide (k = name)) as [-> | Hne].
      + rewrite lookup_insert_eq. intros [= <-].
        unfold init_stations. apply Forall_forall.
        intros t Ht. by apply elem_of_replicate in Ht as [-> _].
      + rewrite lookup_insert_ne by done. apply Hm. }
  apply Hgen. intros l'. by rewrite lookup_empty.
Qed.

Lemma initial_state_times {E : Type} start stages :
  0 ≤ start → times_within start (initial_state (E := E) start stages).
Proof.
  intros Hstart. split; simpl.
  - intros name l Hl. apply init_availability_times in Hl.
    eapply Forall_impl; [exact Hl|]. simpl. lia.
  - intros ship t. by rewrite lookup_empty.
Qed.

(** Conversely, a loop that returned has found its passing draws. *)
Lemma batch_stage_loop_passed ship stage_name sp us : ∀ zs st st' zs' us',
  GenerateData.stage_loop ship stage_name sp zs us st = Ok (st', zs', us') →
  qc_until_pass (pass_rate sp) us = Some us'.
Proof.
  induction us as [|u us IH]; intros zs st st' zs' us';
    rewrite batch_stage_loop_unfold;
    destruct (attempt _ _ _ _ _ _ _) as [[passed [[st1 zs1] us1]]| | | | |]
      eqn:Hturn; simpl; try done;
    apply attempt_inv in Hturn
      as (? & ? & ? & ? & ? & ? & _ & _ & _ & _ & _ & _ & Hus & Hp & _);
    [discriminate Hus|].
  injection Hus as <- <-. unfold continue_with; simpl.
  rewrite <- Hp. destruct passed.
  - by intros [= <- <- <-].
  - apply IH.
Qed.

Lemma batch_stages_loop_passed ship stages : ∀ zs us st st' zs' us',
  GenerateData.stages_loop ship stages zs us st = Ok (st', zs', us') →
  qc_stages stages us = Some us'.
Proof.
  induction stages as [|[stage_name sp] rest IH]; intros zs us st st' zs' us';
    simpl.
  - by intros [= <- <- <-].
  - destruct (GenerateData.stage_loop _ _ _ _ _ _)
      as [[[st1 zs1] us1]| | | | |] eqn:Hloop; simpl; try done.
    apply batch_stage_loop_passed in Hloop. rewrite Hloop. apply IH.
Qed.

Lemma batch_ships_loop_passed start stages ships : ∀ zs us st st' zs' us',
  GenerateData.ships_loop start stages ships zs us st = Ok (st', zs', us') →
  qc_ships stages ships us = Some us'.
Proof.
  induction ships as [|i rest IH]; intros zs us st st' zs' us'; simpl.
  - by intros [= <- <- <-].
  - destruct (GenerateData.stages_loop _ _ _ _ _)
      as [[[st1 zs1] us1]| | | | |] eqn:Hloop; simpl; try done.
    apply batch_stages_loop_passed in Hloop. rewrite Hloop. apply IH.
Qed.

Lemma flags_end_in_pass (l : list GenerateData.Event) (k : nat) :
  GenerateData.qc_passed <$> l = replicate k false ++ [true] →
  ∃ e, e ∈ l ∧ GenerateData.qc_passed e = true.
Proof.
  intros Hflags.
  assert (Hin : true ∈ GenerateData.qc_passed <$> l).
  { rewrite Hflags. apply elem_of_app. right. by left. }
  apply list_elem_of_fmap in Hin as (e & He & Hin). eauto.
Qed.

(** A stage with pass rate 0 never lets a draw of [random()] through. *)
Lemma qc_until_pass_zero (us : list Q) :
  Forall (fun u => (0 <= u)%Q) us → qc_until_pass 0 us = None.
Proof.
  induction 1 as [|u us Hu _ IH]; simpl; [done|].
  apply Qlt_bool_false in Hu. by rewrite Hu.
Qed.

Lemma batch_run_present d params stages zs us :
  simulation_parameters d = Some params →
  production_stages d = Some stages →
  GenerateData.run_configurable_simulation (ConfigDictOf d) zs us
  = result_map (fun r : Run GenerateData.Event => production_log r.1.1)
      (GenerateData.ships_loop (start_date params) stages
         (ship_range (num_starships params)) zs us
         (initial_state (start_date params) stages)).
Proof.
  intros Hparams Hstages.
  unfold GenerateData.run_configurable_simulation, config_falsy,
    GenerateData.simulate.
  rewrite Hparams, Hstages. reflexivity.
Qed.



(** ** Worked runs *)

Lemma two_stage_run :
  GenerateData.run_configurable_simulation
    (ConfigDictOf two_stage_dict) five_normals five_uniforms
  = Ok two_stage_ledger.
Proof. vm_compute. reflexivity. Qed.

(** The retry after a failed attempt may move to another station: SN101
    fails at [Welding_1], which is then held for the rework, and passes at
    [Welding_2]. *)
Example retry_moves_to_other_station :
  GenerateData.station_id <$> take 2 two_stage_ledger
  = ["Welding_1"; "Welding_2"]
  ∧ GenerateData.qc_passed <$> take 2 two_stage_ledger = [false; true]
  ∧ GenerateData.ship_id <$> take 2 two_stage_ledger = ["SN101"; "SN101"].
Proof. vm_compute. done. Qed.

Lemma two_stage_names_distinct : NoDup two_stage_line.*1.
Proof.
  apply NoDup_cons. split; [|apply NoDup_singleton].
  intros H. apply list_elem_of_singleton in H. discriminate H.
Qed.

Lemma two_stage_well_formed :
  well_formed two_stage_dict two_stage_params two_stage_line.
Proof.
  repeat split; try done.
  - exact two_stage_names_distinct.
  - repeat constructor; done.
Qed.

Lemma C3_failed_qc_rework_witness :
  np_argmin [0; 0] = Ok 0%nat
  ∧ [0; 0] !! 0%nat = Some 0
  ∧ Qlt_bool (std_dev_hours welding) 0 = false
  ∧ Qlt_bool (3 # 4) (pass_rate welding) = false
  ∧ timedelta_in_range 8
  ∧ in_calendar 28800000000
  ∧ timedelta_in_range (8 * (1 # 4))
  ∧ in_calendar 36000000000
  ∧ np_argmin [36000000000; 0] = Ok 1%nat
  ∧ [36000000000; 0] !! 1%nat = Some 0
  ∧ Qlt_bool (1 # 4) (pass_rate welding) = true
  ∧ in_calendar 64800000000
  ∧ GenerateData.stage_loop "SN101" "Welding" welding
      [0; 0]%Q [3 # 4; 1 # 4]%Q sn101_enters
    = Ok ({| station_availability :=
               <["Welding" := [36000000000; 64800000000]]>
                 (station_availability sn101_enters);
             ship_completion_times :=
               <["SN101" := 64800000000]>
                 (ship_completion_times sn101_enters);
             production_log :=
               production_log sn101_enters ++
               [batch_event "SN101" "Welding" 0 0 28800000000 8 false;
                batch_event "SN101" "Welding" 1 36000000000 64800000000 8
                            true] |},
          [], []).
Proof.
  assert (Hhours : timedelta_in_range 8) by (vm_compute; split; discriminate).
  assert (Hend : in_calendar 28800000000)
    by (vm_compute; split; discriminate).
  assert (Hpenalty : timedelta_in_range (8 * (1 # 4)))
    by (vm_compute; split; discriminate).
  assert (Hrework : in_calendar 36000000000)
    by (vm_compute; split; discriminate).
  assert (Hretry : in_calendar 64800000000)
    by (vm_compute; split; discriminate).
  do 4 (split; [reflexivity|]).
  split; [exact Hhours|]. split; [exact Hend|]. split; [exact Hpenalty|].
  split; [exact Hrework|]. do 3 (split; [reflexivity|]).
  split; [exact Hretry|].
  exact (proj2 (proj1 (C3_failed_qc_rework "SN101" "Welding" welding
                         0 (3 # 4) [0; 0] 0%nat 0 0
                         eq_refl eq_refl eq_refl eq_refl
                         Hhours Hend Hpenalty Hrework)
                  sn101_enters eq_refl eq_refl)
           0%Q (1 # 4) [] [] 1%nat 0 eq_refl eq_refl eq_refl Hhours Hretry).
Defined.

Lemma C4_qc_flags_witness :
  (1 ≤ 1 ≤ Z.to_nat (num_starships two_stage_params))%nat
  ∧ ("Welding", welding) ∈ two_stage_line
  ∧ (0 < pass_rate welding)%Q
  ∧ ∃ k, GenerateData.qc_passed
           <$> events_of (ship_id_of 1) "Welding" two_stage_ledger
         = replicate k false ++ [true].
Proof.
  assert (Hi : (1 ≤ 1 ≤ Z.to_nat (num_starships two_stage_params))%nat)
    by (simpl; lia).
  assert (Hin : ("Welding", welding) ∈ two_stage_line) by (by left).
  assert (Hrate : (0 < pass_rate welding)%Q) by done.
  pose proof two_stage_names_distinct as Hnd.
  repeat (split; [assumption|]).
  exact (C4_qc_flags_per_unit_stage two_stage_dict two_stage_params
           two_stage_line five_normals five_uniforms two_stage_ledger
           eq_refl eq_refl Hnd two_stage_run 1%nat "Welding" welding
           Hi Hin Hrate).
Defined.

Lemma C5_duration_witness :
  GenerateData.run_configurable_simulation
    (ConfigDictOf two_stage_dict) five_normals five_uniforms
  = Ok two_stage_ledger
  ∧ Forall (fun e => (1 <= GenerateData.duration_hours e)%Q) two_stage_ledger.
Proof.
  split; [exact two_stage_run|].
  exact (proj2 C5_duration_at_least_one (ConfigDictOf two_stage_dict)
           five_normals five_uniforms two_stage_ledger two_stage_run).
Defined.

Lemma sn101_first_turn :
  attempt batch_event "SN101" "Welding" welding
    five_normals five_uniforms sn101_enters
  = Ok (false, (sn101_after_fail, [0; 0; 0; 0]%Q,
                [1 # 4; 0; 1 # 3; 9 # 10]%Q)).
Proof. vm_compute. reflexivity. Qed.

Lemma C6_availability_witness :
  (0 < mean_time_hours welding)%Q
  ∧ ∃ avail idx old new,
      station_availability sn101_enters !! "Welding" = Some avail
      ∧ np_argmin avail = Ok idx
      ∧ avail !! idx = Some old
      ∧ station_availability sn101_after_fail
        = <["Welding" := <[idx := new]> avail]>
            (station_availability sn101_enters)
      ∧ old ≤ new.
Proof.
  assert (Hmean : (0 < mean_time_hours welding)%Q) by done.
  split; [exact Hmean|].
  exact (proj2 (proj1 (C6_availability_writes_monotone "SN101" "Welding"
                         welding five_normals five_uniforms false
                         [0; 0; 0; 0]%Q [1 # 4; 0; 1 # 3; 9 # 10]%Q Hmean)
                  sn101_enters sn101_after_fail sn101_first_turn)).
Defined.


Lemma C7_kpi_calculator_witness :
  filter (fun e => Dashboard.stage e = Dashboard.terminal_stage) kpi_rows ≠ []
  ∧ ∃ max_end min_start : Z,
      (∀ e, e ∈ kpi_rows → Dashboard.end_time e ≤ max_end)
      ∧ (∀ e, e ∈ kpi_rows → min_start ≤ Dashboard.start_time e)
      ∧ (Dashboard.calculate_kpis kpi_rows).1.1 = 2
      ∧ (Dashboard.calculate_kpis kpi_rows).2
        = (max_end - min_start) / us_per_day.
Proof.
  assert (Hne : filter (fun e => Dashboard.stage e = Dashboard.terminal_stage)
                  kpi_rows ≠ []) by (vm_compute; discriminate).
  split; [exact Hne|].
  destruct (proj2 C7_kpi_calculator
              {| Dashboard.ship_id := "SN101"; Dashboard.stage := "Welding";
                 Dashboard.start_time := 0;
                 Dashboard.end_time := 2 * us_per_day |}
              (tail kpi_rows))
    as (max_end & min_start & [_ Hub] & [_ Hlb] & Hunits & _ & _ & Hdays).
  exists max_end, min_start.
  split; [exact Hub|]. split; [exact Hlb|].
  split; [exact Hunits | exact (Hdays Hne)].
Defined.

Lemma welding_only_run :
  Dashboard.run_simulation (ConfigDictOf welding_only_dict)
    five_normals five_uniforms = Ok welding_only_rows.
Proof. vm_compute. reflexivity. Qed.

Lemma C10_no_final_checkout_witness :
  welding_only_rows ≠ []
  ∧ Forall (fun e => Dashboard.stage e ≠ "Final_Checkout") welding_only_rows
  ∧ Dashboard.calculate_kpis welding_only_rows = (0, 0%Q, 0).
Proof.
  assert (Hne : welding_only_rows ≠ []) by discriminate.
  assert (Hnone : Forall (fun e => Dashboard.stage e ≠ "Final_Checkout")
                    welding_only_rows)
    by (repeat constructor; discriminate).
  split; [exact Hne|]. split; [exact Hnone|].
  exact (C10_no_final_checkout_rows welding_only_rows Hne Hnone).
Defined.

Lemma C1_projection_witness :
  GenerateData.run_configurable_simulation (ConfigDictOf two_stage_dict)
    five_normals five_uniforms = Ok two_stage_ledger
  ∧ ∃ rows,
      Dashboard.run_simulation (ConfigDictOf two_stage_dict)
        five_normals five_uniforms = Ok rows
      ∧ length rows = length two_stage_ledger
      ∧ ∀ i, rows !! i = project <$> two_stage_ledger !! i.
Proof.
  split; [exact two_stage_run|].
  exact (proj2 (C1_dashboard_ledger_is_projection (ConfigDictOf two_stage_dict)
                  five_normals five_uniforms)
           two_stage_ledger two_stage_run).
Defined.

(** * Further properties of the engines, the KPI calculator and the callback *)

(** ** Loop invariants that may depend on the stage being run *)

Section BatchStagewise.
Variable stages : list (string * StageParams).
Variable P : SimState GenerateData.Event → Prop.
Hypothesis P_attempt :
  ∀ ship stage_name sp zs us st passed st' zs' us',
    (stage_name, sp) ∈ stages →
    attempt batch_event ship stage_name sp zs us st
    = Ok (passed, (st', zs', us')) →
    P st → P st'.
Hypothesis P_enter : ∀ ship start st, P st → P (enter_ship ship start st).

Lemma batch_stage_loop_stagewise ship stage_name sp us :
  (stage_name, sp) ∈ stages →
  ∀ zs st st' zs' us',
    GenerateData.stage_loop ship stage_name sp zs us st = Ok (st', zs', us') →
    P st → P st'.
Proof.
  intros Hin.
  induction us as [|u us IH]; intros zs st st' zs' us';
    rewrite batch_stage_loop_unfold;
    destruct (attempt _ _ _ _ _ _ _) as [[passed [[st1 zs1] us1]]| | | | |]
      eqn:Hturn; simpl; try done.
  - apply attempt_inv in Hturn
      as (? & ? & ? & ? & ? & ? & _ & _ & _ & _ & _ & _ & Hus & _).
    discriminate Hus.
  - pose proof Hturn as Hinv.
    apply attempt_inv in Hinv
      as (? & ? & ? & ? & ? & ? & _ & _ & _ & _ & _ & _ & [= _ <-] & _).
    unfold continue_with; simpl. destruct passed.
    + intros [= <- <- <-]. eauto.
    + intros Hloop Hst. eapply IH; eauto.
Qed.

Lemma batch_stages_loop_stagewise ship sub :
  sub ⊆ stages →
  ∀ zs us st st' zs' us',
    GenerateData.stages_loop ship sub zs us st = Ok (st', zs', us') →
    P st → P st'.
Proof.
  induction sub as [|[stage_name sp] rest IH]; intros Hsub zs us st st' zs' us';
    simpl.
  - intros [= <- <- <-]. done.
  - destruct (GenerateData.stage_loop _ _ _ _ _ _)
      as [[[st1 zs1] us1]| | | | |] eqn:Hloop; simpl; try done.
    intros Hrest Hst. eapply IH; [|exact Hrest|].
    + intros x Hx. apply Hsub. by right.
    + eapply batch_stage_loop_stagewise; [|exact Hloop|exact Hst].
      apply Hsub. by left.
Qed.

Lemma batch_ships_loop_stagewise start ships : ∀ zs us st st' zs' us',
  GenerateData.ships_loop start stages ships zs us st = Ok (st', zs', us') →
  P st → P st'.
Proof.
  induction ships as [|i rest IH]; intros zs us st st' zs' us'; simpl.
  - intros [= <- <- <-]. done.
  - destruct (GenerateData.stages_loop _ _ _ _ _)
      as [[[st1 zs1] us1]| | | | |] eqn:Hloop; simpl; try done.
    intros Hrest Hst. eapply IH; [exact Hrest|].
    eapply batch_stages_loop_stagewise; [|exact Hloop|by apply P_enter].
    by intros x Hx.
Qed.
End BatchStagewise.

(** A returned ledger is either empty (falsy configuration) or the log of
    the state in which the loop over the ships ended. *)
Lemma batch_run_cases config zs us ledger :
  GenerateData.run_configurable_simulation config zs us = Ok ledger →
  ledger = []
  ∨ ∃ d params stages st zs' us',
      config = ConfigDictOf d
      ∧ simulation_parameters d = Some params
      ∧ production_stages d = Some stages
      ∧ GenerateData.ships_loop (start_date params) stages
          (ship_range (num_starships params)) zs us
          (initial_state (start_date params) stages) = Ok (st, zs', us')
      ∧ ledger = production_log st.
Proof.
  unfold GenerateData.run_configurable_simulation.
  destruct (config_falsy config); [intros [= <-]; by left|].
  destruct config as [|d]; [intros [= <-]; by left|].
  unfold GenerateData.simulate.
  destruct (simulation_parameters d) as [params|] eqn:Hp; simpl; try done.
  destruct (production_stages d) as [stages|] eqn:Hs; simpl; try done.
  destruct (GenerateData.ships_loop _ _ _ _ _ _)
    as [[[st zs'] us']| | | | |] eqn:Hrun; simpl; try done.
  intros [= <-]. right. by exists d, params, stages, st, zs', us'.
Qed.

Lemma timedelta_hours_at_least_hour (h : Q) :
  (1 <= h)%Q → us_per_hour ≤ timedelta_hours h.
Proof. intros H. apply (timedelta_hours_lower 1 h); done. Qed.

(** ** Every attempt lasts at least an hour *)

Lemma batch_rows_last_an_hour config zs us ledger :
  GenerateData.run_configurable_simulation config zs us = Ok ledger →
  Forall (fun e => GenerateData.start_time e + us_per_hour
                   ≤ GenerateData.end_time e) ledger.
Proof.
  intros Hrun.
  apply batch_run_cases in Hrun
    as [-> | (d & params & stages & st & zs' & us' & _ & _ & _ & Hrun & ->)];
    [constructor|].
  eapply (batch_ships_loop_invariant
            (fun st => Forall (fun e => GenerateData.start_time e + us_per_hour
                                        ≤ GenerateData.end_time e)
                              (production_log st))); [| |exact Hrun|].
  - intros ship stage_name sp zs0 us0 st0 passed st1 zs1 us1 Hturn Hlog.
    apply attempt_inv in Hturn
      as (avail & idx & available & ready & z & u & _ & _ & _ & _ & _ & _
          & _ & _ & ->).
    simpl. apply Forall_app. split; [exact Hlog|].
    constructor; [|constructor]. simpl.
    pose proof (timedelta_hours_at_least_hour
                  (py_max_Q 1 (mean_time_hours sp + std_dev_hours sp * z))
                  (py_max_Q_lower _ _)).
    lia.
  - intros; assumption.
  - constructor.
Qed.

Lemma dashboard_rows_last_an_hour config zs us rows :
  Dashboard.run_simulation config zs us = Ok rows →
  Forall (fun r => Dashboard.start_time r + us_per_hour
                   ≤ Dashboard.end_time r) rows.
Proof.
  rewrite run_simulation_project.
  destruct (GenerateData.run_configurable_simulation config zs us)
    as [ledger| | | | |] eqn:Hrun; simpl; try done.
  intros [= <-]. apply Forall_fmap.
  exact (batch_rows_last_an_hour config zs us ledger Hrun).
Qed.

(** X1. In every ledger either engine returns, each row ends at least one
    hour (3 600 000 000 microseconds) after it starts. *)
Theorem rows_last_at_least_an_hour :
  (∀ config zs us ledger,
     GenerateData.run_configurable_simulation config zs us = Ok ledger →
     Forall (fun e => GenerateData.start_time e + us_per_hour
                      ≤ GenerateData.end_time e) ledger)
  ∧ (∀ config zs us rows,
       Dashboard.run_simulation config zs us = Ok rows →
       Forall (fun r => Dashboard.start_time r + us_per_hour
                        ≤ Dashboard.end_time r) rows).
Proof.
  split.
  - exact batch_rows_last_an_hour.
  - exact dashboard_rows_last_an_hour.
Qed.

(** ** A unit moves through the line one attempt after another *)

Lemma py_max_dt_ge_l (a b : Z) : a ≤ py_max_dt a b.
Proof. unfold py_max_dt. destruct (a <? b) eqn:H; lia. Qed.

Lemma in_sequence_from_earlier (t t' : Z) rows t1 :
  t ≤ t' → in_sequence t' rows t1 → in_sequence t rows t1.
Proof.
  destruct rows as [|e rest]; simpl; [lia|].
  intros Hle (Hstart & Hdur & Hrest). repeat split; [lia | done | done].
Qed.

Lemma in_sequence_app (a b c : Z) rows1 rows2 :
  in_sequence a rows1 b → in_sequence b rows2 c →
  in_sequence a (rows1 ++ rows2) c.
Proof.
  revert a. induction rows1 as [|e rest IH]; intros a; simpl.
  - apply in_sequence_from_earlier.
  - intros (Hstart & Hdur & Hrest) H2. repeat split; [done | done |].
    by apply IH.
Qed.

Lemma batch_stage_loop_sequence ship stage_name sp us :
  (0 <= mean_time_hours sp)%Q →
  ∀ zs st st' zs' us' t0,
    ship_completion_times st !! ship = Some t0 →
    GenerateData.stage_loop ship stage_name sp zs us st = Ok (st', zs', us') →
    ∃ rows t1,
      production_log st' = production_log st ++ rows
      ∧ ship_completion_times st' !! ship = Some t1
      ∧ Forall (fun e => GenerateData.ship_id e = ship) rows
      ∧ in_sequence t0 rows t1.
Proof.
  intros Hmean.
  induction us as [|u us IH]; intros zs st st' zs' us' t0 Ht0;
    rewrite batch_stage_loop_unfold;
    destruct (attempt _ _ _ _ _ _ _) as [[passed [[st1 zs1] us1]]| | | | |]
      eqn:Hturn; simpl; try done;
    apply attempt_inv in Hturn
      as (avail & idx & available & ready & z & u0 & _ & _ & _ & Hready & _ & _
          & Hus & Hp & Hst1); [discriminate Hus|].
  injection Hus as <- <-. simpl in Hst1.
  rewrite Ht0 in Hready. injection Hready as <-.
  pose proof (py_max_dt_ge_l t0 available) as Hstart.
  assert (0 ≤ timedelta_hours
                (py_max_Q 1 (mean_time_hours sp + std_dev_hours sp * z))) as Hd.
  { apply timedelta_hours_nonneg.
    apply Qle_trans with 1%Q; [done | apply py_max_Q_lower]. }
  assert (0 ≤ timedelta_hours (mean_time_hours sp * (1 # 4))) as Hr.
  { apply timedelta_hours_nonneg. apply Qmult_le_0_compat; done. }
  unfold continue_with; simpl. destruct passed.
  - intros [= <- <- <-]. rewrite Hst1; simpl.
    eexists [_], _. split; [reflexivity|].
    split; [apply lookup_insert_eq|]. split; [by repeat constructor|].
    simpl. lia.
  - intros Hloop.
    eapply IH in Hloop as (rows & t1 & Hlog & Ht1 & Hship & Hseq);
      [|rewrite Hst1; simpl; apply lookup_insert_eq].
    rewrite Hst1 in Hlog; simpl in Hlog. rewrite <- app_assoc in Hlog.
    eexists (_ :: rows), t1. split; [exact Hlog|]. split; [exact Ht1|].
    split; [constructor; [reflexivity | exact Hship]|].
    simpl. split; [lia|]. split; [lia|].
    eapply in_sequence_from_earlier; [|exact Hseq]. lia.
Qed.

Lemma batch_stages_loop_sequence ship stages :
  Forall (fun kv : string * StageParams => (0 <= mean_time_hours kv.2)%Q)
         stages →
  ∀ zs us st st' zs' us' t0,
    ship_completion_times st !! ship = Some t0 →
    GenerateData.stages_loop ship stages zs us st = Ok (st', zs', us') →
    ∃ rows t1,
      production_log st' = production_log st ++ rows
      ∧ ship_completion_times st' !! ship = Some t1
      ∧ Forall (fun e => GenerateData.ship_id e = ship) rows
      ∧ in_sequence t0 rows t1.
Proof.
  induction 1 as [|[stage_name sp] rest Hmean _ IH];
    intros zs us st st' zs' us' t0 Ht0; simpl.
  - intros [= <- <- <-]. exists [], t0. rewrite app_nil_r.
    split; [done|]. split; [done|]. split; [constructor | simpl; lia].
  - destruct (GenerateData.stage_loop _ _ _ _ _ _)
      as [[[st1 zs1] us1]| | | | |] eqn:Hloop; simpl; try done.
    intros Hrest.
    eapply batch_stage_loop_sequence in Hloop
      as (rows1 & t1 & Hlog1 & Ht1 & Hship1 & Hseq1); [|exact Hmean|exact Ht0].
    eapply IH in Hrest as (rows2 & t2 & Hlog2 & Ht2 & Hship2 & Hseq2);
      [|exact Ht1].
    exists (rows1 ++ rows2), t2.
    split; [rewrite Hlog2, Hlog1; by rewrite app_assoc|].
    split; [exact Ht2|].
    split; [by apply Forall_app|].
    by eapply in_sequence_app.
Qed.

Lemma batch_ships_loop_sequence start stages ships :
  Forall (fun kv : string * StageParams => (0 <= mean_time_hours kv.2)%Q)
         stages →
  NoDup ships →
  ∀ zs us st st' zs' us',
    GenerateData.ships_loop start stages ships zs us st = Ok (st', zs', us') →
    ∃ rows,
      production_log st' = production_log st ++ rows
      ∧ Forall (fun e => ∃ i, i ∈ ships ∧ GenerateData.ship_id e = ship_id_of i)
               rows
      ∧ ∀ i, i ∈ ships →
          ∃ t1, in_sequence start
                  (filter (fun e => GenerateData.ship_id e = ship_id_of i) rows)
                  t1.
Proof.
  intros Hmean.
  induction ships as [|i rest IH]; intros Hnd zs us st st' zs' us'; simpl.
  - intros [= <- <- <-]. exists []. rewrite app_nil_r.
    split; [done|]. split; [constructor|].
    intros i Hi. by apply elem_of_nil in Hi.
  - apply NoDup_cons in Hnd as [Hfresh Hnd].
    destruct (GenerateData.stages_loop _ _ _ _ _)
      as [[[st1 zs1] us1]| | | | |] eqn:Hloop; simpl; try done.
    intros Hrest.
    eapply (batch_stages_loop_sequence _ _ Hmean) in Hloop
      as (rows1 & t1 & Hlog1 & _ & Hship1 & Hseq1);
      [|simpl; apply lookup_insert_eq].
    apply IH in Hrest as (rows2 & Hlog2 & Hship2 & Hseq2); [|exact Hnd].
    simpl in Hlog1.
    exists (rows1 ++ rows2).
    split; [rewrite Hlog2, Hlog1; by rewrite app_assoc|]. split.
    + apply Forall_app. split.
      * eapply Forall_impl; [exact Hship1|]. simpl.
        intros e He. exists i. split; [by left | done].
      * eapply Forall_impl; [exact Hship2|]. simpl.
        intros e (j & Hj & He). exists j. split; [by right | done].
    + intros j Hj. rewrite filter_app.
      apply elem_of_cons in Hj as [-> | Hj].
      * exists t1.
        rewrite (filter_keeps_all _ rows1) by exact Hship1.
        rewrite (filter_keeps_none _ rows2), app_nil_r; [exact Hseq1|].
        eapply Forall_impl; [exact Hship2|]. simpl.
        intros e (j & Hj & He) Heq. rewrite He in Heq.
        apply ship_id_of_inj in Heq. by subst j.
      * rewrite (filter_keeps_none _ rows1); [by apply Hseq2|].
        eapply Forall_impl; [exact Hship1|]. simpl.
        intros e He Heq. rewrite He in Heq.
        apply ship_id_of_inj in Heq. by subst j.
Qed.

(** X2. With no negative [mean_time_hours], the rows of any unit
    [1 ≤ i ≤ num_starships], in ledger order, never overlap: the first
    starts no earlier than [start_date] and each later one starts no earlier
    than the one before it ended. *)
Theorem unit_rows_in_sequence (d : ConfigDict) (params : SimParams)
    (stages : list (string * StageParams)) (zs us : list Q)
    (ledger : list GenerateData.Event) :
  simulation_parameters d = Some params →
  production_stages d = Some stages →
  Forall (fun kv : string * StageParams => (0 <= mean_time_hours kv.2)%Q)
         stages →
  GenerateData.run_configurable_simulation (ConfigDictOf d) zs us = Ok ledger →
  ∀ i : nat,
    (1 ≤ i ≤ Z.to_nat (num_starships params))%nat →
    ∃ t1, in_sequence (start_date params)
            (filter (fun e => GenerateData.ship_id e = ship_id_of i) ledger)
            t1.
Proof.
  intros Hparams Hstages Hmean Hrun i Hi.
  rewrite (batch_run_present d params stages zs us Hparams Hstages) in Hrun.
  destruct (GenerateData.ships_loop _ _ _ _ _ _)
    as [[[st zs'] us']| | | | |] eqn:Hloop; simpl in Hrun; try done.
  injection Hrun as <-.
  apply (batch_ships_loop_sequence _ _ _ Hmean (NoDup_seq _ _)) in Hloop
    as (rows & Hlog & _ & Hseq).
  simpl in Hlog. rewrite Hlog. apply Hseq.
  unfold ship_range. apply elem_of_seq. lia.
Qed.

(** ** A station works on one unit at a time *)

Lemma station_id_inj (stage_name : string) (a b : nat) :
  stage_name +:+ "_" +:+ pretty (a + 1)%nat
  = stage_name +:+ "_" +:+ pretty (b + 1)%nat →
  a = b.
Proof.
  intros H. apply (inj (String.app stage_name)) in H.
  apply (inj (String.app "_")) in H.
  apply (inj (pretty : nat → string)) in H. lia.
Qed.

Lemma attempt_keeps_stations_booked ship stage_name sp zs us st passed st'
    zs' us' :
  (0 <= mean_time_hours sp)%Q →
  attempt batch_event ship stage_name sp zs us st
  = Ok (passed, (st', zs', us')) →
  stations_cover_log st ∧ never_double_booked (production_log st) →
  stations_cover_log st' ∧ never_double_booked (production_log st').
Proof.
  intros Hmean Hturn [Hcover Hbooked].
  apply attempt_inv in Hturn
    as (avail & idx & available & ready & z & u & Hav & _ & Hat & _ & _ & _
        & _ & _ & Hst').
  simpl in Hst'.
  pose proof (py_max_dt_ge_r ready available) as Hstart.
  assert (0 ≤ timedelta_hours
                (py_max_Q 1 (mean_time_hours sp + std_dev_hours sp * z))) as Hd.
  { apply timedelta_hours_nonneg.
    apply Qle_trans with 1%Q; [done | apply py_max_Q_lower]. }
  assert (0 ≤ timedelta_hours (mean_time_hours sp * (1 # 4))) as Hr.
  { apply timedelta_hours_nonneg. apply Qmult_le_0_compat; done. }
  set (start_time := py_max_dt ready available) in *.
  set (end_time := start_time + timedelta_hours
                     (py_max_Q 1 (mean_time_hours sp + std_dev_hours sp * z)))
    in *.
  set (free_at := if passed then end_time
                  else end_time + timedelta_hours (mean_time_hours sp * (1 # 4)))
    in *.
  assert (Hfree : end_time ≤ free_at) by (unfold free_at; destruct passed; lia).
  assert (Hold : ∀ e, e ∈ production_log st →
            GenerateData.stage e = stage_name →
            GenerateData.station_id e
            = stage_name +:+ "_" +:+ pretty (idx + 1)%nat →
            GenerateData.end_time e ≤ available).
  { intros e He Hstage Hid.
    apply (Hcover e avail idx available He); [by rewrite Hstage | | exact Hat].
    by rewrite Hstage. }
  subst st'. split.
  - intros e l idx2 v He Hl Hid Hv. simpl in He, Hl.
    destruct (decide (GenerateData.stage e = stage_name)) as [Hstage | Hstage].
    + rewrite Hstage, lookup_insert_eq in Hl. injection Hl as <-.
      rewrite Hstage in Hid.
      apply elem_of_app in He as [He | He].
      * destruct (decide (idx2 = idx)) as [-> | Hne].
        -- rewrite list_lookup_insert_eq in Hv
             by (eapply lookup_lt_Some; eauto).
           injection Hv as <-.
           specialize (Hold e He Hstage Hid). lia.
        -- rewrite list_lookup_insert_ne in Hv by done.
           apply (Hcover e avail idx2 v He); [by rewrite Hstage | | exact Hv].
           by rewrite Hstage.
      * apply list_elem_of_singleton in He. subst e. simpl in Hid.
        apply station_id_inj in Hid. subst idx2.
        rewrite list_lookup_insert_eq in Hv
          by (eapply lookup_lt_Some; eauto).
        injection Hv as <-. simpl. exact Hfree.
    + apply elem_of_app in He as [He | He].
      * rewrite lookup_insert_ne in Hl by done.
        by apply (Hcover e l idx2 v He).
      * apply list_elem_of_singleton in He. subst e. by destruct Hstage.
  - intros i j ei ej Hij Hi Hj [Hstage Hid]. simpl in Hi, Hj.
    apply lookup_app_Some in Hj as [Hj | [Hlen Hj]].
    + assert (Hi' : production_log st !! i = Some ei).
      { rewrite lookup_app_l in Hi; [done|].
        apply lookup_lt_Some in Hj. lia. }
      by apply (Hbooked i j ei ej).
    + destruct (j - length (production_log st))%nat eqn:Hjl; [|done].
      simpl in Hj. injection Hj as <-. simpl in Hstage, Hid. simpl.
      rewrite lookup_app_l in Hi by lia.
      assert (Hin : ei ∈ production_log st)
        by (apply list_elem_of_lookup; eauto).
      specialize (Hold ei Hin Hstage Hid). lia.
Qed.

(** X3. With no negative [mean_time_hours], in every ledger the batch engine
    returns, two rows of the same station (same [stage] and [station_id])
    never overlap: the later row starts no earlier than the earlier one
    ended, failed attempts included. *)
Theorem stations_never_double_booked (d : ConfigDict) (params : SimParams)
    (stages : list (string * StageParams)) (zs us : list Q)
    (ledger : list GenerateData.Event) :
  simulation_parameters d = Some params →
  production_stages d = Some stages →
  Forall (fun kv : string * StageParams => (0 <= mean_time_hours kv.2)%Q)
         stages →
  GenerateData.run_configurable_simulation (ConfigDictOf d) zs us = Ok ledger →
  ∀ i j ei ej,
    (i < j)%nat →
    ledger !! i = Some ei → ledger !! j = Some ej →
    GenerateData.stage ei = GenerateData.stage ej →
    GenerateData.station_id ei = GenerateData.station_id ej →
    GenerateData.end_time ei ≤ GenerateData.start_time ej.
Proof.
  intros Hparams Hstages Hmean Hrun.
  rewrite (batch_run_present d params stages zs us Hparams Hstages) in Hrun.
  destruct (GenerateData.ships_loop _ _ _ _ _ _)
    as [[[st zs'] us']| | | | |] eqn:Hloop; simpl in Hrun; try done.
  injection Hrun as <-.
  assert (Hinv : stations_cover_log st
                 ∧ never_double_booked (production_log st)).
  { eapply (batch_ships_loop_stagewise stages
              (fun st => stations_cover_log st
                         ∧ never_double_booked (production_log st)));
      [| |exact Hloop|].
    - intros ship stage_name sp zs0 us0 st0 passed st1 zs1 us1 Hin.
      apply attempt_keeps_stations_booked.
      rewrite Forall_forall in Hmean. exact (Hmean _ Hin).
    - intros ship start st0 H. exact H.
    - split.
      + intros e l idx v He. by apply elem_of_nil in He.
      + intros i j ei ej _ Hi. done. }
  destruct Hinv as [_ Hbooked].
  intros i j ei ej Hij Hi Hj Hstage Hid.
  by apply (Hbooked i j ei ej).
Qed.

(** ** Rows name configured stages and existing stations *)

Lemma fold_insert_other start (stages : list (string * StageParams)) name :
  name ∉ stages.*1 →
  ∀ m : gmap string (list Z),
    fold_left (fun m kv =>
                 <[kv.1 := init_stations start (station_count kv.2)]> m)
              stages m !! name = m !! name.
Proof.
  induction stages as [|[k sp] rest IH]; intros Hnot m; simpl; [done|].
  simpl in Hnot. apply not_elem_of_cons in Hnot as [Hne Hnot].
  rewrite IH by done. by rewrite lookup_insert_ne.
Qed.

Lemma init_availability_lookup start stages name sp :
  NoDup stages.*1 →
  (name, sp) ∈ stages →
  init_availability start stages !! name
  = Some (init_stations start (station_count sp)).
Proof.
  unfold init_availability. generalize (∅ : gmap string (list Z)).
  induction stages as [|[k p] rest IH]; intros m Hnd Hin; simpl.
  - by apply elem_of_nil in Hin.
  - simpl in Hnd. apply NoDup_cons in Hnd as [Hfresh Hnd].
    apply elem_of_cons in Hin as [[= -> ->] | Hin].
    + rewrite fold_insert_other by done. apply lookup_insert_eq.
    + by apply IH.
Qed.

Lemma stage_params_unique (stages : list (string * StageParams)) name sp sp' :
  NoDup stages.*1 → (name, sp) ∈ stages → (name, sp') ∈ stages → sp = sp'.
Proof.
  induction stages as [|[k p] rest IH]; intros Hnd Hin Hin'.
  - by apply elem_of_nil in Hin.
  - simpl in Hnd. apply NoDup_cons in Hnd as [Hfresh Hnd].
    assert (Hkey : ∀ q, (k, q) ∈ rest → False).
    { intros q Hq. apply Hfresh. apply list_elem_of_fmap. by exists (k, q). }
    apply elem_of_cons in Hin as [[= -> ->] | Hin];
      apply elem_of_cons in Hin' as [[= <-] | Hin']; try done.
    + by destruct (Hkey sp').
    + subst. by destruct (Hkey sp).
    + by apply IH.
Qed.

Lemma attempt_keeps_rows_configured stages ship stage_name sp zs us st passed
    st' zs' us' :
  (stage_name, sp) ∈ stages →
  attempt batch_event ship stage_name sp zs us st
  = Ok (passed, (st', zs', us')) →
  stations_counted stages st
  ∧ Forall (row_at_configured_station stages) (production_log st) →
  stations_counted stages st'
  ∧ Forall (row_at_configured_station stages) (production_log st').
Proof.
  intros Hin Hturn [Hcount Hrows].
  apply attempt_inv in Hturn
    as (avail & idx & available & ready & z & u & Hav & _ & Hat & _ & Hstd & _
        & _ & _ & Hst').
  simpl in Hst'. subst st'. split.
  - intros name sp' Hin'. simpl.
    destruct (decide (stage_name = name)) as [<- | Hne].
    + rewrite lookup_insert_eq. eexists. split; [reflexivity|].
      rewrite length_insert.
      destruct (Hcount _ _ Hin') as (l & Hl & Hlen).
      rewrite Hav in Hl. by injection Hl as <-.
    + rewrite lookup_insert_ne by done. by apply Hcount.
  - simpl. apply Forall_app. split; [exact Hrows|].
    constructor; [|constructor].
    destruct (Hcount _ _ Hin) as (l & Hl & Hlen).
    rewrite Hav in Hl. injection Hl as <-.
    apply lookup_lt_Some in Hat.
    exists sp, (idx + 1)%nat. simpl.
    split; [exact Hin|]. split; [by apply Qlt_bool_false|].
    split; [lia|]. split; [lia | reflexivity].
Qed.

Lemma batch_ships_loop_rows_configured start stages ships zs us st zs' us' :
  NoDup stages.*1 →
  GenerateData.ships_loop start stages ships zs us (initial_state start stages)
  = Ok (st, zs', us') →
  Forall (row_at_configured_station stages) (production_log st).
Proof.
  intros Hnd Hloop.
  eapply (batch_ships_loop_stagewise stages
            (fun st => stations_counted stages st
                       ∧ Forall (row_at_configured_station stages)
                                (production_log st)));
    [| |exact Hloop|].
  - intros ship stage_name sp zs0 us0 st0 passed st1 zs1 us1.
    apply attempt_keeps_rows_configured.
  - intros ship start0 st0 H. exact H.
  - split; [|constructor].
    intros name sp Hin. simpl.
    rewrite (init_availability_lookup start stages name sp Hnd Hin).
    eexists. split; [reflexivity|].
    unfold init_stations. apply length_replicate.
Qed.

(** X4. Every row of a ledger the batch engine returns names a stage of the
    configuration and a station of that stage: its [station_id] is the stage
    name, an underscore and a number between 1 and the stage's
    [station_count]; the stage's [std_dev_hours] is not negative. *)
Theorem rows_name_configured_stations (d : ConfigDict) (params : SimParams)
    (stages : list (string * StageParams)) (zs us : list Q)
    (ledger : list GenerateData.Event) :
  simulation_parameters d = Some params →
  production_stages d = Some stages →
  NoDup stages.*1 →
  GenerateData.run_configurable_simulation (ConfigDictOf d) zs us = Ok ledger →
  Forall (row_at_configured_station stages) ledger.
Proof.
  intros Hparams Hstages Hnd Hrun.
  rewrite (batch_run_present d params stages zs us Hparams Hstages) in Hrun.
  destruct (GenerateData.ships_loop _ _ _ _ _ _)
    as [[[st zs'] us']| | | | |] eqn:Hloop; simpl in Hrun; try done.
  injection Hrun as <-.
  by eapply batch_ships_loop_rows_configured.
Qed.

(** X5. With at least one unit to build, either engine returns a ledger
    only if every stage has [station_count ≥ 1] and [std_dev_hours ≥ 0]:
    on any other configuration the run ends in an exception (or is still
    looping), whatever the draws. *)
Theorem ledger_needs_stations_and_spread (d : ConfigDict) (params : SimParams)
    (stages : list (string * StageParams)) (zs us : list Q) :
  simulation_parameters d = Some params →
  production_stages d = Some stages →
  NoDup stages.*1 →
  1 ≤ num_starships params →
  (∃ ledger,
     GenerateData.run_configurable_simulation (ConfigDictOf d) zs us = Ok ledger)
  ∨ (∃ rows, Dashboard.run_simulation (ConfigDictOf d) zs us = Ok rows) →
  Forall (fun kv : string * StageParams =>
            1 ≤ station_count kv.2 ∧ (0 <= std_dev_hours kv.2)%Q) stages.
Proof.
  intros Hparams Hstages Hnd Hn Hret.
  assert (Hbatch : ∃ ledger,
            GenerateData.run_configurable_simulation (ConfigDictOf d) zs us
            = Ok ledger).
  { destruct Hret as [Hret | [rows Hrows]]; [exact Hret|].
    rewrite run_simulation_project in Hrows.
    destruct (GenerateData.run_configurable_simulation _ zs us)
      as [ledger| | | | |]; simpl in Hrows; try done. eauto. }
  destruct Hbatch as [ledger Hrun].
  rewrite (batch_run_present d params stages zs us Hparams Hstages) in Hrun.
  destruct (GenerateData.ships_loop _ _ _ _ _ _)
    as [[[st zs'] us']| | | | |] eqn:Hloop; simpl in Hrun; try done.
  injection Hrun as <-.
  pose proof (batch_ships_loop_rows_configured _ _ _ _ _ _ _ _ Hnd Hloop)
    as Hrows.
  apply batch_ships_loop_log in Hloop as (evs & Hlog & _ & Hflags);
    [|exact Hnd|apply NoDup_seq].
  simpl in Hlog. rewrite Hlog in Hrows.
  apply Forall_forall. intros [name sp] Hin. simpl.
  destruct (Hflags 1%nat name) as [k Hk].
  { unfold ship_range. apply elem_of_seq. lia. }
  { apply list_elem_of_fmap. by exists (name, sp). }
  apply flags_end_in_pass in Hk as (e & He & _).
  apply list_elem_of_filter in He as [[_ Hstage] He].
  rewrite Forall_forall in Hrows.
  destruct (Hrows e He) as (sp' & k' & Hin' & Hstd & Hk1 & Hk2 & _).
  rewrite Hstage in Hin'.
  rewrite (stage_params_unique stages name sp sp' Hnd Hin Hin').
  split; [lia | exact Hstd].
Qed.

(** ** The ledger is unit-major, stage-minor *)

Lemma batch_stages_loop_blocks ship stages : ∀ zs us st st' zs' us',
  GenerateData.stages_loop ship stages zs us st = Ok (st', zs', us') →
  ∃ blocks,
    production_log st' = production_log st ++ concat blocks
    ∧ unit_blocks stages ship blocks.
Proof.
  induction stages as [|[stage_name sp] rest IH]; intros zs us st st' zs' us';
    simpl.
  - intros [= <- <- <-]. exists []. simpl. rewrite app_nil_r.
    split; [done | constructor].
  - destruct (GenerateData.stage_loop _ _ _ _ _ _)
      as [[[st1 zs1] us1]| | | | |] eqn:Hloop; simpl; try done.
    intros Hrest.
    apply batch_stage_loop_log in Hloop as (rows & k & Hlog1 & Hall & Hflags).
    apply IH in Hrest as (blocks & Hlog2 & Hblocks).
    exists (rows :: blocks). simpl. split.
    + rewrite Hlog2, Hlog1. by rewrite app_assoc.
    + constructor; [|exact Hblocks]. split; [exact Hall | eauto].
Qed.

Lemma batch_ships_loop_blocks start stages ships : ∀ zs us st st' zs' us',
  GenerateData.ships_loop start stages ships zs us st = Ok (st', zs', us') →
  ∃ units : list (list (list GenerateData.Event)),
    production_log st' = production_log st ++ concat (@concat _ <$> units)
    ∧ Forall2 (fun i blocks => unit_blocks stages (ship_id_of i) blocks)
              ships units.
Proof.
  induction ships as [|i rest IH]; intros zs us st st' zs' us'; simpl.
  - intros [= <- <- <-]. exists []. simpl. rewrite app_nil_r.
    split; [done | constructor].
  - destruct (GenerateData.stages_loop _ _ _ _ _)
      as [[[st1 zs1] us1]| | | | |] eqn:Hloop; simpl; try done.
    intros Hrest.
    apply batch_stages_loop_blocks in Hloop as (blocks & Hlog1 & Hblocks).
    apply IH in Hrest as (units & Hlog2 & Hunits).
    simpl in Hlog1.
    exists (blocks :: units). split.
    + rewrite Hlog2, Hlog1, fmap_cons. simpl. by rewrite app_assoc.
    + by constructor.
Qed.

(** X6. A ledger the batch engine returns is the units' rows one unit after
    the other, in the order SN101, SN102, ...; within a unit, one block of
    attempts per stage in the order of the configuration; within a block,
    the failed attempts followed by the one that passed.  So the ledger has
    as many rows as attempts were made, and is not sorted by time across
    units. *)
Theorem ledger_is_unit_major (d : ConfigDict) (params : SimParams)
    (stages : list (string * StageParams)) (zs us : list Q)
    (ledger : list GenerateData.Event) :
  simulation_parameters d = Some params →
  production_stages d = Some stages →
  GenerateData.run_configurable_simulation (ConfigDictOf d) zs us = Ok ledger →
  ∃ units : list (list (list GenerateData.Event)),
    ledger = concat (@concat _ <$> units)
    ∧ Forall2 (fun i blocks => unit_blocks stages (ship_id_of i) blocks)
              (ship_range (num_starships params)) units.
Proof.
  intros Hparams Hstages Hrun.
  rewrite (batch_run_present d params stages zs us Hparams Hstages) in Hrun.
  destruct (GenerateData.ships_loop _ _ _ _ _ _)
    as [[[st zs'] us']| | | | |] eqn:Hloop; simpl in Hrun; try done.
  injection Hrun as <-.
  apply batch_ships_loop_blocks in Hloop as (units & Hlog & Hunits).
  exists units. split; [exact Hlog | exact Hunits].
Qed.

(** ** One row per pair of draws *)

Lemma batch_stage_loop_draws stages ship stage_name sp us :
  (stage_name, sp) ∈ stages →
  ∀ zs st st' zs' us',
    GenerateData.stage_loop ship stage_name sp zs us st = Ok (st', zs', us') →
    ∃ rows used_z used_u,
      production_log st' = production_log st ++ rows
      ∧ zs = used_z ++ zs' ∧ us = used_u ++ us'
      ∧ Forall2 (row_timed_by stages) rows used_z
      ∧ Forall2 (row_judged_by stages) rows used_u.
Proof.
  intros Hin.
  induction us as [|u us IH]; intros zs st st' zs' us';
    rewrite batch_stage_loop_unfold;
    destruct (attempt _ _ _ _ _ _ _) as [[passed [[st1 zs1] us1]]| | | | |]
      eqn:Hturn; simpl; try done;
    apply attempt_inv in Hturn
      as (avail & idx & available & ready & z & u0 & _ & _ & _ & _ & _ & Hzs
          & Hus & Hp & Hst1); [discriminate Hus|].
  injection Hus as <- <-. subst zs. simpl in Hst1.
  assert (Htimed : row_timed_by stages
            (batch_event ship stage_name idx (py_max_dt ready available)
               (py_max_dt ready available
                + timedelta_hours
                    (py_max_Q 1 (mean_time_hours sp + std_dev_hours sp * z)))
               (py_max_Q 1 (mean_time_hours sp + std_dev_hours sp * z))
               passed) z)
    by (exists sp; simpl; done).
  assert (Hjudged : row_judged_by stages
            (batch_event ship stage_name idx (py_max_dt ready available)
               (py_max_dt ready available
                + timedelta_hours
                    (py_max_Q 1 (mean_time_hours sp + std_dev_hours sp * z)))
               (py_max_Q 1 (mean_time_hours sp + std_dev_hours sp * z))
               passed) u)
    by (exists sp; simpl; done).
  unfold continue_with; simpl. destruct passed.
  - intros [= <- <- <-]. rewrite Hst1; simpl.
    eexists [_], [z], [u]. split; [reflexivity|].
    split; [reflexivity|]. split; [reflexivity|].
    split; by repeat constructor.
  - intros Hloop.
    apply IH in Hloop as (rows & used_z & used_u & Hlog & -> & -> & Hz & Hu).
    rewrite Hst1 in Hlog; simpl in Hlog. rewrite <- app_assoc in Hlog.
    eexists (_ :: rows), (z :: used_z), (u :: used_u).
    split; [exact Hlog|]. split; [reflexivity|]. split; [reflexivity|].
    split; by constructor.
Qed.

Lemma batch_stages_loop_draws stages ship sub :
  sub ⊆ stages →
  ∀ zs us st st' zs' us',
    GenerateData.stages_loop ship sub zs us st = Ok (st', zs', us') →
    ∃ rows used_z used_u,
      production_log st' = production_log st ++ rows
      ∧ zs = used_z ++ zs' ∧ us = used_u ++ us'
      ∧ Forall2 (row_timed_by stages) rows used_z
      ∧ Forall2 (row_judged_by stages) rows used_u.
Proof.
  induction sub as [|[stage_name sp] rest IH]; intros Hsub zs us st st' zs' us';
    simpl.
  - intros [= <- <- <-]. exists [], [], []. rewrite app_nil_r.
    do 3 (split; [done|]). split; constructor.
  - destruct (GenerateData.stage_loop _ _ _ _ _ _)
      as [[[st1 zs1] us1]| | | | |] eqn:Hloop; simpl; try done.
    intros Hrest.
    apply (batch_stage_loop_draws stages) in Hloop
      as (rows1 & uz1 & uu1 & Hlog1 & -> & -> & Hz1 & Hu1);
      [|apply Hsub; by left].
    apply IH in Hrest as (rows2 & uz2 & uu2 & Hlog2 & -> & -> & Hz2 & Hu2);
      [|intros x Hx; apply Hsub; by right].
    exists (rows1 ++ rows2), (uz1 ++ uz2), (uu1 ++ uu2).
    split; [rewrite Hlog2, Hlog1; by rewrite app_assoc|].
    split; [by rewrite app_assoc|]. split; [by rewrite app_assoc|].
    split; by apply Forall2_app.
Qed.

Lemma batch_ships_loop_draws start stages ships :
  ∀ zs us st st' zs' us',
    GenerateData.ships_loop start stages ships zs us st = Ok (st', zs', us') →
    ∃ rows used_z used_u,
      production_log st' = production_log st ++ rows
      ∧ zs = used_z ++ zs' ∧ us = used_u ++ us'
      ∧ Forall2 (row_timed_by stages) rows used_z
      ∧ Forall2 (row_judged_by stages) rows used_u.
Proof.
  induction ships as [|i rest IH]; intros zs us st st' zs' us'; simpl.
  - intros [= <- <- <-]. exists [], [], []. rewrite app_nil_r.
    do 3 (split; [done|]). split; constructor.
  - destruct (GenerateData.stages_loop _ _ _ _ _)
      as [[[st1 zs1] us1]| | | | |] eqn:Hloop; simpl; try done.
    intros Hrest.
    apply (batch_stages_loop_draws stages) in Hloop
      as (rows1 & uz1 & uu1 & Hlog1 & -> & -> & Hz1 & Hu1); [|by intros x Hx].
    apply IH in Hrest as (rows2 & uz2 & uu2 & Hlog2 & -> & -> & Hz2 & Hu2).
    simpl in Hlog1.
    exists (rows1 ++ rows2), (uz1 ++ uz2), (uu1 ++ uu2).
    split; [rewrite Hlog2, Hlog1; by rewrite app_assoc|].
    split; [by rewrite app_assoc|]. split; [by rewrite app_assoc|].
    split; by apply Forall2_app.
Qed.

(** X7. When the batch engine's simulation completes, the two generators
    have each handed out exactly one draw per row of the ledger, from the
    front: the [i]-th row's duration and end time come from the [i]-th
    normal draw, and its QC flag from the [i]-th uniform draw, with the
    parameters of the row's stage.  The draws left over are untouched. *)
Theorem one_row_per_pair_of_draws (d : ConfigDict) (params : SimParams)
    (stages : list (string * StageParams)) (zs us : list Q)
    (st : SimState GenerateData.Event) (zs' us' : list Q) :
  simulation_parameters d = Some params →
  production_stages d = Some stages →
  GenerateData.simulate d zs us = Ok (st, zs', us') →
  ∃ used_z used_u,
    zs = used_z ++ zs' ∧ us = used_u ++ us'
    ∧ Forall2 (row_timed_by stages) (production_log st) used_z
    ∧ Forall2 (row_judged_by stages) (production_log st) used_u
    ∧ GenerateData.run_configurable_simulation (ConfigDictOf d) zs us
      = Ok (production_log st).
Proof.
  intros Hparams Hstages Hsim.
  assert (Hrun : GenerateData.run_configurable_simulation (ConfigDictOf d)
                   zs us = Ok (production_log st)).
  { unfold GenerateData.run_configurable_simulation, config_falsy.
    rewrite Hparams, Hsim. reflexivity. }
  unfold GenerateData.simulate in Hsim. rewrite Hparams, Hstages in Hsim.
  simpl in Hsim.
  apply batch_ships_loop_draws in Hsim
    as (rows & used_z & used_u & Hlog & Hzs & Hus & Hz & Hu).
  simpl in Hlog. rewrite Hlog in Hrun |- *.
  exists used_z, used_u.
  split; [exact Hzs|]. split; [exact Hus|]. split; [exact Hz|].
  split; [exact Hu | exact Hrun].
Qed.

(** ** What the KPI calculator can return *)

Lemma kpis_total_ships (ledger : list Dashboard.Event) :
  (Dashboard.calculate_kpis ledger).1.1
  = Dashboard.nunique
      (Dashboard.ship_id
         <$> filter (fun e => Dashboard.stage e = Dashboard.terminal_stage)
                    ledger).
Proof.
  unfold Dashboard.calculate_kpis.
  destruct ledger as [|row rows]; [reflexivity|].
  destruct (filter _ (row :: rows)); reflexivity.
Qed.

Lemma nunique_bounds (l : list string) :
  0 ≤ Dashboard.nunique l ≤ Z.of_nat (length l)
  ∧ (l ≠ [] → 1 ≤ Dashboard.nunique l).
Proof.
  unfold Dashboard.nunique. split.
  - split; [lia|]. apply Nat2Z.inj_le.
    induction l as [|x l IH]; simpl; [lia|].
    case_decide; simpl; lia.
  - destruct l as [|x l]; [done|]. intros _.
    assert (Hin : x ∈ remove_dups (x :: l))
      by (apply elem_of_remove_dups; by left).
    destruct (remove_dups (x :: l)); [by apply elem_of_nil in Hin|].
    simpl. lia.
Qed.

(** X8. For every ledger, the unit count the calculator returns lies between
    0 and the number of rows and is 0 exactly when no row has stage
    [Final_Checkout]; the throughput is never negative; and when the unit
    count is 0, throughput and days are 0 as well. *)
Theorem kpis_are_bounded (ledger : list Dashboard.Event) :
  let completed :=
    filter (fun e => Dashboard.stage e = Dashboard.terminal_stage) ledger in
  let kpis := Dashboard.calculate_kpis ledger in
  0 ≤ kpis.1.1 ≤ Z.of_nat (length ledger)
  ∧ (kpis.1.1 = 0 ↔ completed = [])
  ∧ (0 <= kpis.1.2)%Q
  ∧ (kpis.1.1 = 0 → kpis = (0, 0%Q, 0)).
Proof.
  intros completed kpis.
  pose proof (kpis_total_ships ledger) as Hships. fold kpis completed in Hships.
  destruct (nunique_bounds (Dashboard.ship_id <$> completed)) as [Hb Hpos].
  rewrite length_fmap in Hb.
  pose proof (length_filter
                (fun e => Dashboard.stage e = Dashboard.terminal_stage) ledger)
    as Hlen. fold completed in Hlen.
  assert (Hzero : kpis.1.1 = 0 ↔ completed = []).
  { rewrite Hships. split.
    - intros H0. destruct completed as [|c cs] eqn:Hc; [done|].
      assert (1 ≤ Dashboard.nunique (Dashboard.ship_id <$> c :: cs))
        by (by apply Hpos). lia.
    - intros ->. reflexivity. }
  split; [rewrite Hships; lia|]. split; [exact Hzero|].
  assert (Hempty : completed = [] → kpis = (0, 0%Q, 0)).
  { unfold kpis, Dashboard.calculate_kpis, completed.
    destruct ledger as [|row rows]; [done|]. by intros ->. }
  split; [|intros H0; by apply Hempty, Hzero].
  destruct completed as [|c cs] eqn:Hc.
  - by rewrite Hempty.
  - unfold kpis, Dashboard.calculate_kpis.
    destruct ledger as [|row rows]; [done|].
    fold completed. rewrite Hc. simpl.
    destruct (0 <? _) eqn:Hdays; [|done].
    apply Z.ltb_lt in Hdays.
    apply Qle_shift_div_l.
    + apply Qlt_shift_div_l; [done|]. rewrite Qmult_0_l.
      by rewrite <- (Zlt_Qlt 0).
    + rewrite Qmult_0_l. rewrite <- (Zle_Qle 0).
      apply (proj1 (proj1 (nunique_bounds _))).
Qed.

(** ** KPIs of a ledger the dashboard engine produced *)

Lemma kpis_days_nonneg (row : Dashboard.Event) (rows : list Dashboard.Event) :
  Dashboard.start_time row ≤ Dashboard.end_time row →
  0 ≤ (Dashboard.calculate_kpis (row :: rows)).2.
Proof.
  intros Hrow. unfold Dashboard.calculate_kpis.
  destruct (filter _ (row :: rows)); simpl; [lia|].
  destruct (series_max_spec (Dashboard.end_time row)
              (Dashboard.end_time <$> rows)) as [_ Hub].
  destruct (series_min_spec (Dashboard.start_time row)
              (Dashboard.start_time <$> rows)) as [_ Hlb].
  specialize (Hub (Dashboard.end_time row) ltac:(by left)).
  specialize (Hlb (Dashboard.start_time row) ltac:(by left)).
  unfold Dashboard.timedelta_days. apply Z.div_pos; [lia | done].
Qed.

(** X9. When the configuration has a stage called [Final_Checkout] (stage
    names distinct, [num_starships ≥ 0]), the KPIs of the ledger the
    dashboard engine returns count exactly [num_starships] units, and the
    number of days is not negative. *)
Theorem kpis_count_every_unit (d : ConfigDict) (params : SimParams)
    (stages : list (string * StageParams)) (zs us : list Q)
    (rows : list Dashboard.Event) :
  simulation_parameters d = Some params →
  production_stages d = Some stages →
  NoDup stages.*1 →
  "Final_Checkout" ∈ stages.*1 →
  0 ≤ num_starships params →
  Dashboard.run_simulation (ConfigDictOf d) zs us = Ok rows →
  (Dashboard.calculate_kpis rows).1.1 = num_starships params
  ∧ 0 ≤ (Dashboard.calculate_kpis rows).2.
Proof.
  intros Hparams Hstages Hnd Hfinal Hn Hrows.
  split.
  - rewrite run_simulation_project in Hrows.
    destruct (GenerateData.run_configurable_simulation _ zs us)
      as [ledger| | | | |] eqn:Hrun; simpl in Hrows; try done.
    injection Hrows as <-.
    rewrite (batch_run_present d params stages zs us Hparams Hstages) in Hrun.
    destruct (GenerateData.ships_loop _ _ _ _ _ _)
      as [[[st zs'] us']| | | | |] eqn:Hloop; simpl in Hrun; try done.
    injection Hrun as <-.
    apply batch_ships_loop_log in Hloop as (evs & Hlog & Hids & Hflags);
      [|exact Hnd|apply NoDup_seq].
    simpl in Hlog. rewrite Hlog.
    rewrite kpis_total_ships. unfold Dashboard.nunique.
    set (ships := ship_range (num_starships params)) in *.
    assert (Hperm : remove_dups
                      (Dashboard.ship_id
                         <$> filter (fun e => Dashboard.stage e
                                              = Dashboard.terminal_stage)
                                    (project <$> evs))
                    ≡ₚ ship_id_of <$> ships).
    { apply NoDup_Permutation.
      - apply NoDup_remove_dups.
      - apply NoDup_fmap_2_strong; [|apply NoDup_seq].
        intros i j _ _. apply ship_id_of_inj.
      - intros x. rewrite elem_of_remove_dups. split.
        + intros Hx. apply list_elem_of_fmap in Hx as (r & Hxr & Hr).
          apply list_elem_of_filter in Hr as [_ Hr].
          apply list_elem_of_fmap in Hr as (e & Her & He).
          rewrite Forall_forall in Hids.
          destruct (Hids e He) as (i & Hi & Hid).
          apply list_elem_of_fmap. exists i. split; [|exact Hi].
          rewrite Hxr, Her. exact Hid.
        + intros Hx. apply list_elem_of_fmap in Hx as (i & Hxi & Hi).
          subst x.
          destruct (Hflags i "Final_Checkout" Hi Hfinal) as [k Hk].
          apply flags_end_in_pass in Hk as (e & He & _).
          apply list_elem_of_filter in He as [[Hship Hstage] He].
          apply list_elem_of_fmap. exists (project e). split; [done|].
          apply list_elem_of_filter. split; [exact Hstage|].
          apply list_elem_of_fmap. by exists e. }
    rewrite (Permutation_length Hperm), length_fmap.
    unfold ships, ship_range. rewrite length_seq. lia.
  - destruct rows as [|row rest]; [simpl; lia|].
    apply kpis_days_nonneg.
    pose proof (dashboard_rows_last_an_hour _ _ _ _ Hrows) as Hhour.
    apply Forall_cons in Hhour as [Hrow _].
    unfold us_per_hour in Hrow. lia.
Qed.

(** ** The loops never fail a lookup *)

Lemma init_availability_present start stages name :
  name ∈ stages.*1 → is_Some (init_availability start stages !! name).
Proof.
  unfold init_availability. intros Hname.
  assert (Hgen : ∀ m : gmap string (list Z),
            name ∈ stages.*1 ∨ is_Some (m !! name) →
            is_Some (fold_left
                       (fun m kv =>
                          <[kv.1 := init_stations start (station_count kv.2)]> m)
                       stages m !! name)).
  { clear Hname. induction stages as [|[k sp] rest IH]; intros m Hm.
    - destruct Hm as [Hm | Hm]; [by apply elem_of_nil in Hm | exact Hm].
    - simpl. apply IH.
      destruct (decide (k = name)) as [-> | Hne].
      + right. rewrite lookup_insert_eq. eauto.
      + destruct Hm as [Hm | Hm].
        * simpl in Hm. apply elem_of_cons in Hm as [-> | Hm]; [done | by left].
        * right. by rewrite lookup_insert_ne. }
  apply Hgen. by left.
Qed.

Lemma attempt_lookup_free {E : Type}
    (mk : string → string → nat → Z → Z → Q → bool → E)
    stages ship stage_name sp zs us (st : SimState E) :
  lookups_present stages ship st →
  (stage_name, sp) ∈ stages →
  lookup_free (attempt mk ship stage_name sp zs us st)
  ∧ ∀ passed st' zs' us',
      attempt mk ship stage_name sp zs us st = Ok (passed, (st', zs', us')) →
      lookups_present stages ship st'.
Proof.
  intros [Hstations [ready Hready]] Hin.
  destruct (Hstations _ _ Hin) as [l Hl]. split.
  - unfold attempt, np_random_normal, list_get.
    rewrite Hl; simpl.
    destruct (np_argmin l) as [idx| | | | |] eqn:Hidx; simpl; try done.
    + destruct (np_argmin_spec l idx Hidx) as (v & Hv & _).
      rewrite Hv; simpl. rewrite Hready; simpl.
      destruct (Qlt_bool (std_dev_hours sp) 0); simpl; [done|].
      destruct zs as [|z zs]; simpl; [done|].
      destruct (timedelta_of_hours_cases (py_max_Q 1
                  (mean_time_hours sp + std_dev_hours sp * z))) as [-> | ->];
        simpl; [|done].
      destruct (datetime_add_cases (py_max_dt ready v)
                  (timedelta_hours (py_max_Q 1
                     (mean_time_hours sp + std_dev_hours sp * z))))
        as [-> | ->]; simpl; [|done].
      destruct us as [|u us]; simpl; [done|].
      destruct (Qlt_bool u (pass_rate sp)); simpl; [done|].
      destruct (timedelta_of_hours_cases (mean_time_hours sp * (1 # 4)))
        as [-> | ->]; simpl; [|done].
      match goal with
      | |- context [datetime_add ?t ?d] =>
          destruct (datetime_add_cases t d) as [-> | ->]
      end; simpl; done.
    + by destruct l.
    + by destruct l.
  - intros passed st' zs' us' Hturn.
    apply attempt_inv in Hturn
      as (avail & idx & available & ready' & z & u & _ & _ & _ & _ & _ & _ & _
          & _ & ->).
    split; simpl.
    + intros name sp' Hin'.
      destruct (decide (stage_name = name)) as [-> | Hne].
      * rewrite lookup_insert_eq. eauto.
      * rewrite lookup_insert_ne by done. eauto.
    + rewrite lookup_insert_eq. eauto.
Qed.

Lemma batch_stage_loop_lookup_free stages ship stage_name sp us :
  (stage_name, sp) ∈ stages →
  ∀ zs (st : SimState GenerateData.Event),
    lookups_present stages ship st →
    lookup_free (GenerateData.stage_loop ship stage_name sp zs us st)
    ∧ ∀ st' zs' us',
        GenerateData.stage_loop ship stage_name sp zs us st
        = Ok (st', zs', us') →
        lookups_present stages ship st'.
Proof.
  intros Hin.
  induction us as [|u us IH]; intros zs st Hpresent;
    rewrite batch_stage_loop_unfold;
    match goal with
    | |- context [attempt batch_event ship stage_name sp zs ?draws st] =>
        destruct (attempt_lookup_free batch_event stages ship stage_name sp zs
                    draws st Hpresent Hin) as [Hfree Hnext]
    end;
    destruct (attempt _ _ _ _ _ _ _) as [[passed [[st1 zs1] us1]]| | | | |]
      eqn:Hturn; simpl; try done;
    pose proof Hturn as Hinv;
    apply attempt_inv in Hinv
      as (? & ? & ? & ? & ? & ? & _ & _ & _ & _ & _ & _ & Hus & _);
    [discriminate Hus|].
  injection Hus as <- <-.
  specialize (Hnext _ _ _ _ eq_refl).
  unfold continue_with; simpl. destruct passed.
  - split; [done|]. by intros st' zs' us' [= <- <- <-].
  - by apply IH.
Qed.

Lemma batch_stages_loop_lookup_free stages ship sub :
  sub ⊆ stages →
  ∀ zs us (st : SimState GenerateData.Event),
    lookups_present stages ship st →
    lookup_free (GenerateData.stages_loop ship sub zs us st)
    ∧ ∀ st' zs' us',
        GenerateData.stages_loop ship sub zs us st = Ok (st', zs', us') →
        lookups_present stages ship st'.
Proof.
  induction sub as [|[stage_name sp] rest IH]; intros Hsub zs us st Hpresent;
    simpl.
  - split; [done|]. by intros st' zs' us' [= <- <- <-].
  - destruct (batch_stage_loop_lookup_free stages ship stage_name sp us
                ltac:(apply Hsub; by left) zs st Hpresent) as [Hfree Hnext].
    destruct (GenerateData.stage_loop _ _ _ _ _ _)
      as [[[st1 zs1] us1]| | | | |] eqn:Hloop; simpl; try done.
    apply IH; [|by eapply Hnext].
    intros x Hx. apply Hsub. by right.
Qed.

Lemma batch_ships_loop_lookup_free start stages ships :
  ∀ zs us (st : SimState GenerateData.Event),
    (∀ name sp, (name, sp) ∈ stages →
       is_Some (station_availability st !! name)) →
    lookup_free (GenerateData.ships_loop start stages ships zs us st).
Proof.
  induction ships as [|i rest IH]; intros zs us st Hstations; simpl; [done|].
  assert (Hpresent : lookups_present stages (ship_id_of i)
                       (enter_ship (ship_id_of i) start st)).
  { split; [exact Hstations|]. simpl. rewrite lookup_insert_eq. eauto. }
  destruct (batch_stages_loop_lookup_free stages (ship_id_of i) stages
              (fun x Hx => Hx) zs us _ Hpresent) as [Hfree Hnext].
  destruct (GenerateData.stages_loop _ _ _ _ _)
    as [[[st1 zs1] us1]| | | | |] eqn:Hloop; simpl; try done.
  apply IH. by destruct (Hnext _ _ _ eq_refl).
Qed.

(** X10. On a configuration whose sections, where present, carry all their
    keys (the records above), valid or not, and whatever the draws, neither
    engine ever raises [IndexError], and the only [KeyError]s are for the
    two sections of the configuration, when the dictionary lacks them: the
    lookups the loop itself makes, of a stage's availability list, of the
    selected station and of the ship's completion time, cannot fail. *)
Theorem engine_lookups_never_fail (config : Config) (zs us : list Q) :
  let batch := GenerateData.run_configurable_simulation config zs us in
  let dashboard := Dashboard.run_simulation config zs us in
  batch ≠ IndexError ∧ dashboard ≠ IndexError
  ∧ ∀ key,
      batch = KeyError key ∨ dashboard = KeyError key →
      ∃ d, config = ConfigDictOf d
           ∧ ((key = "simulation_parameters" ∧ simulation_parameters d = None)
              ∨ (key = "production_stages" ∧ production_stages d = None)).
Proof.
  intros batch dashboard.
  assert (Hdash : dashboard = result_map (fmap project) batch)
    by apply run_simulation_project.
  assert (Hbatch : batch ≠ IndexError
            ∧ ∀ key, batch = KeyError key →
                ∃ d, config = ConfigDictOf d
                     ∧ ((key = "simulation_parameters"
                         ∧ simulation_parameters d = None)
                        ∨ (key = "production_stages"
                           ∧ production_stages d = None))).
  { unfold batch, GenerateData.run_configurable_simulation.
    destruct (config_falsy config); [done|].
    destruct config as [|d]; [done|].
    unfold GenerateData.simulate.
    destruct (simulation_parameters d) as [params|] eqn:Hp; simpl.
    2:{ split; [done|]. intros key [= <-]. exists d. split; [done|]. by left. }
    destruct (production_stages d) as [stages|] eqn:Hs; simpl.
    2:{ split; [done|]. intros key [= <-]. exists d. split; [done|]. by right. }
    pose proof (batch_ships_loop_lookup_free (start_date params) stages
                  (ship_range (num_starships params)) zs us
                  (initial_state (start_date params) stages)) as Hfree.
    destruct (GenerateData.ships_loop _ _ _ _ _ _)
      as [[[st zs'] us']| | | | |]; simpl; try done.
    - exfalso. apply Hfree. intros name sp Hin. simpl.
      apply init_availability_present, list_elem_of_fmap. by exists (name, sp).
    - exfalso. apply Hfree. intros name sp Hin. simpl.
      apply init_availability_present, list_elem_of_fmap. by exists (name, sp). }
  destruct Hbatch as [Hidx Hkey].
  split; [exact Hidx|]. split.
  - rewrite Hdash. by destruct batch.
  - intros key [Hk | Hk]; [by apply Hkey|].
    apply Hkey. rewrite Hdash in Hk. by destruct batch; simplify_eq/=.
Qed.

(** ** Pass rates of 100% mean no rework *)

Lemma block_without_failures ship stage_name rows :
  attempts_block ship stage_name rows →
  Forall (fun e => GenerateData.qc_passed e = true) rows →
  length rows = 1%nat.
Proof.
  intros [_ [k Hflags]] Hpassed.
  destruct k as [|k].
  - apply (f_equal length) in Hflags. by rewrite length_fmap in Hflags.
  - destruct rows as [|e rest]; [done|].
    apply Forall_cons in Hpassed as [He _].
    simpl in Hflags. injection Hflags as Hfalse _. congruence.
Qed.

Lemma unit_without_failures stages ship blocks :
  unit_blocks stages ship blocks →
  Forall (fun e => GenerateData.qc_passed e = true) (concat blocks) →
  length (concat blocks) = length stages.
Proof.
  induction 1 as [|kv rows stages blocks Hblock _ IH]; simpl; [done|].
  intros Hpassed. apply Forall_app in Hpassed as [Hrows Hrest].
  rewrite length_app, (block_without_failures _ _ _ Hblock Hrows), IH by done.
  done.
Qed.

Lemma units_without_failures stages ships
    (units : list (list (list GenerateData.Event))) :
  Forall2 (fun i blocks => unit_blocks stages (ship_id_of i) blocks)
          ships units →
  Forall (fun e => GenerateData.qc_passed e = true)
         (concat (@concat _ <$> units)) →
  length (concat (@concat _ <$> units)) = (length ships * length stages)%nat.
Proof.
  induction 1 as [|i blocks ships units Hunit _ IH]; [done|].
  rewrite fmap_cons, concat_cons.
  intros Hpassed. apply Forall_app in Hpassed as [Hrows Hrest].
  rewrite length_app, (unit_without_failures _ _ _ Hunit Hrows), IH by done.
  simpl. done.
Qed.

(** X11. When every stage has [pass_rate ≥ 1] and the QC draws are below 1
    (as [random()] gives them), a returned ledger has no failed row and
    exactly one row per unit and stage: [num_starships * len(stages)]
    rows. *)
Theorem full_pass_rate_means_no_rework (d : ConfigDict) (params : SimParams)
    (stages : list (string * StageParams)) (zs us : list Q)
    (ledger : list GenerateData.Event) :
  simulation_parameters d = Some params →
  production_stages d = Some stages →
  Forall (fun kv : string * StageParams => (1 <= pass_rate kv.2)%Q) stages →
  Forall (fun u => (u < 1)%Q) us →
  GenerateData.run_configurable_simulation (ConfigDictOf d) zs us = Ok ledger →
  Forall (fun e => GenerateData.qc_passed e = true) ledger
  ∧ length ledger
    = (Z.to_nat (num_starships params) * length stages)%nat.
Proof.
  intros Hparams Hstages Hrates Hus Hrun.
  rewrite (batch_run_present d params stages zs us Hparams Hstages) in Hrun.
  destruct (GenerateData.ships_loop _ _ _ _ _ _)
    as [[[st zs'] us']| | | | |] eqn:Hloop; simpl in Hrun; try done.
  injection Hrun as <-.
  assert (Hpassed : Forall (fun e => GenerateData.qc_passed e = true)
                           (production_log st)).
  { apply batch_ships_loop_draws in Hloop
      as (rows & used_z & used_u & Hlog & _ & -> & _ & Hjudged).
    simpl in Hlog. rewrite Hlog.
    apply Forall_app in Hus as [Hused _].
    clear Hlog. induction Hjudged as [|e u rows used_u He _ IH];
      [constructor|].
    apply Forall_cons in Hused as [Hu Hused].
    constructor; [|by apply IH].
    destruct He as (sp & Hin & ->).
    apply Qlt_bool_true.
    rewrite Forall_forall in Hrates. specialize (Hrates _ Hin). simpl in Hrates.
    by eapply Qlt_le_trans. }
  split; [exact Hpassed|].
  apply batch_ships_loop_blocks in Hloop as (units & Hlog & Hunits).
  simpl in Hlog. rewrite Hlog in Hpassed |- *.
  rewrite (units_without_failures _ _ _ Hunits Hpassed).
  unfold ship_range. by rewrite length_seq.
Qed.

(** ** The what-if callback *)

Lemma stage_update_changes_one name f stages stages' :
  stage_update name f stages = Ok stages' →
  ∃ pre sp post,
    stages = pre ++ (name, sp) :: post
    ∧ stages' = pre ++ (name, f sp) :: post
    ∧ name ∉ pre.*1.
Proof.
  revert stages'. induction stages as [|[k sp] rest IH]; intros stages'; simpl;
    [done|].
  destruct (decide (k = name)) as [-> | Hne].
  - intros [= <-]. exists [], sp, rest. simpl.
    split; [done|]. split; [done|]. apply not_elem_of_nil.
  - destruct (stage_update name f rest) as [rest'| | | | |]; simpl; try done.
    intros [= <-].
    destruct (IH rest' eq_refl) as (pre & sp0 & post & -> & -> & Hpre).
    exists ((k, sp) :: pre), sp0, post. simpl.
    split; [done|]. split; [done|].
    apply not_elem_of_cons. by split.
Qed.

Lemma stage_update_missing name f stages :
  name ∉ stages.*1 → stage_update name f stages = KeyError name.
Proof.
  induction stages as [|[k sp] rest IH]; simpl; [done|].
  intros Hnot. apply not_elem_of_cons in Hnot as [Hne Hnot].
  destruct (decide (k = name)) as [-> | _]; [done|].
  by rewrite IH.
Qed.

Lemma stage_update_present name f stages :
  name ∈ stages.*1 → ∃ stages', stage_update name f stages = Ok stages'.
Proof.
  induction stages as [|[k sp] rest IH]; simpl.
  - intros H. by apply elem_of_nil in H.
  - intros Hin. destruct (decide (k = name)) as [-> | Hne]; [eauto|].
    apply elem_of_cons in Hin as [-> | Hin]; [done|].
    destruct (IH Hin) as [rest' ->]. simpl. eauto.
Qed.

Lemma improve_stage_well_formed name f d d' params stages :
  (∀ sp, valid_stage sp → valid_stage (f sp)) →
  well_formed d params stages →
  improve_stage name f d = Ok d' →
  ∃ stages',
    well_formed d' params stages'
    ∧ ∃ pre sp post,
        stages = pre ++ (name, sp) :: post
        ∧ stages' = pre ++ (name, f sp) :: post.
Proof.
  intros Hf (Hparams & Hstages & Hn & Hnd & Hvalid).
  unfold improve_stage. rewrite Hstages; simpl.
  destruct (stage_update name f stages) as [stages'| | | | |] eqn:Hupd;
    simpl; try done.
  intros [= <-].
  apply stage_update_changes_one in Hupd as (pre & sp & post & -> & -> & _).
  exists (pre ++ (name, f sp) :: post). split; [|by exists pre, sp, post].
  split; [exact Hparams|]. split; [reflexivity|]. split; [exact Hn|].
  split.
  - rewrite fmap_app, fmap_cons in Hnd |- *. exact Hnd.
  - apply Forall_app in Hvalid as [Hpre Hpost].
    apply Forall_cons in Hpost as [Hsp Hpost].
    apply Forall_app. split; [exact Hpre|].
    constructor; [by apply Hf | exact Hpost].
Qed.

Lemma add_station_valid sp : valid_stage sp → valid_stage (add_station sp).
Proof.
  intros (Hm & Hs & Hp0 & Hp1 & Hc). repeat split; try done. simpl. lia.
Qed.

Lemma set_pass_rate_98_valid sp :
  valid_stage sp → valid_stage (set_pass_rate_98 sp).
Proof. intros (Hm & Hs & Hp0 & Hp1 & Hc). repeat split; done. Qed.

Lemma cut_mean_time_valid sp : valid_stage sp → valid_stage (cut_mean_time sp).
Proof.
  intros (Hm & Hs & Hp0 & Hp1 & Hc). repeat split; try done. simpl.
  apply Qmult_lt_0_compat; done.
Qed.

Lemma apply_improvement_well_formed selected d d' description params stages :
  well_formed d params stages →
  apply_improvement selected d = Ok (d', description) →
  ∃ stages',
    well_formed d' params stages'
    ∧ (stages' = stages
       ∨ ∃ pre name sp sp' post,
           stages = pre ++ (name, sp) :: post
           ∧ stages' = pre ++ (name, sp') :: post).
Proof.
  intros Hwf. unfold apply_improvement.
  repeat case_decide.
  - destruct (improve_stage _ _ d) as [c| | | | |] eqn:Himp; simpl; try done.
    intros [= <- <-].
    destruct (improve_stage_well_formed _ _ _ _ _ _ add_station_valid Hwf Himp)
      as (stages' & Hwf' & pre & sp & post & Hs & Hs').
    exists stages'. split; [done|]. right. eexists pre, _, sp, _, post. eauto.
  - destruct (improve_stage _ _ d) as [c| | | | |] eqn:Himp; simpl; try done.
    intros [= <- <-].
    destruct (improve_stage_well_formed _ _ _ _ _ _ set_pass_rate_98_valid
                Hwf Himp)
      as (stages' & Hwf' & pre & sp & post & Hs & Hs').
    exists stages'. split; [done|]. right. eexists pre, _, sp, _, post. eauto.
  - destruct (improve_stage _ _ d) as [c| | | | |] eqn:Himp; simpl; try done.
    intros [= <- <-].
    destruct (improve_stage_well_formed _ _ _ _ _ _ cut_mean_time_valid
                Hwf Himp)
      as (stages' & Hwf' & pre & sp & post & Hs & Hs').
    exists stages'. split; [done|]. right. eexists pre, _, sp, _, post. eauto.
  - intros [= <- <-]. exists stages. split; [done | by left].
Qed.

(** X12. Whatever the dropdown value, a scenario that applies to a
    well-formed baseline configuration gives a well-formed configuration
    with the same number of units and the same stages in the same order, of
    which at most one has different parameters. *)
Theorem scenarios_keep_config_well_formed (selected : string)
    (d d' : ConfigDict) (description : string) (params : SimParams)
    (stages : list (string * StageParams)) :
  well_formed d params stages →
  apply_improvement selected d = Ok (d', description) →
  ∃ stages',
    well_formed d' params stages'
    ∧ stages'.*1 = stages.*1
    ∧ (stages' = stages
       ∨ ∃ pre name sp sp' post,
           stages = pre ++ (name, sp) :: post
           ∧ stages' = pre ++ (name, sp') :: post).
Proof.
  intros Hwf Happ.
  destruct (apply_improvement_well_formed _ _ _ _ _ _ Hwf Happ)
    as (stages' & Hwf' & Hshape).
  exists stages'. split; [exact Hwf'|]. split; [|exact Hshape].
  destruct Hshape as [-> | (pre & name & sp & sp' & post & -> & ->)]; [done|].
  by rewrite !fmap_app, !fmap_cons.
Qed.

Lemma config_with_stages_is_truthy d stages :
  production_stages d = Some stages → config_falsy (ConfigDictOf d) = false.
Proof.
  intros Hstages. unfold config_falsy. rewrite Hstages.
  by destruct (simulation_parameters d).
Qed.

Lemma improve_stage_missing name f d stages :
  production_stages d = Some stages →
  name ∉ stages.*1 →
  improve_stage name f d = KeyError name.
Proof.
  intros Hstages Hnot. unfold improve_stage. rewrite Hstages; simpl.
  by rewrite stage_update_missing.
Qed.

Lemma improve_stage_present name f d stages :
  production_stages d = Some stages →
  name ∈ stages.*1 →
  ∃ d', improve_stage name f d = Ok d'.
Proof.
  intros Hstages Hin. unfold improve_stage. rewrite Hstages; simpl.
  destruct (stage_update_present name f stages Hin) as [stages' ->]. simpl.
  eauto.
Qed.

(** X13. The callback's early exits.  With [n_clicks = 0] or no baseline
    configuration it returns the empty string, whatever the selection.
    Otherwise, when the stage a scenario modifies ([Heat_Shield_Tiling],
    [Welding] or [Plumbing_Wiring]) is not in the configuration, it raises
    [KeyError] with that stage's name and no simulation is run, whatever the
    draws; when the stage is there, the scenario applies. *)
Theorem callback_early_exits :
  (∀ config df_baseline n_clicks selected zs us,
     n_clicks = 0 ∨ config_falsy config = true →
     update_simulation_output config df_baseline n_clicks selected zs us
     = Ok EmptyString)
  ∧ ∀ d stages selected target,
      production_stages d = Some stages →
      (selected, target) ∈ [("add_tiling_station", "Heat_Shield_Tiling");
                            ("improve_welding_qc", "Welding");
                            ("reduce_plumbing_time", "Plumbing_Wiring")] →
      (target ∉ stages.*1 →
       ∀ df_baseline n_clicks zs us,
         n_clicks ≠ 0 →
         update_simulation_output (ConfigDictOf d) df_baseline n_clicks
           selected zs us = KeyError target)
      ∧ (target ∈ stages.*1 →
         ∃ d' description, apply_improvement selected d = Ok (d', description)).
Proof.
  split.
  - intros config df_baseline n_clicks selected zs us Hidle.
    unfold update_simulation_output.
    destruct (Dashboard.calculate_kpis df_baseline) as [[ships thr] days].
    destruct Hidle as [-> | ->]; [done|]. by rewrite orb_true_r.
  - intros d stages selected target Hstages Hpair.
    assert (Hcases : (selected = "add_tiling_station"
                      ∧ target = "Heat_Shield_Tiling")
                     ∨ (selected = "improve_welding_qc" ∧ target = "Welding")
                     ∨ (selected = "reduce_plumbing_time"
                        ∧ target = "Plumbing_Wiring")).
    { repeat (apply elem_of_cons in Hpair as [[= -> ->] | Hpair]; [tauto|]).
      by apply elem_of_nil in Hpair. }
    split.
    + intros Hnot df_baseline n_clicks zs us Hn.
      unfold update_simulation_output.
      destruct (Dashboard.calculate_kpis df_baseline) as [[ships thr] days].
      apply Z.eqb_neq in Hn. rewrite Hn.
      rewrite (config_with_stages_is_truthy d stages Hstages). simpl.
      unfold apply_improvement.
      destruct Hcases as [[-> ->] | [[-> ->] | [-> ->]]];
        repeat (case_decide; try done);
        by rewrite (improve_stage_missing _ _ d stages Hstages Hnot).
    + intros Hin. unfold apply_improvement.
      destruct Hcases as [[-> ->] | [[-> ->] | [-> ->]]];
        repeat (case_decide; try done);
        match goal with
        | |- context [improve_stage ?name ?f d] =>
            destruct (improve_stage_present name f d stages Hstages Hin)
              as [d' ->]
        end; simpl; eauto.
Qed.


Lemma well_formed_run_outcome d params stages zs us :
  well_formed d params stages →
  outcome_without_fault (Dashboard.run_simulation (ConfigDictOf d) zs us).
Proof.
  intros (Hparams & Hstages & Hn & Hnd & Hvalid).
  assert (Hready : stations_ready stages
            (initial_state (E := GenerateData.Event) (start_date params) stages)).
  { intros name sp Hin. simpl. apply init_availability_ready.
    - eapply Forall_impl; [exact Hvalid|]. by intros kv (_ & _ & _ & _ & ?).
    - apply list_elem_of_fmap. by exists (name, sp). }
  pose proof (batch_ships_loop_no_fault stages Hvalid (start_date params)
                (ship_range (num_starships params)) zs us _ Hready)
    as Hfree.
  rewrite run_simulation_project,
    (batch_run_present d params stages zs us Hparams Hstages).
  by destruct (GenerateData.ships_loop _ _ _ _ _ _).
Qed.


(** ** Worked runs for the further properties *)

Lemma two_stage_rows_run :
  Dashboard.run_simulation (ConfigDictOf two_stage_dict)
    five_normals five_uniforms = Ok two_stage_rows.
Proof. vm_compute. reflexivity. Qed.

Lemma two_stage_means_nonneg :
  Forall (fun kv : string * StageParams => (0 <= mean_time_hours kv.2)%Q)
         two_stage_line.
Proof. repeat constructor; done. Qed.

Lemma rows_last_at_least_an_hour_witness :
  Forall (fun e => GenerateData.start_time e + us_per_hour
                   ≤ GenerateData.end_time e) two_stage_ledger
  ∧ Forall (fun r => Dashboard.start_time r + us_per_hour
                     ≤ Dashboard.end_time r) two_stage_rows.
Proof.
  split.
  - exact (proj1 rows_last_at_least_an_hour _ _ _ _ two_stage_run).
  - exact (proj2 rows_last_at_least_an_hour _ _ _ _ two_stage_rows_run).
Defined.

Lemma unit_rows_in_sequence_witness :
  (1 ≤ 2 ≤ Z.to_nat (num_starships two_stage_params))%nat
  ∧ ∃ t1, in_sequence (start_date two_stage_params)
            (filter (fun e => GenerateData.ship_id e = ship_id_of 2)
                    two_stage_ledger) t1.
Proof.
  assert (Hi : (1 ≤ 2 ≤ Z.to_nat (num_starships two_stage_params))%nat)
    by (simpl; lia).
  split; [exact Hi|].
  exact (unit_rows_in_sequence two_stage_dict two_stage_params two_stage_line
           five_normals five_uniforms two_stage_ledger eq_refl eq_refl
           two_stage_means_nonneg two_stage_run 2%nat Hi).
Defined.

Lemma stations_never_double_booked_witness :
  ∃ e0 e3,
    two_stage_ledger !! 0%nat = Some e0
    ∧ two_stage_ledger !! 3%nat = Some e3
    ∧ GenerateData.station_id e0 = "Welding_1"
    ∧ GenerateData.station_id e3 = "Welding_1"
    ∧ GenerateData.end_time e0 ≤ GenerateData.start_time e3.
Proof.
  destruct (two_stage_ledger !! 0%nat) as [e0|] eqn:H0; [|discriminate H0].
  destruct (two_stage_ledger !! 3%nat) as [e3|] eqn:H3; [|discriminate H3].
  assert (Hstage : GenerateData.stage e0 = GenerateData.stage e3)
    by (injection H0 as <-; injection H3 as <-; reflexivity).
  assert (Hid : GenerateData.station_id e0 = GenerateData.station_id e3)
    by (injection H0 as <-; injection H3 as <-; reflexivity).
  assert (Hid0 : GenerateData.station_id e0 = "Welding_1")
    by (injection H0 as <-; reflexivity).
  assert (Hid3 : GenerateData.station_id e3 = "Welding_1")
    by (injection H3 as <-; reflexivity).
  assert (Hlt : (0 < 3)%nat) by lia.
  exists e0, e3.
  split; [reflexivity|]. split; [reflexivity|].
  split; [exact Hid0|]. split; [exact Hid3|].
  exact (stations_never_double_booked two_stage_dict two_stage_params
           two_stage_line five_normals five_uniforms two_stage_ledger
           eq_refl eq_refl two_stage_means_nonneg two_stage_run
           0%nat 3%nat e0 e3 Hlt H0 H3 Hstage Hid).
Defined.

Lemma rows_name_configured_stations_witness :
  NoDup two_stage_line.*1
  ∧ Forall (row_at_configured_station two_stage_line) two_stage_ledger.
Proof.
  split; [exact two_stage_names_distinct|].
  exact (rows_name_configured_stations two_stage_dict two_stage_params
           two_stage_line five_normals five_uniforms two_stage_ledger
           eq_refl eq_refl two_stage_names_distinct two_stage_run).
Defined.

Lemma ledger_needs_stations_and_spread_witness :
  1 ≤ num_starships two_stage_params
  ∧ Forall (fun kv : string * StageParams =>
              1 ≤ station_count kv.2 ∧ (0 <= std_dev_hours kv.2)%Q)
           two_stage_line.
Proof.
  assert (Hn : 1 ≤ num_starships two_stage_params) by (simpl; lia).
  split; [exact Hn|].
  exact (ledger_needs_stations_and_spread two_stage_dict two_stage_params
           two_stage_line five_normals five_uniforms eq_refl eq_refl
           two_stage_names_distinct Hn
           (or_introl (ex_intro _ two_stage_ledger two_stage_run))).
Defined.

Lemma ledger_is_unit_major_witness :
  ∃ units : list (list (list GenerateData.Event)),
    two_stage_ledger = concat (@concat _ <$> units)
    ∧ Forall2 (fun i blocks =>
                 unit_blocks two_stage_line (ship_id_of i) blocks)
              (ship_range (num_starships two_stage_params)) units.
Proof.
  exact (ledger_is_unit_major two_stage_dict two_stage_params two_stage_line
           five_normals five_uniforms two_stage_ledger eq_refl eq_refl
           two_stage_run).
Defined.

Lemma two_stage_simulate :
  GenerateData.simulate two_stage_dict
    (five_normals ++ [1; 2]%Q) (five_uniforms ++ [1 # 9]%Q)
  = Ok (two_stage_final.1.1, [1; 2]%Q, [1 # 9]%Q).
Proof. vm_compute. reflexivity. Qed.

Lemma one_row_per_pair_of_draws_witness :
  ∃ used_z used_u,
    five_normals ++ [1; 2]%Q = used_z ++ [1; 2]%Q
    ∧ five_uniforms ++ [1 # 9]%Q = used_u ++ [1 # 9]%Q
    ∧ Forall2 (row_timed_by two_stage_line)
              (production_log two_stage_final.1.1) used_z
    ∧ Forall2 (row_judged_by two_stage_line)
              (production_log two_stage_final.1.1) used_u.
Proof.
  destruct (one_row_per_pair_of_draws two_stage_dict two_stage_params
              two_stage_line _ _ _ _ _ eq_refl eq_refl two_stage_simulate)
    as (used_z & used_u & Hz & Hu & Htimed & Hjudged & _).
  exists used_z, used_u. done.
Defined.

Lemma kpis_are_bounded_witness :
  0 ≤ (Dashboard.calculate_kpis kpi_rows).1.1 ≤ Z.of_nat (length kpi_rows)
  ∧ (0 <= (Dashboard.calculate_kpis kpi_rows).1.2)%Q.
Proof.
  destruct (kpis_are_bounded kpi_rows) as (Hships & _ & Hthr & _).
  split; [exact Hships | exact Hthr].
Defined.

Lemma kpis_count_every_unit_witness :
  "Final_Checkout" ∈ two_stage_line.*1
  ∧ 0 ≤ num_starships two_stage_params
  ∧ (Dashboard.calculate_kpis two_stage_rows).1.1 = 2
  ∧ 0 ≤ (Dashboard.calculate_kpis two_stage_rows).2.
Proof.
  assert (Hfinal : "Final_Checkout" ∈ two_stage_line.*1)
    by (right; by left).
  assert (Hn : 0 ≤ num_starships two_stage_params) by (simpl; lia).
  split; [exact Hfinal|]. split; [exact Hn|].
  exact (kpis_count_every_unit two_stage_dict two_stage_params two_stage_line
           five_normals five_uniforms two_stage_rows eq_refl eq_refl
           two_stage_names_distinct Hfinal Hn two_stage_rows_run).
Defined.

Lemma no_parameters_run :
  GenerateData.run_configurable_simulation (ConfigDictOf no_parameters_dict)
    five_normals five_uniforms = KeyError "simulation_parameters".
Proof. reflexivity. Qed.

Lemma engine_lookups_never_fail_witness :
  ∃ d, ConfigDictOf no_parameters_dict = ConfigDictOf d
       ∧ (("simulation_parameters" = "simulation_parameters"
           ∧ simulation_parameters d = None)
          ∨ ("simulation_parameters" = "production_stages"
             ∧ production_stages d = None)).
Proof.
  exact (proj2 (proj2 (engine_lookups_never_fail
                         (ConfigDictOf no_parameters_dict)
                         five_normals five_uniforms))
           "simulation_parameters" (or_introl no_parameters_run)).
Defined.

Lemma checkout_only_run :
  GenerateData.run_configurable_simulation (ConfigDictOf checkout_only_dict)
    five_normals five_uniforms = Ok checkout_only_ledger.
Proof. vm_compute. reflexivity. Qed.

Lemma full_pass_rate_means_no_rework_witness :
  Forall (fun kv : string * StageParams => (1 <= pass_rate kv.2)%Q)
         [("Final_Checkout", final_checkout)]
  ∧ Forall (fun u => (u < 1)%Q) five_uniforms
  ∧ Forall (fun e => GenerateData.qc_passed e = true) checkout_only_ledger
  ∧ length checkout_only_ledger = 2%nat.
Proof.
  assert (Hrates : Forall (fun kv : string * StageParams =>
                             (1 <= pass_rate kv.2)%Q)
                          [("Final_Checkout", final_checkout)])
    by (repeat constructor; done).
  assert (Hus : Forall (fun u => (u < 1)%Q) five_uniforms)
    by (repeat constructor; done).
  split; [exact Hrates|]. split; [exact Hus|].
  exact (full_pass_rate_means_no_rework checkout_only_dict two_stage_params
           [("Final_Checkout", final_checkout)] five_normals five_uniforms
           checkout_only_ledger eq_refl eq_refl Hrates Hus checkout_only_run).
Defined.

Lemma welding_scenario_applies :
  apply_improvement "improve_welding_qc" two_stage_dict
  = Ok (welding_scenario.1, welding_scenario.2).
Proof. vm_compute. reflexivity. Qed.

Lemma scenarios_keep_config_well_formed_witness :
  well_formed two_stage_dict two_stage_params two_stage_line
  ∧ ∃ stages',
      well_formed welding_scenario.1 two_stage_params stages'
      ∧ stages'.*1 = two_stage_line.*1.
Proof.
  split; [exact two_stage_well_formed|].
  destruct (scenarios_keep_config_well_formed "improve_welding_qc"
              two_stage_dict welding_scenario.1 welding_scenario.2
              two_stage_params two_stage_line two_stage_well_formed
              welding_scenario_applies)
    as (stages' & Hwf & Hnames & _).
  exists stages'. split; [exact Hwf | exact Hnames].
Defined.

Lemma callback_early_exits_witness :
  ("Heat_Shield_Tiling" ∉ two_stage_line.*1)
  ∧ update_simulation_output (ConfigDictOf two_stage_dict) [] 1
      "add_tiling_station" five_normals five_uniforms
    = KeyError "Heat_Shield_Tiling"
  ∧ update_simulation_output (ConfigDictOf two_stage_dict) [] 0
      "add_tiling_station" five_normals five_uniforms
    = Ok EmptyString.
Proof.
  assert (Hnot : "Heat_Shield_Tiling" ∉ two_stage_line.*1).
  { intros Hin. repeat (apply elem_of_cons in Hin as [Hin | Hin]; [done|]).
    by apply elem_of_nil in Hin. }
  assert (Hpair : ("add_tiling_station", "Heat_Shield_Tiling")
                  ∈ [("add_tiling_station", "Heat_Shield_Tiling");
                     ("improve_welding_qc", "Welding");
                     ("reduce_plumbing_time", "Plumbing_Wiring")])
    by (by left).
  assert (Hone : (1 : Z) ≠ 0) by lia.
  split; [exact Hnot|]. split.
  - exact (proj1 (proj2 callback_early_exits two_stage_dict two_stage_line
                    "add_tiling_station" "Heat_Shield_Tiling" eq_refl Hpair)
             Hnot [] 1 five_normals five_uniforms Hone).
  - exact (proj1 callback_early_exits (ConfigDictOf two_stage_dict) [] 0
             "add_tiling_station" five_normals five_uniforms
             (or_introl eq_refl)).
Defined.

Lemma stale_baseline_click_returns :
  dashboard_click (Some welding_only_rows) (ConfigDictOf two_stage_dict) 1
    "improve_welding_qc" five_normals five_uniforms
  = Ok (SimulationResults stale_baseline_table).
Proof. vm_compute. reflexivity. Qed.


Lemma welding_scenario_run :
  Dashboard.run_simulation (ConfigDictOf welding_scenario.1)
    five_normals five_uniforms = Ok welding_scenario_rows.
Proof. vm_compute. reflexivity. Qed.


(** ** Nothing to build *)

Lemma batch_ships_loop_no_stages start ships : ∀ zs us st,
  ∃ st', GenerateData.ships_loop start [] ships zs us st = Ok (st', zs, us)
         ∧ production_log st' = production_log st.
Proof.
  induction ships as [|i rest IH]; intros zs us st; simpl; [eauto|].
  destruct (IH zs us (enter_ship (ship_id_of i) start st)) as (st' & -> & Hlog).
  eauto.
Qed.

(** X16. With [num_starships ≤ 0], whatever the stages (valid or not), or
    with no stages at all, the simulation takes no draw from either
    generator and both engines return the empty ledger. *)
Theorem nothing_to_build (d : ConfigDict) (params : SimParams)
    (stages : list (string * StageParams)) (zs us : list Q) :
  simulation_parameters d = Some params →
  production_stages d = Some stages →
  num_starships params ≤ 0 ∨ stages = [] →
  (∃ st, GenerateData.simulate d zs us = Ok (st, zs, us)
         ∧ production_log st = [])
  ∧ GenerateData.run_configurable_simulation (ConfigDictOf d) zs us = Ok []
  ∧ Dashboard.run_simulation (ConfigDictOf d) zs us = Ok [].
Proof.
  intros Hparams Hstages Hnothing.
  assert (Hsim : ∃ st, GenerateData.simulate d zs us = Ok (st, zs, us)
                       ∧ production_log st = []).
  { unfold GenerateData.simulate. rewrite Hparams, Hstages. simpl.
    destruct Hnothing as [Hn | ->].
    - unfold ship_range.
      replace (Z.to_nat (num_starships params)) with 0%nat by lia.
      simpl. eauto.
    - apply batch_ships_loop_no_stages. }
  split; [exact Hsim|].
  destruct Hsim as (st & Hsim & Hlog).
  assert (Hbatch : GenerateData.run_configurable_simulation (ConfigDictOf d)
                     zs us = Ok []).
  { unfold GenerateData.run_configurable_simulation, config_falsy.
    rewrite Hparams, Hsim. simpl. by rewrite Hlog. }
  split; [exact Hbatch|].
  rewrite run_simulation_project, Hbatch. reflexivity.
Qed.

Lemma nothing_to_build_witness :
  (num_starships no_units_params ≤ 0 ∨ invalid_line = [])
  ∧ GenerateData.run_configurable_simulation (ConfigDictOf no_units_dict)
      [] [] = Ok [].
Proof.
  assert (Hn : num_starships no_units_params ≤ 0 ∨ invalid_line = [])
    by (left; simpl; lia).
  split; [exact Hn|].
  exact (proj1 (proj2 (nothing_to_build no_units_dict no_units_params
                         invalid_line [] [] eq_refl eq_refl Hn))).
Defined.

(** ** The retry loop cannot run for ever *)

(** With both draws at hand a turn completes or leaves the calendar. *)
Lemma attempt_with_draws {E : Type}
    (mk : string → string → nat → Z → Z → Q → bool → E)
    stages ship stage_name sp z zs u us (st : SimState E) :
  ready_for stages ship st →
  (stage_name, sp) ∈ stages →
  (0 <= std_dev_hours sp)%Q →
  attempt mk ship stage_name sp (z :: zs) (u :: us) st = OverflowError
  ∨ ∃ st', attempt mk ship stage_name sp (z :: zs) (u :: us) st
           = Ok (Qlt_bool u (pass_rate sp), (st', zs, us)).
Proof.
  intros [Hstations [ready Hready]] Hin Hstd.
  destruct (Hstations _ _ Hin) as (l & Hl & Hne).
  destruct (np_argmin_nonempty l Hne) as [idx Hidx].
  destruct (np_argmin_spec l idx Hidx) as (v & Hv & _).
  apply Qlt_bool_false in Hstd.
  unfold attempt, np_random_normal, list_get.
  rewrite Hl; simpl. rewrite Hidx; simpl. rewrite Hv; simpl.
  rewrite Hready; simpl. rewrite Hstd. simpl.
  destruct (timedelta_of_hours_cases (py_max_Q 1
              (mean_time_hours sp + std_dev_hours sp * z))) as [-> | ->];
    simpl; [|by left].
  destruct (datetime_add_cases (py_max_dt ready v)
              (timedelta_hours (py_max_Q 1
                 (mean_time_hours sp + std_dev_hours sp * z))))
    as [-> | ->]; simpl; [|by left].
  destruct (Qlt_bool u (pass_rate sp)); simpl; [eauto|].
  destruct (timedelta_of_hours_cases (mean_time_hours sp * (1 # 4)))
    as [-> | ->]; simpl; [|by left].
  match goal with
  | |- context [datetime_add ?t ?d] =>
      destruct (datetime_add_cases t d) as [-> | ->]
  end; simpl; eauto.
Qed.

(** A completed turn leaves the ship at a [datetime] at least an hour after
    the time it was ready. *)
Lemma attempt_ship_time {E : Type}
    (mk : string → string → nat → Z → Z → Q → bool → E)
    ship stage_name sp zs us (st : SimState E) passed st' zs' us' ready :
  (0 <= mean_time_hours sp)%Q →
  ship_completion_times st !! ship = Some ready →
  attempt mk ship stage_name sp zs us st = Ok (passed, (st', zs', us')) →
  ∃ t, ship_completion_times st' !! ship = Some t
       ∧ ready + us_per_hour ≤ t ≤ datetime_max.
Proof.
  intros Hmean Hready.
  unfold attempt, np_random_normal, list_get.
  destruct (station_availability st !! stage_name) as [avail|]; simpl; try done.
  destruct (np_argmin avail) as [idx| | | | |]; simpl; try done.
  destruct (avail !! idx) as [available|]; simpl; try done.
  rewrite Hready; simpl.
  destruct (Qlt_bool (std_dev_hours sp) 0); simpl; try done.
  destruct zs as [|z zs0]; simpl; try done.
  pose proof (timedelta_hours_lower 1 _ ltac:(done)
                (py_max_Q_lower 1 (mean_time_hours sp + std_dev_hours sp * z)))
    as Hhour.
  pose proof (py_max_dt_ge_l ready available) as Hstart.
  destruct (timedelta_of_hours (py_max_Q _ _)) as [duration| | | | |] eqn:Hd;
    simpl; try done.
  apply timedelta_of_hours_ok in Hd as [-> _].
  destruct (datetime_add _ _) as [end_time| | | | |] eqn:He; simpl; try done.
  apply datetime_add_ok in He as [-> He].
  destruct us as [|u us0]; simpl; try done.
  destruct (Qlt_bool u (pass_rate sp)); simpl.
  - intros [= <- <- <- <-]. simpl. rewrite lookup_insert_eq.
    eexists. split; [reflexivity|]. lia.
  - pose proof (timedelta_hours_nonneg (mean_time_hours sp * (1 # 4))
                  ltac:(by apply Qmult_le_0_compat)) as Hrework.
    destruct (timedelta_of_hours _) as [rework| | | | |] eqn:Hr;
      simpl; try done.
    apply timedelta_of_hours_ok in Hr as [-> _].
    destruct (datetime_add _ _) as [rework_end| | | | |] eqn:Hre;
      simpl; try done.
    apply datetime_add_ok in Hre as [-> Hre].
    intros [= <- <- <- <-]. simpl. rewrite lookup_insert_eq.
    eexists. split; [reflexivity|]. lia.
Qed.

Lemma batch_stage_loop_overflows stages ship stage_name sp us :
  (stage_name, sp) ∈ stages →
  valid_stage sp →
  Forall (fun u => (pass_rate sp <= u)%Q) us →
  ∀ zs (st : SimState GenerateData.Event) ready,
    (length us ≤ length zs)%nat →
    ready_for stages ship st →
    ship_completion_times st !! ship = Some ready →
    ready ≤ datetime_max →
    datetime_max < ready + us_per_hour * Z.of_nat (length us) →
    GenerateData.stage_loop ship stage_name sp zs us st = OverflowError.
Proof.
  intros Hin Hvalid Hfail.
  assert (Hstd : (0 <= std_dev_hours sp)%Q) by (by destruct Hvalid as (_ & ? & _)).
  assert (Hmean : (0 <= mean_time_hours sp)%Q)
    by (destruct Hvalid as (? & _); by apply Qlt_le_weak).
  induction Hfail as [|u us Hu _ IH]; intros zs st ready Hlen Hready Hship
    Hcal Hlate.
  - simpl in Hlate. lia.
  - destruct zs as [|z zs]; [simpl in Hlen; lia|]. simpl in Hlen.
    rewrite batch_stage_loop_unfold.
    destruct (attempt_with_draws batch_event stages ship stage_name sp z zs
                u us st Hready Hin Hstd) as [-> | [st1 Hturn]]; [done|].
    rewrite Hturn. unfold continue_with; simpl.
    apply Qlt_bool_false in Hu. rewrite Hu in Hturn |- *.
    destruct (attempt_ship_time _ _ _ _ _ _ _ _ _ _ _ _ Hmean Hship Hturn)
      as (t & Ht & Hlo & Hhi).
    apply (IH zs st1 t); try done; [lia| |].
    + by eapply attempt_keeps_ready.
    + simpl length in Hlate. lia.
Qed.

(** X17. The retry loop cannot run for ever.  On a well-formed
    configuration whose start date is a [datetime], when none of the QC
    draws passes the first stage and they number more than the hours left
    in the calendar after the start date, both engines raise
    [OverflowError] (given as many normal draws): every failed attempt
    moves the unit at least an hour on. *)
Theorem retry_loop_ends_in_overflow (d : ConfigDict) (params : SimParams)
    (stage_name : string) (sp : StageParams)
    (rest : list (string * StageParams)) (zs us : list Q) :
  well_formed d params ((stage_name, sp) :: rest) →
  start_date params ≤ datetime_max →
  Forall (fun u => (pass_rate sp <= u)%Q) us →
  (length us ≤ length zs)%nat →
  datetime_max < start_date params + us_per_hour * Z.of_nat (length us) →
  GenerateData.run_configurable_simulation (ConfigDictOf d) zs us
  = OverflowError
  ∧ Dashboard.run_simulation (ConfigDictOf d) zs us = OverflowError.
Proof.
  intros (Hparams & Hstages & Hn & Hnd & Hvalid) Hcal Hfail Hlen Hlate.
  assert (Hbatch : GenerateData.run_configurable_simulation (ConfigDictOf d)
                     zs us = OverflowError).
  { rewrite (batch_run_present d params _ zs us Hparams Hstages).
    unfold ship_range.
    destruct (Z.to_nat (num_starships params)) as [|n] eqn:Hships; [lia|].
    simpl seq. cbn [GenerateData.ships_loop GenerateData.stages_loop].
    rewrite (batch_stage_loop_overflows ((stage_name, sp) :: rest)
               (ship_id_of 1) stage_name sp us ltac:(by left)
               ltac:(by apply Forall_cons in Hvalid as [? _]) Hfail zs _
               (start_date params) Hlen); try done.
    apply enter_ship_ready.
    intros name sp' Hin. simpl. apply init_availability_ready.
    - eapply Forall_impl; [exact Hvalid|].
      by intros kv (_ & _ & _ & _ & ?).
    - apply list_elem_of_fmap. by exists (name, sp'). }
  split; [exact Hbatch|].
  by rewrite run_simulation_project, Hbatch.
Qed.

Lemma last_day_well_formed :
  well_formed last_day_dict last_day_params
    [("Final_Checkout", never_passing_stage)].
Proof.
  repeat split; try done.
  - simpl. apply NoDup_singleton.
  - repeat constructor; done.
Qed.

Lemma retry_loop_ends_in_overflow_witness :
  well_formed last_day_dict last_day_params
    [("Final_Checkout", never_passing_stage)]
  ∧ start_date last_day_params ≤ datetime_max
  ∧ Forall (fun u => (pass_rate never_passing_stage <= u)%Q) day_of_draws
  ∧ (length day_of_draws ≤ length day_of_draws)%nat
  ∧ datetime_max
    < start_date last_day_params
      + us_per_hour * Z.of_nat (length day_of_draws)
  ∧ GenerateData.run_configurable_simulation (ConfigDictOf last_day_dict)
      day_of_draws day_of_draws = OverflowError
  ∧ Dashboard.run_simulation (ConfigDictOf last_day_dict)
      day_of_draws day_of_draws = OverflowError.
Proof.
  assert (Hcal : start_date last_day_params ≤ datetime_max)
    by (vm_compute; discriminate).
  assert (Hfail : Forall (fun u => (pass_rate never_passing_stage <= u)%Q)
                    day_of_draws) by (repeat constructor; done).
  assert (Hlen : (length day_of_draws ≤ length day_of_draws)%nat) by lia.
  assert (Hlate : datetime_max
                  < start_date last_day_params
                    + us_per_hour * Z.of_nat (length day_of_draws))
    by (vm_compute; reflexivity).
  split; [exact last_day_well_formed|]. split; [exact Hcal|].
  split; [exact Hfail|]. split; [exact Hlen|]. split; [exact Hlate|].
  exact (retry_loop_ends_in_overflow last_day_dict last_day_params
           "Final_Checkout" never_passing_stage [] day_of_draws day_of_draws
           last_day_well_formed Hcal Hfail Hlen Hlate).
Defined.
